(** * CRM sales pipeline: a shallow embedding and its verified properties

    The development follows the two pipeline scripts of the repository
    ([Updated.pipeline.py] and the original [CRM Data Pipeline.py]).  The
    scripts are straight-line glue around four services: the file system
    ([pathlib], [shutil], [open]), the console ([print]), pandas data
    frames and scikit-learn.  Each service is modelled by the part of its
    documented behaviour the scripts rely on:

    - the file system is a tree of regular files and directories, paths are
      lists of components counted from the root of that tree; symbolic
      links and permissions are left out;
    - the console is the list of lines printed so far;
    - a data frame is a list of column labels and a list of rows of cells;
      numbers are exact rationals.  pandas sums a column of integers in
      64-bit integers, which is modelled with its wrap-around, and any other
      column in binary64, which is not: the sums, means and percentages of
      the model are those of pandas only where every intermediate value is a
      binary64 number, and the properties that give values say so;
    - scikit-learn, NumPy's random generator, the check pandas makes before
      a merge and Python's value formatting are an interface ([Libs]) whose
      operations are taken as given.

    Python exceptions are values of [exn]; a computation that touches the
    file system or the console lives in the state-and-exception monad [M]. *)

From Stdlib Require Import List String Ascii ZArith QArith Lia Bool Arith.
From Stdlib Require Import Qround Qabs Lqa Sorted.
Import ListNotations.

Close Scope Q_scope.
Local Open Scope string_scope.
Local Open Scope list_scope.

Set Implicit Arguments.
Set Warnings "-register-all".

(* ================================================================== *)
(** ** Exceptions and results *)

Inductive exn : Type :=
| FileNotFoundError (msg : string)
| FileExistsError
| NotADirectoryError
| IsADirectoryError
| IndexError
| TypeError
| ValueError.

Inductive result (A : Type) : Type :=
| Ok (a : A)
| Raise (e : exn).

Arguments Ok {A} a.
Arguments Raise {A} e.

Definition isOk {A} (r : result A) : bool :=
  match r with Ok _ => true | Raise _ => false end.

(* ================================================================== *)
(** ** Python strings *)

Module PyStr.

(** [str.lower] on the ASCII range; bytes above 127 (the UTF-8 encoding of
    any other character) are left alone. *)
Definition lower_ascii (c : ascii) : ascii :=
  let n := nat_of_ascii c in
  if andb (65 <=? n)%nat (n <=? 90)%nat then ascii_of_nat (n + 32) else c.

Fixpoint lower (s : string) : string :=
  match s with
  | EmptyString => EmptyString
  | String c s' => String (lower_ascii c) (lower s')
  end.

(** [k in s]: [k] occurs in [s] as a contiguous substring. *)
Fixpoint contains (k s : string) : bool :=
  if String.prefix k s then true
  else match s with
       | EmptyString => false
       | String _ s' => contains k s'
       end.

(** Truthiness of a string: only the empty string is falsy. *)
Definition truthy (s : string) : bool :=
  match s with EmptyString => false | String _ _ => true end.

(** Truthiness of [Optional[str]]: [None] and the empty string are falsy. *)
Definition truthy_opt (o : option string) : bool :=
  match o with None => false | Some s => truthy s end.

(** [a or b] where [a : Optional[str]] and [b : str]. *)
Definition or_else (a : option string) (b : string) : string :=
  match a with
  | Some s => if truthy s then s else b
  | None => b
  end.

End PyStr.

(* ================================================================== *)
(** ** The file system *)

Module FS.

Definition path := list string.

Inductive node : Type :=
| File (data : string)
| Dir (entries : list (string * node)).

Fixpoint lookup_entry (c : string) (es : list (string * node)) : option node :=
  match es with
  | [] => None
  | (c', n) :: es' => if String.eqb c c' then Some n else lookup_entry c es'
  end.

(** Replace the entry called [c], or append it when there is none. *)
Fixpoint set_entry (c : string) (n : node) (es : list (string * node))
  : list (string * node) :=
  match es with
  | [] => [(c, n)]
  | (c', n') :: es' =>
      if String.eqb c c' then (c', n) :: es' else (c', n') :: set_entry c n es'
  end.

Fixpoint lookup (p : path) (n : node) : option node :=
  match p with
  | [] => Some n
  | c :: p' =>
      match n with
      | File _ => None
      | Dir es =>
          match lookup_entry c es with
          | Some child => lookup p' child
          | None => None
          end
      end
  end.

(** [Path.exists()] *)
Definition exists_ (p : path) (n : node) : bool :=
  match lookup p n with Some _ => true | None => false end.

Definition is_file (p : path) (n : node) : bool :=
  match lookup p n with Some (File _) => true | _ => false end.

Definition is_dir (p : path) (n : node) : bool :=
  match lookup p n with Some (Dir _) => true | _ => false end.

(** [Path.mkdir(parents=True, exist_ok=True)]: every missing component is
    created; an existing directory is accepted; a regular file in the way
    raises. *)
Fixpoint mkdir_p (p : path) (n : node) : result node :=
  match p with
  | [] =>
      match n with
      | Dir es => Ok (Dir es)
      | File _ => Raise FileExistsError
      end
  | c :: p' =>
      match n with
      | File _ => Raise NotADirectoryError
      | Dir es =>
          match lookup_entry c es with
          | Some child =>
              match mkdir_p p' child with
              | Ok child' => Ok (Dir (set_entry c child' es))
              | Raise e => Raise e
              end
          | None =>
              match mkdir_p p' (Dir []) with
              | Ok child' => Ok (Dir (set_entry c child' es))
              | Raise e => Raise e
              end
          end
      end
  end.

(** [open(p, "w")], one [write] and the close: the file is created or
    truncated; its parent has to be a directory. *)
Fixpoint write_file (p : path) (data : string) (n : node) : result node :=
  match p with
  | [] =>
      match n with
      | File _ => Ok (File data)
      | Dir _ => Raise IsADirectoryError
      end
  | c :: p' =>
      match n with
      | File _ => Raise NotADirectoryError
      | Dir es =>
          match lookup_entry c es with
          | Some child =>
              match write_file p' data child with
              | Ok child' => Ok (Dir (set_entry c child' es))
              | Raise e => Raise e
              end
          | None =>
              match p' with
              | [] => Ok (Dir (set_entry c (File data) es))
              | _ :: _ => Raise (FileNotFoundError c)
              end
          end
      end
  end.

(** [str(path)] *)
Definition to_string (p : path) : string := String.concat "/" p.

(** [Path.name] *)
Definition name (p : path) : string := last p EmptyString.

End FS.

(* ================================================================== *)
(** ** Data frames *)

Module DF.

(** A cell is missing ([NaN]), a number or a string. *)
Inductive cell : Type :=
| NaN
| Num (q : Q)
| Str (s : string).

(** Equality of cells as the join and the counting use it: numbers by
    value, missing keys equal to each other. *)
Definition cell_eqb (a b : cell) : bool :=
  match a, b with
  | NaN, NaN => true
  | Num p, Num q => Qeq_bool p q
  | Str s, Str t => String.eqb s t
  | _, _ => false
  end.

Definition isna (c : cell) : bool :=
  match c with NaN => true | _ => false end.

Record DataFrame : Type := mkDF {
  columns : list string;
  rows : list (list cell)
}.

(** Every row has one cell per column. *)
Definition well_formed (df : DataFrame) : Prop :=
  Forall (fun r => List.length r = List.length (columns df)) (rows df).

(** ["c" in df.columns] *)
Definition has_column (c : string) (df : DataFrame) : bool :=
  existsb (String.eqb c) (columns df).

Fixpoint index_of (c : string) (cs : list string) : nat :=
  match cs with
  | [] => 0
  | c' :: cs' => if String.eqb c c' then 0 else S (index_of c cs')
  end.

(** [df[c]] as the list of its cells. *)
Definition column (c : string) (df : DataFrame) : list cell :=
  map (fun r => nth (index_of c (columns df)) r NaN) (rows df).

Fixpoint remove_nth {A} (i : nat) (l : list A) : list A :=
  match l, i with
  | [], _ => []
  | _ :: l', 0 => l'
  | x :: l', S i' => x :: remove_nth i' l'
  end.

(** *** Kinds of key columns *)

Definition is_text (c : cell) : bool :=
  match c with Str _ => true | _ => false end.

Definition is_number (c : cell) : bool :=
  match c with Num _ => true | _ => false end.

(** A column of text: it has a text cell and no number (cells may be
    missing). *)
Definition textual (col : list cell) : bool :=
  andb (existsb is_text col) (negb (existsb is_number col)).

(** A column of numbers: it has a cell and no text (cells may be missing). *)
Definition numerical (col : list cell) : bool :=
  andb (match col with [] => false | _ => true end)
       (negb (existsb is_text col)).

Fixpoint unique_labels (cs : list string) : bool :=
  match cs with
  | [] => true
  | c :: cs' => andb (negb (existsb (String.eqb c) cs')) (unique_labels cs')
  end.

(** *** [left.merge(right, on=key, how="left")] *)

Definition left_label (key : string) (right_cols : list string) (c : string)
  : string :=
  if andb (negb (String.eqb c key)) (existsb (String.eqb c) right_cols)
  then (c ++ "_x")%string else c.

Definition right_label (left_cols : list string) (c : string) : string :=
  if existsb (String.eqb c) left_cols then (c ++ "_y")%string else c.

Definition merged_columns (key : string) (l r : DataFrame) : list string :=
  map (left_label key (columns r)) (columns l)
  ++ map (right_label (columns l))
         (remove_nth (index_of key (columns r)) (columns r)).

(** The two tables share no label but [key]. *)
Definition disjoint_labels (key : string) (l r : DataFrame) : bool :=
  forallb (fun c => orb (String.eqb c key)
                        (negb (existsb (String.eqb c) (columns r))))
          (columns l).

Definition key_of (key : string) (df : DataFrame) (row : list cell) : cell :=
  nth (index_of key (columns df)) row NaN.

(** The rows of [r] whose key equals the key of the left row [lrow]. *)
Definition matches (key : string) (l r : DataFrame) (lrow : list cell)
  : list (list cell) :=
  filter (fun rrow => cell_eqb (key_of key l lrow) (key_of key r rrow))
         (rows r).

(** The rows one left row contributes: one per matching right row, in the
    order of the right table, or itself padded with missing cells when
    nothing matches. *)
Definition join_row (key : string) (l r : DataFrame) (lrow : list cell)
  : list (list cell) :=
  let ki := index_of key (columns r) in
  match matches key l r lrow with
  | [] => [lrow ++ repeat NaN (List.length (columns r) - 1)]
  | ms => map (fun rrow => lrow ++ remove_nth ki rrow) ms
  end.

Definition merge_left (key : string) (l r : DataFrame) : DataFrame :=
  mkDF (merged_columns key l r) (flat_map (join_row key l r) (rows l)).

(** *** Reductions of a column *)

(** The numbers of a column, missing cells skipped; a string makes the
    arithmetic reductions raise. *)
Fixpoint numbers (col : list cell) : result (list Q) :=
  match col with
  | [] => Ok []
  | NaN :: col' => numbers col'
  | Num q :: col' =>
      match numbers col' with
      | Ok qs => Ok (q :: qs)
      | Raise e => Raise e
      end
  | Str _ :: _ => Raise TypeError
  end.

Definition Qsum (qs : list Q) : Q := fold_right Qplus (0 # 1)%Q qs.

(** The sum of the numbers of a column, exact.  pandas adds a column that
    is not of type [int64] in binary64: the two agree where every partial
    sum is a binary64 number. *)
Definition series_sum (qs : list Q) : cell := Num (Qred (Qsum qs)).

(** The value of an integer once reduced to the 64-bit range. *)
Definition int64_wrap (z : Z) : Z :=
  ((z + 9223372036854775808) mod 18446744073709551616 - 9223372036854775808)%Z.

(** The cell holds an integer that fits 64 bits. *)
Definition is_int64 (c : cell) : bool :=
  match c with
  | Num q =>
      let r := Qred q in
      andb (Pos.eqb (Qden r) 1)
           (andb (- 9223372036854775808 <=? Qnum r)%Z
                 (Qnum r <? 9223372036854775808)%Z)
  | _ => false
  end.

(** The column has the type [int64]: it has a cell, and every cell is an
    integer of 64 bits (a missing cell makes the column [float64]). *)
Definition int64_column (col : list cell) : bool :=
  match col with
  | [] => false
  | _ => forallb is_int64 col
  end.

(** [Series.sum()] of the column [col] whose numbers are [qs]: a column of
    type [int64] is summed in 64-bit integers, which wrap around. *)
Definition column_sum (col : list cell) (qs : list Q) : cell :=
  if int64_column col
  then Num (inject_Z (int64_wrap (Qfloor (Qsum qs))))
  else series_sum qs.

(** [Series.mean()] of a numeric column: missing when there is no value,
    else the exact quotient of the sum by the count.  pandas divides in
    binary64: the two agree where the sum is exact and the quotient is a
    binary64 number. *)
Definition series_mean (qs : list Q) : cell :=
  match qs with
  | [] => NaN
  | _ => Num (Qred (Qsum qs / inject_Z (Z.of_nat (List.length qs)))%Q)
  end.

(** Round to the nearest integer, ties to the even one. *)
Definition round_half_even (q : Q) : Z :=
  let n := Qnum q in
  let d := Z.pos (Qden q) in
  let f := (n / d)%Z in
  let r := (n mod d)%Z in
  match (2 * r ?= d)%Z with
  | Lt => f
  | Gt => (f + 1)%Z
  | Eq => if Z.even f then f else (f + 1)%Z
  end.

(** [round(x, 2)] *)
Definition round2 (c : cell) : cell :=
  match c with
  | Num q => Num (Qred (inject_Z (round_half_even (q * (100 # 1))%Q) / (100 # 1))%Q)
  | other => other
  end.

(** [x * 100] *)
Definition times100 (c : cell) : cell :=
  match c with
  | Num q => Num (Qred (q * (100 # 1))%Q)
  | other => other
  end.

(** *** [Series.value_counts().to_dict()] *)

Definition count (v : cell) (col : list cell) : nat :=
  List.length (filter (cell_eqb v) col).

(** The values of a column without repetition, in order of first
    appearance, missing cells dropped. *)
Fixpoint distinct (col : list cell) : list cell :=
  match col with
  | [] => []
  | v :: col' =>
      if isna v then distinct col'
      else v :: filter (fun w => negb (cell_eqb v w)) (distinct col')
  end.

(** Insertion by decreasing count; the entry goes in front of the entries
    that have its count, so that [sort_desc] below, which inserts the values
    from the last to the first, leaves equal counts in order of first
    appearance. *)
Fixpoint insert_desc (e : cell * nat) (l : list (cell * nat))
  : list (cell * nat) :=
  match l with
  | [] => [e]
  | e' :: l' =>
      if (snd e' <=? snd e)%nat then e :: e' :: l' else e' :: insert_desc e l'
  end.

Definition sort_desc (l : list (cell * nat)) : list (cell * nat) :=
  fold_right insert_desc [] l.

Definition value_counts (col : list cell) : list (cell * nat) :=
  sort_desc (map (fun v => (v, count v col)) (distinct col)).


End DF.

(* ================================================================== *)
(** ** Python dictionaries that keep insertion order *)

Module Dict.

Section WithValue.
Context {V : Type}.

(** [d[k] = v]: an existing key keeps its place, a new key goes last. *)
Fixpoint set (k : string) (v : V) (d : list (string * V)) : list (string * V) :=
  match d with
  | [] => [(k, v)]
  | (k', v') :: d' =>
      if String.eqb k k' then (k', v) :: d' else (k', v') :: set k v d'
  end.

Fixpoint get (k : string) (d : list (string * V)) : option V :=
  match d with
  | [] => None
  | (k', v) :: d' => if String.eqb k k' then Some v else get k d'
  end.

End WithValue.

End Dict.

(** The values a summary holds: a scalar, or the counts per category. *)
Inductive value : Type :=
| Scalar (c : DF.cell)
| Counts (l : list (DF.cell * nat)).

Definition summary := list (string * value).

(* ================================================================== *)
(** ** The libraries taken as given *)

(** NumPy's random generator, scikit-learn's estimator and report, and the
    text Python produces for a value.  [permutation r n] is
    [r.permutation(n)] together with the generator's next state.

    [merge_accepts key l r] says whether pandas goes through with
    [l.merge(r, on=key, how="left")]: before it joins, pandas compares the
    types of the two key columns and the labels the result would have, and
    raises [ValueError] when it refuses.  Two facts about this check are
    taken from pandas: key columns of the same kind (text with text, numbers
    with numbers) in tables with unique labels that share the key only are
    accepted, and a text key column against a numeric one is refused. *)
Class Libs : Type := {
  RandomState : Type;
  RandomState_of_seed : Z -> RandomState;
  permutation : RandomState -> nat -> list nat * RandomState;
  permutation_length :
    forall r n, List.length (fst (permutation r n)) = n;
  Estimator : Type;
  LogisticRegression_fit : list DF.cell -> list Z -> result Estimator;
  predict : Estimator -> list DF.cell -> list Z;
  classification_report : list Z -> list Z -> string;
  str_of_value : value -> string;
  repr_of_names : list string -> string;
  str_of_shape : nat * nat -> string;
  int_of_str : string -> result Z;
  merge_accepts : string -> DF.DataFrame -> DF.DataFrame -> bool;
  merge_accepts_same_kind :
    forall key l r,
      DF.has_column key l = true ->
      DF.has_column key r = true ->
      DF.unique_labels (DF.columns l) = true ->
      DF.unique_labels (DF.columns r) = true ->
      DF.disjoint_labels key l r = true ->
      orb (andb (DF.textual (DF.column key l)) (DF.textual (DF.column key r)))
          (andb (DF.numerical (DF.column key l)) (DF.numerical (DF.column key r)))
      = true ->
      merge_accepts key l r = true;
  merge_rejects_text_number :
    forall key l r,
      DF.has_column key l = true ->
      DF.has_column key r = true ->
      orb (andb (DF.textual (DF.column key l)) (DF.numerical (DF.column key r)))
          (andb (DF.numerical (DF.column key l)) (DF.textual (DF.column key r)))
      = true ->
      merge_accepts key l r = false
}.

(* ================================================================== *)
(** ** The world and the monad of effects *)

Record World `{Libs} : Type := mkWorld {
  fs : FS.node;
  stdout : list string;
  np_random : RandomState
}.

Arguments mkWorld {_} _ _ _.

Definition M `{Libs} (A : Type) : Type := World -> result A * World.

Definition ret `{Libs} {A} (a : A) : M A := fun w => (Ok a, w).

Definition raise `{Libs} {A} (e : exn) : M A := fun w => (Raise e, w).

Definition bind `{Libs} {A B} (c : M A) (k : A -> M B) : M B :=
  fun w =>
    match c w with
    | (Ok a, w') => k a w'
    | (Raise e, w') => (Raise e, w')
    end.

Declare Scope monad_scope.
Delimit Scope monad_scope with monad.
Notation "x <- c ;; k" := (bind c (fun x => k))
  (at level 61, c at next level, right associativity) : monad_scope.
Notation "' pat <- c ;; k" := (bind c (fun x => match x with pat => k end))
  (at level 61, pat pattern, c at next level, right associativity) : monad_scope.
Notation "c ;; k" := (bind c (fun _ => k))
  (at level 61, right associativity) : monad_scope.
Local Open Scope monad_scope.

(** A pure computation that may raise. *)
Definition lift `{Libs} {A} (r : result A) : M A :=
  match r with Ok a => ret a | Raise e => raise e end.

(** [print(line)] *)
Definition print `{Libs} (line : string) : M unit :=
  fun w => (Ok tt, mkWorld (fs w) (stdout w ++ [line]) (np_random w)).

(** [p.exists()] *)
Definition path_exists `{Libs} (p : FS.path) : M bool :=
  fun w => (Ok (FS.exists_ p (fs w)), w).

(** Run a file-system operation: the tree changes only when it succeeds. *)
Definition fs_update `{Libs} (op : FS.node -> result FS.node) : M unit :=
  fun w =>
    match op (fs w) with
    | Ok t => (Ok tt, mkWorld t (stdout w) (np_random w))
    | Raise e => (Raise e, w)
    end.

(** [p.mkdir(parents=True, exist_ok=True)] *)
Definition mkdir `{Libs} (p : FS.path) : M unit := fs_update (FS.mkdir_p p).

(** [with open(p, "w") as f: f.write(data)] *)
Definition write_text `{Libs} (p : FS.path) (data : string) : M unit :=
  fs_update (FS.write_file p data).

(** [shutil.copy(src, dst)]: the contents of the regular file [src] go to
    [dst], or into [dst] under the name of [src] when [dst] is a directory. *)
Definition shutil_copy `{Libs} (src dst : FS.path) : M unit :=
  fun w =>
    match FS.lookup src (fs w) with
    | Some (FS.File data) =>
        let target := if FS.is_dir dst (fs w) then dst ++ [FS.name src] else dst in
        write_text target data w
    | Some (FS.Dir _) => (Raise IsADirectoryError, w)
    | None => (Raise (FileNotFoundError (FS.to_string src)), w)
    end.

(* ================================================================== *)
(** ** The pipeline *)

Section Pipeline.
Context `{Libs}.

Definition newline : string := String (ascii_of_nat 10) EmptyString.

Definition canonical_name : string := "CRM_Sales_Dashboard_25.xlsx".

(** *** Helpers *)

(** [ensure_excel_available(src_excel, raw_dir, canonical_name)];
    [canonical_name] defaults to [CRM_Sales_Dashboard_25.xlsx]. *)
Definition ensure_excel_available (src_excel raw_dir : FS.path) (name : string)
  : M FS.path :=
  mkdir raw_dir ;;
  let dest := raw_dir ++ [name] in
  dest_exists <- path_exists dest ;;
  if negb dest_exists then
    src_exists <- path_exists src_excel ;;
    if src_exists then
      shutil_copy src_excel dest ;;
      print ("[INFO] Copied Excel to " ++ FS.to_string dest)%string ;;
      ret dest
    else
      raise (FileNotFoundError
               ("Could not find source Excel at " ++ FS.to_string src_excel)%string)
  else ret dest.

Definition any_keyword (keywords : list string) (lname : string) : bool :=
  existsb (fun k => PyStr.contains k lname) keywords.

(** The inner [find_sheet(keywords)] of [detect_sheet_names]. *)
Definition find_sheet (sheet_names keywords : list string) : option string :=
  find (fun s => any_keyword keywords (PyStr.lower s)) sheet_names.

Definition deals_keywords : list string := ["deal"; "pipeline"; "opportunit"].
Definition teams_keywords : list string := ["team"; "sales"].

(** [sheet_names[0]] *)
Definition first_sheet (sheet_names : list string) : result string :=
  match sheet_names with
  | [] => Raise IndexError
  | s :: _ => Ok s
  end.

(** [sheet_names[-1]] *)
Definition last_sheet (sheet_names : list string) : result string :=
  match sheet_names with
  | [] => Raise IndexError
  | s :: rest => Ok (last rest s)
  end.

(** [found or fallback]: the fallback is evaluated only when [found] is
    falsy. *)
Definition or_fallback (found : option string) (fallback : result string)
  : result string :=
  if PyStr.truthy_opt found then Ok (PyStr.or_else found EmptyString) else fallback.

(** [detect_sheet_names(xls)], on the workbook's [sheet_names]. *)
Definition detect_sheet_names (sheet_names : list string) : M (string * string) :=
  print ("[INFO] Available sheets: " ++ repr_of_names sheet_names)%string ;;
  deals <- lift (or_fallback (find_sheet sheet_names deals_keywords)
                             (first_sheet sheet_names)) ;;
  teams <- lift (or_fallback (find_sheet sheet_names teams_keywords)
                             (last_sheet sheet_names)) ;;
  print ("[INFO] Using deals sheet: " ++ deals)%string ;;
  print ("[INFO] Using teams sheet: " ++ teams)%string ;;
  ret (deals, teams).

(** The sheet selection of [main] (the lines that follow the comment
    "Detect or use provided sheet names"), the same in both scripts: the two
    variables start as the command-line arguments and are what the loader is
    called with afterwards. *)
Definition main_select_sheets (args_deals_sheet args_teams_sheet : option string)
           (sheet_names : list string) : M (option string * option string) :=
  if orb (negb (PyStr.truthy_opt args_deals_sheet))
         (negb (PyStr.truthy_opt args_teams_sheet))
  then
    ' (auto_deals, auto_teams) <- detect_sheet_names sheet_names ;;
    ret (Some (PyStr.or_else args_deals_sheet auto_deals),
         Some (PyStr.or_else args_teams_sheet auto_teams))
  else ret (args_deals_sheet, args_teams_sheet).

(** *** Processing *)

Definition merge_warning : string :=
  "[WARN] Could not merge on SalesRep — saving deals only".

(** [left.merge(right, on=key, how="left")]: the left join, unless pandas
    refuses the key columns or the labels. *)
Definition merge (key : string) (left right : DF.DataFrame) : result DF.DataFrame :=
  if merge_accepts key left right
  then Ok (DF.merge_left key left right)
  else Raise ValueError.

(** [process_and_merge(deals_df, teams_df)] of the updated script. *)
Definition process_and_merge (deals_df teams_df : DF.DataFrame) : M DF.DataFrame :=
  if andb (DF.has_column "SalesRep" deals_df) (DF.has_column "SalesRep" teams_df)
  then lift (merge "SalesRep" deals_df teams_df)
  else print merge_warning ;; ret deals_df.

(** The same step as the original script has it, inline in [main]. *)
Definition main_merge (deals_df teams_df : DF.DataFrame) : M DF.DataFrame :=
  if andb (DF.has_column "SalesRep" deals_df) (DF.has_column "SalesRep" teams_df)
  then lift (merge "SalesRep" deals_df teams_df)
  else print merge_warning ;; ret deals_df.

(** [generate_summary(df)] *)
Definition generate_summary (df : DF.DataFrame) : result summary :=
  let summary0 : summary := [] in
  match
    (if DF.has_column "Amount" df then
       match DF.numbers (DF.column "Amount" df) with
       | Ok amount =>
           Ok (Dict.set "Average Deal Size" (Scalar (DF.series_mean amount))
                 (Dict.set "Total Revenue"
                    (Scalar (DF.column_sum (DF.column "Amount" df) amount))
                    summary0))
       | Raise e => Raise e
       end
     else Ok summary0)
  with
  | Raise e => Raise e
  | Ok summary1 =>
      let summary2 :=
        if DF.has_column "Stage" df then
          Dict.set "Deals by Stage"
                   (Counts (DF.value_counts (DF.column "Stage" df))) summary1
        else summary1 in
      if DF.has_column "Closed" df then
        match DF.numbers (DF.column "Closed" df) with
        | Ok closed =>
            let win_rate := DF.times100 (DF.series_mean closed) in
            Ok (Dict.set "Win Rate (%)" (Scalar (DF.round2 win_rate)) summary2)
        | Raise e => Raise e
        end
      else Ok summary2
  end.

(** One line of the report: [f"{k}: {v}\n"]. *)
Definition summary_line (kv : string * value) : string :=
  (fst kv ++ ": " ++ str_of_value (snd kv) ++ newline)%string.

(** [save_summary_report(summary, reports_dir)] *)
Definition save_summary_report (s : summary) (reports_dir : FS.path) : M unit :=
  mkdir reports_dir ;;
  let out := reports_dir ++ ["summary_report.txt"] in
  write_text out (String.concat EmptyString (map summary_line s)) ;;
  print ("[INFO] Summary report saved to " ++ FS.to_string out)%string.

(** *** The classifier *)

(** [df[["Amount"]].fillna(0)] *)
Definition fillna0 (col : list DF.cell) : list DF.cell :=
  map (fun c => if DF.isna c then DF.Num (0 # 1) else c) col.

(** [int(x)] of one cell: numbers are truncated towards zero, a missing
    value cannot be converted. *)
Definition int_of_cell (c : DF.cell) : result Z :=
  match c with
  | DF.NaN => Raise ValueError
  | DF.Num q => Ok (Z.quot (Qnum q) (Z.pos (Qden q)))
  | DF.Str s => int_of_str s
  end.

(** [Series.astype(int)] *)
Fixpoint astype_int (col : list DF.cell) : result (list Z) :=
  match col with
  | [] => Ok []
  | c :: col' =>
      match int_of_cell c with
      | Raise e => Raise e
      | Ok z =>
          match astype_int col' with
          | Ok zs => Ok (z :: zs)
          | Raise e => Raise e
          end
      end
  end.

(** scikit-learn's [check_random_state(random_state).permutation(n)]: an
    integer seeds a generator of its own, [None] draws from NumPy's global
    generator and advances it. *)
Definition seeded_permutation (random_state : option Z) (n : nat) : M (list nat) :=
  match random_state with
  | Some seed => ret (fst (permutation (RandomState_of_seed seed) n))
  | None =>
      fun w =>
        let pr := permutation (np_random w) n in
        (Ok (fst pr), mkWorld (fs w) (stdout w) (snd pr))
  end.

Definition take_rows {A} (d : A) (idx : list nat) (l : list A) : list A :=
  map (fun i => nth i l d) idx.

(** The size of the test part: [ceil(test_size * n)]. *)
Definition n_test (test_size : Q) (n : nat) : nat :=
  Z.to_nat (Qceiling (test_size * inject_Z (Z.of_nat n))%Q).

(** [train_test_split(X, y, test_size=test_size, random_state=random_state)]:
    the first [n_test] indices of the permutation are the test part, the
    rest the training part. *)
Definition train_test_split (X : list DF.cell) (y : list Z)
           (test_size : Q) (random_state : option Z)
  : M (list DF.cell * list DF.cell * list Z * list Z) :=
  let n := List.length X in
  let nt := n_test test_size n in
  if (n - nt =? 0)%nat then raise ValueError
  else
    perm <- seeded_permutation random_state n ;;
    let ind_test := firstn nt perm in
    let ind_train := firstn (n - nt) (skipn nt perm) in
    ret (take_rows DF.NaN ind_train X, take_rows DF.NaN ind_test X,
         take_rows 0%Z ind_train y, take_rows 0%Z ind_test y).

(** The text [train_model] writes: everything between the column test and
    the creation of the report file. *)
Definition model_report (df : DF.DataFrame) : M string :=
  let X := fillna0 (DF.column "Amount" df) in
  y <- lift (astype_int (DF.column "Closed" df)) ;;
  ' (X_train, X_test, y_train, y_test) <-
      train_test_split X y (1 # 5) (Some 42%Z) ;;
  model <- lift (LogisticRegression_fit X_train y_train) ;;
  let y_pred := predict model X_test in
  ret (classification_report y_test y_pred).

Definition model_warning : string :=
  "[WARN] Not enough columns for model training.".

(** [train_model(df, reports_dir)] *)
Definition train_model (df : DF.DataFrame) (reports_dir : FS.path) : M unit :=
  if orb (negb (DF.has_column "Closed" df)) (negb (DF.has_column "Amount" df))
  then print model_warning
  else
    report <- model_report df ;;
    mkdir reports_dir ;;
    let out := reports_dir ++ ["model_report.txt"] in
    write_text out report ;;
    print ("[INFO] Model report saved to " ++ FS.to_string out)%string.

End Pipeline.

(* ================================================================== *)
(** ** A small instance of the libraries

    Used to run the pipeline on concrete worlds: the generator is a counter
    and [permutation] rotates the indices by it, the estimator is a
    threshold on the amount, values are shown schematically, and a merge is
    refused for a text key column against a numeric one and for labels that
    a suffix makes equal. *)

Definition rotation (r n : nat) : list nat :=
  map (fun i => (i + r) mod n)%nat (seq 0 n).

Lemma rotation_length (r n : nat) : List.length (rotation r n) = n.
Proof. unfold rotation. now rewrite length_map, length_seq. Qed.

Definition threshold_fit (X : list DF.cell) (y : list Z) : result Q :=
  if andb (existsb (Z.eqb 0) y) (existsb (Z.eqb 1) y)
  then Ok (DF.Qsum (flat_map (fun c => match c with DF.Num q => [q] | _ => [] end) X)
           / inject_Z (Z.of_nat (List.length X)))%Q
  else Raise ValueError.

Definition threshold_predict (t : Q) (X : list DF.cell) : list Z :=
  map (fun c => match c with
                | DF.Num q => if Qle_bool t q then 1%Z else 0%Z
                | _ => 0%Z
                end) X.

Definition agreement (y_true y_pred : list Z) : string :=
  String.concat EmptyString
    (map (fun p => if Z.eqb (fst p) (snd p) then "+" else "-")
         (combine y_true y_pred)).

Definition show_value (v : value) : string :=
  match v with
  | Scalar DF.NaN => "nan"
  | Scalar (DF.Num _) => "<number>"
  | Scalar (DF.Str s) => s
  | Counts _ => "{...}"
  end.

(** The check of the key columns: text against numbers is refused. *)
Definition keys_conflict (kl kr : list DF.cell) : bool :=
  orb (andb (DF.textual kl) (DF.numerical kr))
      (andb (DF.numerical kl) (DF.textual kr)).

(** The check of the labels, made once the key column of the right table is
    set aside: a suffix must not make two labels of one side equal. *)
Definition labels_collide (key : string) (l r : DF.DataFrame) : bool :=
  let rest := DF.remove_nth (DF.index_of key (DF.columns r)) (DF.columns r) in
  orb (andb (DF.unique_labels (DF.columns l))
            (negb (DF.unique_labels
                     (map (DF.left_label key (DF.columns r)) (DF.columns l)))))
      (andb (DF.unique_labels rest)
            (negb (DF.unique_labels
                     (map (DF.right_label (DF.columns l)) rest)))).

Definition small_merge_accepts (key : string) (l r : DF.DataFrame) : bool :=
  andb (negb (keys_conflict (DF.column key l) (DF.column key r)))
       (negb (labels_collide key l r)).

Lemma textual_not_numerical (col : list DF.cell) :
  DF.textual col = true -> DF.numerical col = false.
Proof.
  unfold DF.textual, DF.numerical. intros H.
  apply andb_true_iff in H as [H _]. rewrite H. apply andb_false_r.
Qed.

Lemma existsb_remove_nth {A} (f : A -> bool) (i : nat) (l : list A) :
  existsb f l = false -> existsb f (DF.remove_nth i l) = false.
Proof.
  revert i. induction l as [|x l IH]; intros i H; [destruct i; reflexivity|].
  simpl in H. apply orb_false_iff in H as [Hx Hl].
  destruct i as [|i]; simpl; [exact Hl|].
  rewrite Hx. simpl. now apply IH.
Qed.

Lemma unique_remove_nth (i : nat) (cs : list string) :
  DF.unique_labels cs = true -> DF.unique_labels (DF.remove_nth i cs) = true.
Proof.
  revert i. induction cs as [|c cs IH]; intros i H; [destruct i; reflexivity|].
  simpl in H. apply andb_true_iff in H as [Hc Hcs].
  destruct i as [|i]; simpl; [exact Hcs|].
  apply andb_true_iff. split; [|now apply IH].
  apply negb_true_iff. apply existsb_remove_nth. now apply negb_true_iff.
Qed.

Lemma key_removed (key : string) (cs : list string) :
  DF.unique_labels cs = true ->
  existsb (String.eqb key) (DF.remove_nth (DF.index_of key cs) cs) = false.
Proof.
  induction cs as [|c cs IH]; intros H; [reflexivity|].
  simpl in H. apply andb_true_iff in H as [Hc Hcs].
  simpl. destruct (String.eqb key c) eqn:E.
  - apply String.eqb_eq in E. subst c. now apply negb_true_iff.
  - simpl. rewrite E. simpl. now apply IH.
Qed.

Lemma In_remove_nth {A} (i : nat) (l : list A) (x : A) :
  In x (DF.remove_nth i l) -> In x l.
Proof.
  revert i. induction l as [|y l IH]; intros i H; [destruct i; exact H|].
  destruct i as [|i]; simpl in H.
  - now right.
  - destruct H as [H|H]; [now left | right; now apply (IH i)].
Qed.

Lemma existsb_eqb_In (c : string) (cs : list string) :
  existsb (String.eqb c) cs = true <-> In c cs.
Proof.
  rewrite existsb_exists. split.
  - intros [x [Hx E]]. apply String.eqb_eq in E. now subst.
  - intros H. exists c. split; [exact H | apply String.eqb_refl].
Qed.

Lemma disjoint_left_labels (key : string) (l r : DF.DataFrame) :
  DF.disjoint_labels key l r = true ->
  map (DF.left_label key (DF.columns r)) (DF.columns l) = DF.columns l.
Proof.
  unfold DF.disjoint_labels. intros H.
  rewrite <- (map_id (DF.columns l)) at 2.
  apply map_ext_in. intros c Hc.
  rewrite forallb_forall in H. specialize (H c Hc).
  unfold DF.left_label.
  destruct (String.eqb c key); [reflexivity|].
  simpl in H. apply negb_true_iff in H. rewrite H. reflexivity.
Qed.

Lemma disjoint_right_labels (key : string) (l r : DF.DataFrame) :
  DF.unique_labels (DF.columns r) = true ->
  DF.disjoint_labels key l r = true ->
  let rest := DF.remove_nth (DF.index_of key (DF.columns r)) (DF.columns r) in
  map (DF.right_label (DF.columns l)) rest = rest.
Proof.
  intros Hu H rest.
  rewrite <- (map_id rest) at 2.
  apply map_ext_in. intros c Hc.
  unfold DF.right_label.
  destruct (existsb (String.eqb c) (DF.columns l)) eqn:E; [|reflexivity].
  exfalso.
  apply existsb_eqb_In in E.
  unfold DF.disjoint_labels in H. rewrite forallb_forall in H.
  specialize (H c E).
  apply orb_true_iff in H as [H|H].
  - apply String.eqb_eq in H. subst c.
    pose proof (key_removed key (DF.columns r) Hu) as K.
    fold rest in K.
    assert (existsb (String.eqb key) rest = true) as K'
      by now apply existsb_eqb_In.
    congruence.
  - apply negb_true_iff in H.
    assert (existsb (String.eqb c) (DF.columns r) = true) as K.
    { apply existsb_eqb_In. now apply (In_remove_nth _ _ _ Hc). }
    congruence.
Qed.

Lemma small_merge_accepts_same_kind (key : string) (l r : DF.DataFrame) :
  DF.has_column key l = true ->
  DF.has_column key r = true ->
  DF.unique_labels (DF.columns l) = true ->
  DF.unique_labels (DF.columns r) = true ->
  DF.disjoint_labels key l r = true ->
  orb (andb (DF.textual (DF.column key l)) (DF.textual (DF.column key r)))
      (andb (DF.numerical (DF.column key l)) (DF.numerical (DF.column key r)))
  = true ->
  small_merge_accepts key l r = true.
Proof.
  intros _ _ Hul Hur Hd Hk.
  unfold small_merge_accepts. apply andb_true_iff. split.
  - apply negb_true_iff. unfold keys_conflict.
    apply orb_true_iff in Hk as [Hk|Hk];
      apply andb_true_iff in Hk as [Ha Hb].
    + rewrite (textual_not_numerical _ Ha), (textual_not_numerical _ Hb).
      now rewrite andb_false_r.
    + destruct (DF.textual (DF.column key l)) eqn:Ta.
      * apply textual_not_numerical in Ta. congruence.
      * destruct (DF.textual (DF.column key r)) eqn:Tb.
        -- apply textual_not_numerical in Tb. congruence.
        -- simpl. now rewrite andb_false_r.
  - apply negb_true_iff. unfold labels_collide.
    rewrite (disjoint_left_labels key l r Hd), Hul.
    rewrite (disjoint_right_labels key l r Hur Hd).
    rewrite (unique_remove_nth _ _ Hur). reflexivity.
Qed.

Lemma small_merge_rejects_text_number (key : string) (l r : DF.DataFrame) :
  DF.has_column key l = true ->
  DF.has_column key r = true ->
  orb (andb (DF.textual (DF.column key l)) (DF.numerical (DF.column key r)))
      (andb (DF.numerical (DF.column key l)) (DF.textual (DF.column key r)))
  = true ->
  small_merge_accepts key l r = false.
Proof.
  intros _ _ H. unfold small_merge_accepts, keys_conflict. now rewrite H.
Qed.

#[export] Instance SmallLibs : Libs := {|
  RandomState := nat;
  RandomState_of_seed := Z.to_nat;
  permutation := fun r n => (rotation r n, S r);
  permutation_length := rotation_length;
  Estimator := Q;
  LogisticRegression_fit := threshold_fit;
  predict := threshold_predict;
  classification_report := agreement;
  str_of_value := show_value;
  repr_of_names := fun names => ("[" ++ String.concat ", " names ++ "]")%string;
  str_of_shape := fun _ => "(rows, columns)";
  int_of_str := fun _ => Raise ValueError;
  merge_accepts := small_merge_accepts;
  merge_accepts_same_kind := small_merge_accepts_same_kind;
  merge_rejects_text_number := small_merge_rejects_text_number
|}.

(** An empty tree, a silent console and the generator at 0. *)
Definition empty_world : @World SmallLibs := mkWorld (FS.Dir []) [] 0%nat.

Definition world_of (tree : FS.node) : @World SmallLibs := mkWorld tree [] 0%nat.

(* ================================================================== *)
(** ** Vocabulary of the statements *)

(** A sheet name mentions a keyword list when its lower-cased form has one
    of the keywords as a substring. *)
Definition mentions (keywords : list string) (name : string) : Prop :=
  exists k, In k keywords /\
            exists a b, PyStr.lower name = (a ++ k ++ b)%string.

(** [s] is the first name of [names], in order, that mentions [keywords]. *)
Definition first_mentioning (keywords names : list string) (s : string) : Prop :=
  exists before after,
    names = before ++ s :: after /\
    mentions keywords s /\
    forall x, In x before -> ~ mentions keywords x.

(** [s] is what the resolver has to pick: the first name that mentions the
    keywords or, when no name does, the positional [fallback]. *)
Definition resolved (keywords : list string) (fallback : string)
           (names : list string) (s : string) : Prop :=
  first_mentioning keywords names s \/
  ((forall x, In x names -> ~ mentions keywords x) /\ s = fallback).

(** The two key columns are of one kind: both text, or both numbers. *)
Definition same_kind_of_key (key : string) (l r : DF.DataFrame) : bool :=
  orb (andb (DF.textual (DF.column key l)) (DF.textual (DF.column key r)))
      (andb (DF.numerical (DF.column key l)) (DF.numerical (DF.column key r))).

(** One key column is text and the other numbers. *)
Definition text_against_numbers (key : string) (l r : DF.DataFrame) : bool :=
  orb (andb (DF.textual (DF.column key l)) (DF.numerical (DF.column key r)))
      (andb (DF.numerical (DF.column key l)) (DF.textual (DF.column key r))).

(** Each table has unique labels, and the two share [key] only. *)
Definition labels_apart (key : string) (l r : DF.DataFrame) : bool :=
  andb (andb (DF.unique_labels (DF.columns l)) (DF.unique_labels (DF.columns r)))
       (DF.disjoint_labels key l r).

(** No key occurs twice in [ks]. *)
Fixpoint distinct_keys (ks : list DF.cell) : bool :=
  match ks with
  | [] => true
  | k :: ks' => andb (negb (existsb (DF.cell_eqb k) ks')) (distinct_keys ks')
  end.

(** The column [key] of [df] holds no value twice. *)
Definition unique_key (key : string) (df : DF.DataFrame) : bool :=
  distinct_keys (DF.column key df).

(** [row] is a row of the left outer join of [l] with [r] on [key]: a row
    of [l] followed by the other fields of a row of [r] with the same key,
    or by empty fields when no row of [r] has that key. *)
Definition left_outer_join_row (key : string) (l r : DF.DataFrame)
           (row : list DF.cell) : Prop :=
  exists lrow,
    In lrow (DF.rows l) /\
    ((exists rrow,
         In rrow (DF.rows r) /\
         DF.cell_eqb (DF.key_of key l lrow) (DF.key_of key r rrow) = true /\
         row = lrow ++ DF.remove_nth (DF.index_of key (DF.columns r)) rrow)
     \/
     ((forall rrow, In rrow (DF.rows r) ->
                    DF.cell_eqb (DF.key_of key l lrow) (DF.key_of key r rrow) = false) /\
      row = lrow ++ repeat DF.NaN (List.length (DF.columns r) - 1))).

(** The merger returns a table with as many rows as the deals table. *)
Definition merge_preserves_row_count `{Libs} (deals_df teams_df : DF.DataFrame)
           (w : World) : Prop :=
  exists merged w',
    process_and_merge deals_df teams_df w = (Ok merged, w') /\
    List.length (DF.rows merged) = List.length (DF.rows deals_df).

(** A column the arithmetic reductions accept: no string in it. *)
Definition numeric (col : list DF.cell) : bool :=
  forallb (fun c => match c with DF.Str _ => false | _ => true end) col.

(** The numbers of a column, in order. *)
Definition number_values (col : list DF.cell) : list Q :=
  flat_map (fun c => match c with DF.Num q => [q] | _ => [] end) col.













(** The path [q] is an initial segment of the path [p]: [p] itself or one of
    the directories above it. *)
Definition initial_segment (q p : FS.path) : Prop := exists r, p = q ++ r.

(** The acquisition copies whenever the destination is absent and the
    candidate source exists. *)
Definition copies_existing_source `{Libs} (src_excel raw_dir : FS.path)
           (w : World) : Prop :=
  FS.exists_ (raw_dir ++ [canonical_name]) (fs w) = false ->
  FS.exists_ src_excel (fs w) = true ->
  exists w',
    ensure_excel_available src_excel raw_dir canonical_name w
    = (Ok (raw_dir ++ [canonical_name]), w') /\
    FS.exists_ (raw_dir ++ [canonical_name]) (fs w') = true.

(** The 80/20 split of [n] rows by the generator seeded with 42: the first
    fifth of its permutation, rounded up, numbers the test rows and the rest
    the training rows. *)
Definition seeded_test_rows `{Libs} (n : nat) : list nat :=
  firstn ((n + 4) / 5) (fst (permutation (RandomState_of_seed 42) n)).

Definition seeded_train_rows `{Libs} (n : nat) : list nat :=
  firstn (n - (n + 4) / 5)
         (skipn ((n + 4) / 5) (fst (permutation (RandomState_of_seed 42) n))).

(** The report of the classifier fitted on the training rows of that split
    and judged on its test rows; there is none without a training row. *)
Definition report_of_seeded_split `{Libs} (X : list DF.cell) (y : list Z)
  : result string :=
  let n := List.length X in
  if (n - (n + 4) / 5 =? 0)%nat then Raise ValueError
  else
    match LogisticRegression_fit (take_rows DF.NaN (seeded_train_rows n) X)
                                 (take_rows 0%Z (seeded_train_rows n) y) with
    | Ok model =>
        Ok (classification_report
              (take_rows 0%Z (seeded_test_rows n) y)
              (predict model (take_rows DF.NaN (seeded_test_rows n) X)))
    | Raise e => Raise e
    end.

(** That report for the amounts (0 for a missing one) and the closed flags
    of a table. *)
Definition report_of_table `{Libs} (df : DF.DataFrame) : result string :=
  match astype_int (DF.column "Closed" df) with
  | Ok y => report_of_seeded_split (fillna0 (DF.column "Amount" df)) y
  | Raise e => Raise e
  end.

(** The last steps of [train_model], for a report text already computed. *)
Definition write_model_report `{Libs} (report : string) (reports_dir : FS.path)
  : M unit :=
  (mkdir reports_dir ;;
   write_text (reports_dir ++ ["model_report.txt"]) report ;;
   print ("[INFO] Model report saved to "
          ++ FS.to_string (reports_dir ++ ["model_report.txt"])%list)%string)%monad.

(** Per-role override of the sheet selection, for the supplied names [d]
    (deals) and [t] (teams): with both supplied nothing is detected and
    nothing is printed; with one supplied it is used for its role and the
    detection decides the other role only. *)
Definition per_role_override `{Libs} (d t : string) (names : list string)
           (w : World) : Prop :=
  main_select_sheets (Some d) (Some t) names w = (Ok (Some d, Some t), w) /\
  main_select_sheets (Some d) None names w
  = bind (detect_sheet_names names) (fun auto => ret (Some d, Some (snd auto))) w /\
  main_select_sheets None (Some t) names w
  = bind (detect_sheet_names names) (fun auto => ret (Some (fst auto), Some t)) w.

(** The world after one more printed line. *)
Definition printed `{Libs} (line : string) (w : World) : World :=
  mkWorld (fs w) (stdout w ++ [line]) (np_random w).

(** *** Sample tables *)

Definition text (s : string) : DF.cell := DF.Str s.
Definition int (z : Z) : DF.cell := DF.Num (inject_Z z).

(** Deals of three representatives; "cy" has no team row. *)
Definition sample_deals : DF.DataFrame :=
  DF.mkDF ["SalesRep"; "Amount"; "Stage"; "Closed"]
          [ [text "ann"; int 100; text "Won"; int 1];
            [text "bob"; int 200; text "Open"; int 0];
            [text "cy"; int 300; text "Won"; int 1];
            [text "ann"; int 400; text "Won"; int 1] ].

(** One team row per representative; "dee" has no deal. *)
Definition sample_teams : DF.DataFrame :=
  DF.mkDF ["SalesRep"; "Team"]
          [ [text "ann"; text "East"];
            [text "bob"; text "West"];
            [text "dee"; text "West"] ].

(** A teams table that lists "ann" in two teams. *)
Definition two_team_rep : DF.DataFrame :=
  DF.mkDF ["SalesRep"; "Team"]
          [ [text "ann"; text "East"];
            [text "ann"; text "North"];
            [text "dee"; text "West"] ].

(** Deals whose SalesRep is the number of the representative. *)
Definition deals_by_number : DF.DataFrame :=
  DF.mkDF ["SalesRep"; "Amount"] [ [int 1; int 100]; [int 2; int 200] ].

(** A teams table keyed by another column. *)
Definition teams_by_owner : DF.DataFrame :=
  DF.mkDF ["Owner"; "Team"] [ [text "ann"; text "East"] ].

(** A table with none of the columns the reports look at. *)
Definition contacts_only : DF.DataFrame :=
  DF.mkDF ["SalesRep"; "Phone"] [ [text "ann"; text "555-0100"] ].

(** *** Tables of the worked examples *)

Definition one_column (label : string) (cells : list DF.cell) : DF.DataFrame :=
  DF.mkDF [label] (map (fun c => [c]) cells).




(** *** Sample file trees *)

(** A project whose raw-data directory already holds the workbook, next to
    a download of another one. *)
Definition tree_with_workbook : FS.node :=
  FS.Dir [ ("data", FS.Dir [ ("raw", FS.Dir [ (canonical_name, FS.File "kept") ]) ]);
           ("downloads", FS.Dir [ ("crm.xlsx", FS.File "fresh") ]) ].

(** A project without the raw-data directory. *)
Definition tree_with_download : FS.node :=
  FS.Dir [ ("downloads", FS.Dir [ ("crm.xlsx", FS.File "fresh") ]) ].

(* ================================================================== *)
(** ** The rest of the scripts

    [project_root], [generate_charts], the two [main] functions and the
    handler under [if __name__ == "__main__"].  What they need beyond [Libs]
    is taken as given in [Runtime]: the conversion of a command-line string
    to a path, the Excel reader, the CSV writer, the two charts as image
    bytes and the text of an exception. *)

Class Runtime : Type := {
  Path_of_str : string -> FS.path;
  Workbook : Type;
  ExcelFile : string -> result Workbook;
  sheet_names : Workbook -> list string;
  read_excel : Workbook -> string -> result DF.DataFrame;
  to_csv : DF.DataFrame -> string;
  revenue_by_stage_png : DF.DataFrame -> result string;
  top_sales_reps_png : DF.DataFrame -> result string;
  str_of_exn : exn -> string
}.

(** What the interpreter provides: [Path(__file__).resolve()] when
    [__file__] is defined, and [Path.cwd()]. *)
Record Env : Type := mkEnv {
  script_file : option FS.path;
  cwd : FS.path
}.

(** The parsed command line. *)
Record Args : Type := mkArgs {
  excel : option string;
  deals_sheet : option string;
  teams_sheet : option string
}.

(** [project_root(start)]; a path is always truthy, so [start or ...] is
    [start] whenever it is given. *)
Definition project_root (start : option FS.path) (env : Env) : FS.path :=
  let here :=
    match start with
    | Some p => p
    | None =>
        match script_file env with
        | Some f => f
        | None => cwd env
        end
    end in
  if String.eqb (FS.name here) "scripts" then removelast here else here.

Section Scripts.
Context `{Libs} `{Runtime}.

(** [plt.savefig(path)] of a figure whose rendering is [png]. *)
Definition savefig (png : result string) (path : FS.path) : M unit :=
  bytes <- lift png ;;
  write_text path bytes.

(** [generate_charts(df, reports_dir)] *)
Definition generate_charts (df : DF.DataFrame) (reports_dir : FS.path) : M unit :=
  mkdir reports_dir ;;
  (if andb (DF.has_column "Amount" df) (DF.has_column "Stage" df)
   then savefig (revenue_by_stage_png df) (reports_dir ++ ["revenue_by_stage.png"])
   else ret tt) ;;
  (if andb (DF.has_column "SalesRep" df) (DF.has_column "Amount" df)
   then savefig (top_sales_reps_png df) (reports_dir ++ ["top_sales_reps.png"])
   else ret tt) ;;
  print ("[INFO] Charts saved to " ++ FS.to_string reports_dir)%string.

(** [pd.ExcelFile(path)] *)
Definition open_workbook (path : FS.path) : M Workbook :=
  fun w =>
    match FS.lookup path (fs w) with
    | Some (FS.File data) => lift (ExcelFile data) w
    | Some (FS.Dir _) => (Raise IsADirectoryError, w)
    | None => (Raise (FileNotFoundError (FS.to_string path)), w)
    end.

(** [pd.read_excel(xls, sheet_name=name)]; [main] never passes [None]
    (see [main_select_sheets_some]), for which pandas would hand back all
    the sheets. *)
Definition read_sheet (xls : Workbook) (name : option string) : M DF.DataFrame :=
  match name with
  | Some s => lift (read_excel xls s)
  | None => raise TypeError
  end.

(** [df.shape] *)
Definition shape (df : DF.DataFrame) : nat * nat :=
  (List.length (DF.rows df), List.length (DF.columns df)).

(** The source workbook [main] hands to [ensure_excel_available]. *)
Definition source_excel (args : Args) (raw_dir : FS.path) : FS.path :=
  match excel args with
  | Some s => if PyStr.truthy s then Path_of_str s else raw_dir ++ [canonical_name]
  | None => raw_dir ++ [canonical_name]
  end.

Definition csv_name : string := "CRM_Sales_Dashboard_Merged_Enhanced.csv".

(** The part the two [main] functions share, from the acquisition of the
    workbook to the two tables and their shapes. *)
Definition load_tables (args : Args) (raw_dir : FS.path)
  : M (DF.DataFrame * DF.DataFrame) :=
  excel_path <- ensure_excel_available (source_excel args raw_dir) raw_dir
                  canonical_name ;;
  xls <- open_workbook excel_path ;;
  sheets <- main_select_sheets (deals_sheet args) (teams_sheet args)
              (sheet_names xls) ;;
  deals_df <- read_sheet xls (fst sheets) ;;
  teams_df <- read_sheet xls (snd sheets) ;;
  print ("[INFO] Deals shape: " ++ str_of_shape (shape deals_df))%string ;;
  print ("[INFO] Teams shape: " ++ str_of_shape (shape teams_df))%string ;;
  ret (deals_df, teams_df).

(** [merged.to_csv(out_csv, index=False)] and the line that follows. *)
Definition save_csv (merged : DF.DataFrame) (processed_dir : FS.path) : M unit :=
  let out_csv := processed_dir ++ [csv_name] in
  write_text out_csv (to_csv merged) ;;
  print ("[INFO] Processed data saved to " ++ FS.to_string out_csv)%string.

(** [main()] of the updated script. *)
Definition main (args : Args) (env : Env) : M unit :=
  let root := project_root None env in
  let raw_dir := root ++ ["data"; "raw"] in
  let processed_dir := root ++ ["data"; "processed"] in
  let reports_dir := root ++ ["reports"] in
  mkdir processed_dir ;;
  mkdir reports_dir ;;
  tables <- load_tables args raw_dir ;;
  merged <- process_and_merge (fst tables) (snd tables) ;;
  save_csv merged processed_dir ;;
  summary <- lift (generate_summary merged) ;;
  save_summary_report summary reports_dir ;;
  generate_charts merged reports_dir ;;
  train_model merged reports_dir.

(** [main()] of the original script. *)
Definition main_original (args : Args) (env : Env) : M unit :=
  let root := project_root None env in
  let raw_dir := root ++ ["data"; "raw"] in
  let processed_dir := root ++ ["data"; "processed"] in
  mkdir processed_dir ;;
  tables <- load_tables args raw_dir ;;
  merged <- main_merge (fst tables) (snd tables) ;;
  save_csv merged processed_dir.

(** What a run of a script leaves behind. *)
Record Outcome : Type := mkOutcome {
  exit_code : Z;
  stderr : list string;
  world : World
}.

(** The handler at the bottom of both scripts: an exception becomes one
    line on standard error and exit code 1. *)
Definition run_script (body : M unit) (w : World) : Outcome :=
  match body w with
  | (Ok _, w') => mkOutcome 0%Z [] w'
  | (Raise e, w') => mkOutcome 1%Z [("[ERROR] " ++ str_of_exn e)%string] w'
  end.

End Scripts.

(** *** A small runtime

    Paths are split at the slashes; a workbook file holds the name of one of
    two prepared workbooks; tables and charts are written schematically. *)

Fixpoint split_slash (acc s : string) : list string :=
  match s with
  | EmptyString => match acc with EmptyString => [] | _ => [acc] end
  | String c s' =>
      if Ascii.eqb c "/"
      then match acc with
           | EmptyString => split_slash EmptyString s'
           | _ => acc :: split_slash EmptyString s'
           end
      else split_slash (acc ++ String c EmptyString)%string s'
  end.

Definition crm_workbook : list (string * DF.DataFrame) :=
  [("Pipeline", sample_deals); ("Sales Team", sample_teams)].

Definition small_ExcelFile (data : string) : result (list (string * DF.DataFrame)) :=
  if String.eqb data "crm" then Ok crm_workbook
  else if String.eqb data "contacts" then Ok [("Contacts", contacts_only)]
  else Raise ValueError.

Fixpoint small_read_excel (xls : list (string * DF.DataFrame)) (name : string)
  : result DF.DataFrame :=
  match xls with
  | [] => Raise ValueError
  | (n, df) :: rest => if String.eqb name n then Ok df else small_read_excel rest name
  end.

Definition small_csv (df : DF.DataFrame) : string :=
  String.concat "," (DF.columns df).

#[export] Instance SmallRuntime : Runtime := {|
  Path_of_str := split_slash EmptyString;
  Workbook := list (string * DF.DataFrame);
  ExcelFile := small_ExcelFile;
  sheet_names := map fst;
  read_excel := small_read_excel;
  to_csv := small_csv;
  revenue_by_stage_png := fun _ => Ok "stage chart";
  top_sales_reps_png := fun _ => Ok "rep chart";
  str_of_exn := fun e =>
    match e with
    | FileNotFoundError msg => msg
    | FileExistsError => "file exists"
    | NotADirectoryError => "not a directory"
    | IsADirectoryError => "is a directory"
    | IndexError => "list index out of range"
    | TypeError => "type error"
    | ValueError => "value error"
    end
|}.

(** A project directory holding a download of the CRM workbook. *)
Definition tree_with_crm : FS.node :=
  FS.Dir [ ("proj", FS.Dir [ ("crm.xlsx", FS.File "crm") ]) ].

(** The same project with the script itself in it. *)
Definition tree_with_script : FS.node :=
  FS.Dir [ ("proj", FS.Dir [ ("pipeline.py", FS.File "import argparse");
                             ("crm.xlsx", FS.File "crm") ]) ].

(** A project after a first run of the original script. *)
Definition tree_after_run : FS.node :=
  FS.Dir [ ("proj",
     FS.Dir [ ("data", FS.Dir [ ("processed", FS.Dir []);
                                ("raw", FS.Dir [ (canonical_name, FS.File "crm") ]) ]);
              ("reports", FS.Dir []) ]) ].

(** *** Vocabulary of the further properties *)

(** The three lines [detect_sheet_names] prints when it succeeds. *)
Definition detection_log `{Libs} (names : list string) (d t : string) (w : World)
  : World :=
  printed ("[INFO] Using teams sheet: " ++ t)%string
    (printed ("[INFO] Using deals sheet: " ++ d)%string
       (printed ("[INFO] Available sheets: " ++ repr_of_names names)%string w)).

(** A computation keeps the regular files other than [targets]: whatever its
    outcome, each of them is still there afterwards with the same contents. *)
Definition keeps_files_except `{Libs} {A} (targets : list FS.path) (c : M A) : Prop :=
  forall w q x,
    ~ In q targets ->
    FS.lookup q (fs w) = Some (FS.File x) ->
    FS.lookup q (fs (snd (c w))) = Some (FS.File x).

(** The files a run of the updated script may write below [root], apart
    from the copy of the workbook. *)
Definition outputs (root : FS.path) : list FS.path :=
  [ root ++ ["data"; "processed"] ++ [csv_name];
    root ++ ["reports"] ++ ["summary_report.txt"];
    root ++ ["reports"] ++ ["revenue_by_stage.png"];
    root ++ ["reports"] ++ ["top_sales_reps.png"];
    root ++ ["reports"] ++ ["model_report.txt"] ].

(** A computation that leaves the file tree as it is and whose result does
    not depend on the world it runs in. *)
Definition console_only `{Libs} {A} (c : M A) : Prop :=
  exists r, forall w, fst (c w) = r /\ fs (snd (c w)) = fs w.

(* ================================================================== *)
(** * Properties *)

Unset Implicit Arguments.

(** ** Strings *)

Lemma prefix_iff (k s : string) :
  String.prefix k s = true <-> exists b, s = (k ++ b)%string.
Proof.
  revert s. induction k as [|a k IH]; intros s.
  - destruct s; simpl; split; intros _; eauto.
  - destruct s as [|c s]; simpl.
    + split; [discriminate | intros [b Hb]; discriminate].
    + destruct (ascii_dec a c) as [->|Hne].
      * rewrite IH. split; intros [b Hb]; exists b; [now rewrite Hb | now inversion Hb].
      * split; [discriminate | intros [b Hb]; inversion Hb; congruence].
Qed.

Lemma contains_unfold (k s : string) :
  PyStr.contains k s =
  orb (String.prefix k s)
      match s with
      | EmptyString => false
      | String _ s' => PyStr.contains k s'
      end.
Proof.
  destruct s as [|c s]; simpl.
  - now destruct k.
  - destruct k as [|a k]; [reflexivity|]. now destruct (ascii_dec a c).
Qed.

Lemma contains_iff (k s : string) :
  PyStr.contains k s = true <-> exists a b, s = (a ++ k ++ b)%string.
Proof.
  induction s as [|c s IH]; rewrite contains_unfold, orb_true_iff, prefix_iff.
  - split.
    + intros [[b Hb]|Hf]; [now exists EmptyString, b | discriminate].
    + intros (a & b & Hab). left. destruct a; [now exists b | discriminate].
  - rewrite IH. split.
    + intros [[b Hb]|(a & b & ->)]; [now exists EmptyString, b | now exists (String c a), b].
    + intros (a & b & Hab). destruct a as [|c' a].
      * left. now exists b.
      * right. inversion Hab. now exists a, b.
Qed.

Lemma lower_empty (s : string) : PyStr.lower s = EmptyString -> s = EmptyString.
Proof. destruct s; [reflexivity | discriminate]. Qed.

(** ** The sheet resolver *)

Lemma any_keyword_iff (keywords : list string) (name : string) :
  any_keyword keywords (PyStr.lower name) = true <-> mentions keywords name.
Proof.
  unfold any_keyword, mentions. rewrite existsb_exists.
  split; intros (k & Hk & Hc); exists k; split; trivial; now apply contains_iff.
Qed.

Lemma find_first {A} (f : A -> bool) (l : list A) (x : A) :
  find f l = Some x ->
  exists l1 l2, l = l1 ++ x :: l2 /\ f x = true /\
                forall y, In y l1 -> f y = false.
Proof.
  induction l as [|a l IH]; simpl; [discriminate|].
  destruct (f a) eqn:Hfa.
  - intros [= ->]. exists [], l. repeat split; trivial. intros y [].
  - intros Hx. destruct (IH Hx) as (l1 & l2 & -> & Hfx & Hl1).
    exists (a :: l1), l2. repeat split; trivial.
    intros y [<-|Hy]; auto.
Qed.

Lemma last_cons {A} (a d : A) (l : list A) : last (a :: l) d = last l a.
Proof.
  revert a d. induction l as [|b l IH]; intros a d; [reflexivity|].
  change (last (a :: b :: l) d) with (last (b :: l) d).
  now rewrite (IH b d), (IH b a).
Qed.

Lemma last_In {A} (a : A) (l : list A) : In (last l a) (a :: l).
Proof.
  revert a. induction l as [|b l IH]; intros a; [now left|].
  rewrite last_cons. right. apply IH.
Qed.

Lemma or_fallback_resolved (keywords names : list string) (fallback : string) :
  any_keyword keywords EmptyString = false ->
  exists s,
    or_fallback (find_sheet names keywords) (Ok fallback) = Ok s /\
    resolved keywords fallback names s /\
    (In fallback names -> In s names).
Proof.
  intros Hempty. unfold or_fallback, find_sheet.
  destruct (find _ names) as [s|] eqn:Hfind.
  - assert (PyStr.truthy s = true) as Ht.
    { apply find_some in Hfind as [_ Hs].
      destruct s; [|reflexivity]. simpl in Hs. congruence. }
    simpl. rewrite Ht. exists s. split; [reflexivity|]. split.
    + left. destruct (find_first _ _ _ Hfind) as (l1 & l2 & -> & Hs & Hl1).
      exists l1, l2. split; [reflexivity|]. split; [now apply any_keyword_iff|].
      intros x Hx Hm. apply any_keyword_iff in Hm. rewrite (Hl1 x Hx) in Hm.
      discriminate.
    + intros _. now apply find_some in Hfind as [Hin _].
  - simpl. exists fallback. split; [reflexivity|]. split; [|tauto].
    right. split; [|reflexivity]. intros x Hx Hm.
    apply any_keyword_iff in Hm.
    now rewrite (find_none _ _ Hfind x Hx) in Hm.
Qed.

(** C2. Without overrides, on a workbook with at least one sheet, the
    resolver succeeds; the deals sheet is the first sheet whose lower-cased
    name contains "deal", "pipeline" or "opportunit", or the first sheet of
    the workbook when there is none; the teams sheet is the first sheet whose
    lower-cased name contains "team" or "sales", or the last sheet when there
    is none; both names are sheets of the workbook, and nothing but the
    console changes. *)
Theorem detect_sheet_names_resolves `{Libs} (names : list string) (w : World) :
  names <> [] ->
  exists d t w',
    detect_sheet_names names w = (Ok (d, t), w') /\
    main_select_sheets None None names w = (Ok (Some d, Some t), w') /\
    resolved deals_keywords (hd EmptyString names) names d /\
    resolved teams_keywords (last names EmptyString) names t /\
    In d names /\ In t names /\ fs w' = fs w.
Proof.
  intros Hne. destruct names as [|n0 rest]; [congruence|].
  destruct (or_fallback_resolved deals_keywords (n0 :: rest) n0 eq_refl)
    as (d & Hd & Rd & Id).
  destruct (or_fallback_resolved teams_keywords (n0 :: rest) (last rest n0) eq_refl)
    as (t & Ht & Rt & It).
  set (w' := mkWorld (fs w)
                (((stdout w
                   ++ [("[INFO] Available sheets: "
                        ++ repr_of_names (n0 :: rest))%string])
                  ++ [("[INFO] Using deals sheet: " ++ d)%string])
                 ++ [("[INFO] Using teams sheet: " ++ t)%string])
                (np_random w)).
  exists d, t, w'.
  assert (detect_sheet_names (n0 :: rest) w = (Ok (d, t), w')) as Hrun.
  { unfold detect_sheet_names, bind, print.
    cbn [first_sheet last_sheet]. rewrite Hd, Ht. cbn. reflexivity. }
  split; [exact Hrun|].
  split; [unfold main_select_sheets, bind; cbn [PyStr.truthy_opt negb orb];
          rewrite Hrun; reflexivity|].
  split; [exact Rd|].
  split; [now rewrite last_cons|].
  split; [apply Id; now left|].
  split; [apply It; apply last_In|].
  reflexivity.
Qed.

Lemma detect_sheet_names_resolves_witness :
  exists d t w',
    detect_sheet_names ["Pipeline"; "Sales Team"] empty_world = (Ok (d, t), w') /\
    main_select_sheets None None ["Pipeline"; "Sales Team"] empty_world
      = (Ok (Some d, Some t), w') /\
    resolved deals_keywords "Pipeline" ["Pipeline"; "Sales Team"] d /\
    resolved teams_keywords "Sales Team" ["Pipeline"; "Sales Team"] t /\
    In d ["Pipeline"; "Sales Team"] /\ In t ["Pipeline"; "Sales Team"] /\
    fs w' = fs empty_world.
Proof.
  apply (@detect_sheet_names_resolves SmallLibs
           ["Pipeline"; "Sales Team"] empty_world).
  discriminate.
Defined.

(** The end-to-end scenario of the specification, and the two fallbacks. *)
Example detect_pipeline_sales_team :
  fst (detect_sheet_names ["Pipeline"; "Sales Team"] empty_world)
  = Ok ("Pipeline", "Sales Team").
Proof. reflexivity. Qed.

Example detect_positional_fallback :
  fst (detect_sheet_names ["Sheet1"; "Sheet2"; "Sheet3"] empty_world)
  = Ok ("Sheet1", "Sheet3").
Proof. reflexivity. Qed.

Example detect_is_case_insensitive :
  fst (detect_sheet_names ["Notes"; "SALES reps"; "Q3 OPPORTUNITIES"] empty_world)
  = Ok ("Q3 OPPORTUNITIES", "SALES reps").
Proof. reflexivity. Qed.

Example detect_empty_workbook :
  fst (detect_sheet_names [] empty_world) = Raise IndexError.
Proof. reflexivity. Qed.

(** ** Sheet overrides *)

(** Both sides run [c] first and then differ only in how the pair it
    returns is taken apart. *)
Ltac same_after c :=
  unfold bind; destruct c as [[[? ?]|?] ?]; reflexivity.

(** C7, as amended.  When the supplied names are not empty, the override is
    per role: two supplied names are used as they are, without any
    detection; a single supplied name is used for its role and the detection
    decides the other role only. *)
Theorem main_select_sheets_override `{Libs}
        (d t : string) (names : list string) (w : World) :
  d <> EmptyString -> t <> EmptyString ->
  per_role_override d t names w.
Proof.
  intros Hd Ht.
  assert (PyStr.truthy d = true) as Td by (destruct d; [congruence|reflexivity]).
  assert (PyStr.truthy t = true) as Tt by (destruct t; [congruence|reflexivity]).
  unfold per_role_override, main_select_sheets.
  cbn [PyStr.truthy_opt PyStr.or_else]. rewrite Td, Tt. cbn [negb orb].
  repeat split; same_after (detect_sheet_names names w).
Qed.

Lemma main_select_sheets_override_witness :
  per_role_override "Deals 2025" "Reps" ["Pipeline"; "Sales Team"] empty_world.
Proof.
  apply (@main_select_sheets_override SmallLibs); discriminate.
Defined.

(** C7, as stated, fails for an empty name: it is supplied, yet the deals
    role is decided by the detection. *)
Lemma override_empty_name_counterexample :
  ~ per_role_override EmptyString "Sales Team" ["Pipeline"; "Sales Team"]
      empty_world
  /\ fst (main_select_sheets (Some EmptyString) (Some "Sales Team")
            ["Pipeline"; "Sales Team"] empty_world)
     = Ok (Some "Pipeline", Some "Sales Team").
Proof.
  split; [|reflexivity].
  intros [Hboth _]. vm_compute in Hboth. discriminate.
Qed.

(** C9. An empty string given for a role is treated as no override for
    that role: the selection runs as if the argument were absent, so the
    detected name is used in place of the empty one. *)
Theorem empty_override_is_no_override `{Libs}
        (other : option string) (names : list string) (w : World) :
  main_select_sheets (Some EmptyString) other names w
  = main_select_sheets None other names w /\
  main_select_sheets other (Some EmptyString) names w
  = main_select_sheets other None names w /\
  main_select_sheets (Some EmptyString) other names w
  = bind (detect_sheet_names names)
         (fun auto => ret (Some (fst auto), Some (PyStr.or_else other (snd auto)))) w /\
  main_select_sheets other (Some EmptyString) names w
  = bind (detect_sheet_names names)
         (fun auto => ret (Some (PyStr.or_else other (fst auto)), Some (snd auto))) w.
Proof.
  unfold main_select_sheets. cbn [PyStr.truthy_opt PyStr.truthy PyStr.or_else negb orb].
  rewrite orb_true_r.
  repeat split; same_after (detect_sheet_names names w).
Qed.

Example empty_deals_override_detects :
  fst (main_select_sheets (Some EmptyString) (Some "Reps")
         ["Pipeline"; "Sales Team"] empty_world)
  = Ok (Some "Pipeline", Some "Reps").
Proof. reflexivity. Qed.

(** ** The merger without a key *)

(** C4. When the deals table or the teams table has no SalesRep column, the
    merger raises nothing, prints its warning and returns the deals table
    itself: same columns, same rows, same values.  The inline step of the
    original script does the same. *)
Theorem process_and_merge_passthrough `{Libs}
        (deals_df teams_df : DF.DataFrame) (w : World) :
  DF.has_column "SalesRep" deals_df = false \/
  DF.has_column "SalesRep" teams_df = false ->
  process_and_merge deals_df teams_df w = (Ok deals_df, printed merge_warning w) /\
  main_merge deals_df teams_df w = (Ok deals_df, printed merge_warning w).
Proof.
  intros Hmiss. unfold process_and_merge, main_merge.
  assert (andb (DF.has_column "SalesRep" deals_df)
               (DF.has_column "SalesRep" teams_df) = false) as ->.
  { destruct Hmiss as [-> | ->]; [reflexivity | apply andb_false_r]. }
  split; reflexivity.
Qed.

Lemma process_and_merge_passthrough_witness :
  process_and_merge sample_deals teams_by_owner empty_world
  = (Ok sample_deals, printed merge_warning empty_world) /\
  main_merge sample_deals teams_by_owner empty_world
  = (Ok sample_deals, printed merge_warning empty_world).
Proof.
  apply (@process_and_merge_passthrough SmallLibs).
  right. reflexivity.
Defined.

(** ** The classifier without its columns *)

(** C6. On a table without the Closed column or without the Amount column
    [train_model] prints its warning and returns normally; the file tree is
    the one it started from, so no model report appears. *)
Theorem train_model_skips `{Libs}
        (df : DF.DataFrame) (reports_dir : FS.path) (w : World) :
  DF.has_column "Closed" df = false \/ DF.has_column "Amount" df = false ->
  train_model df reports_dir w = (Ok tt, printed model_warning w) /\
  fs (snd (train_model df reports_dir w)) = fs w /\
  FS.lookup (reports_dir ++ ["model_report.txt"])
            (fs (snd (train_model df reports_dir w)))
  = FS.lookup (reports_dir ++ ["model_report.txt"]) (fs w).
Proof.
  intros Hmiss.
  assert (train_model df reports_dir w = (Ok tt, printed model_warning w)) as Hrun.
  { unfold train_model.
    assert (orb (negb (DF.has_column "Closed" df))
                (negb (DF.has_column "Amount" df)) = true) as ->.
    { destruct Hmiss as [-> | ->]; [reflexivity | apply orb_true_r]. }
    reflexivity. }
  rewrite Hrun. repeat split.
Qed.

Lemma train_model_skips_witness :
  train_model contacts_only ["reports"] empty_world
  = (Ok tt, printed model_warning empty_world) /\
  fs (snd (train_model contacts_only ["reports"] empty_world)) = fs empty_world /\
  FS.lookup (["reports"] ++ ["model_report.txt"])
            (fs (snd (train_model contacts_only ["reports"] empty_world)))
  = FS.lookup (["reports"] ++ ["model_report.txt"]) (fs empty_world).
Proof.
  apply (@train_model_skips SmallLibs).
  left. reflexivity.
Defined.

(** ** The left join *)

Lemma cell_eqb_sym (a b : DF.cell) : DF.cell_eqb a b = DF.cell_eqb b a.
Proof.
  destruct a as [|p|s], b as [|q|t]; simpl; trivial.
  - apply eq_true_iff_eq. rewrite !Qeq_bool_iff. split; intros E; now symmetry.
  - apply String.eqb_sym.
Qed.

Lemma cell_eqb_trans (a b c : DF.cell) :
  DF.cell_eqb a b = true -> DF.cell_eqb b c = true -> DF.cell_eqb a c = true.
Proof.
  destruct a as [|p|s], b as [|q|t], c as [|r|u]; simpl; try discriminate; trivial.
  - rewrite !Qeq_bool_iff. intros E1 E2. now rewrite E1.
  - rewrite !String.eqb_eq. congruence.
Qed.

Lemma join_row_length (key : string) (l r : DF.DataFrame) (lrow : list DF.cell) :
  List.length (DF.join_row key l r lrow)
  = Nat.max 1 (List.length (DF.matches key l r lrow)).
Proof.
  unfold DF.join_row. destruct (DF.matches key l r lrow) as [|m ms]; [reflexivity|].
  rewrite length_map. reflexivity.
Qed.

Lemma merge_left_length (key : string) (l r : DF.DataFrame) :
  List.length (DF.rows (DF.merge_left key l r))
  = list_sum (map (fun lrow => Nat.max 1 (List.length (DF.matches key l r lrow)))
                  (DF.rows l)).
Proof.
  unfold DF.merge_left. cbn [DF.rows]. rewrite length_flat_map.
  f_equal. apply map_ext. intros lrow. apply join_row_length.
Qed.

Lemma list_sum_ge_length {A} (f : A -> nat) (l : list A) :
  (forall x, In x l -> 1 <= f x) -> List.length l <= list_sum (map f l).
Proof.
  induction l as [|a l IH]; intros Hf; simpl; [lia|].
  specialize (Hf a (or_introl eq_refl)) as Ha.
  assert (List.length l <= list_sum (map f l)) by (apply IH; intros; apply Hf; now right).
  lia.
Qed.

Lemma list_sum_ones {A} (f : A -> nat) (l : list A) :
  (forall x, In x l -> f x = 1) -> list_sum (map f l) = List.length l.
Proof.
  induction l as [|a l IH]; intros Hf; simpl; [reflexivity|].
  rewrite (Hf a (or_introl eq_refl)), IH; [reflexivity|].
  intros; apply Hf; now right.
Qed.

Lemma filter_none {A} (f : A -> bool) (l : list A) :
  (forall x, In x l -> f x = false) <-> filter f l = [].
Proof.
  induction l as [|a l IH]; simpl; [tauto|].
  destruct (f a) eqn:Hfa; split.
  - intros Hall. rewrite (Hall a (or_introl eq_refl)) in Hfa. discriminate.
  - discriminate.
  - intros Hall. apply IH. intros x Hx. apply Hall. now right.
  - intros Hnil x [<-|Hx]; [assumption | now apply IH].
Qed.

(** With distinct keys on the right, a key matches at most one row. *)
Lemma distinct_keys_one_match (key_of : list DF.cell -> DF.cell)
      (k : DF.cell) (rs : list (list DF.cell)) :
  distinct_keys (map key_of rs) = true ->
  List.length (filter (fun rrow => DF.cell_eqb k (key_of rrow)) rs) <= 1.
Proof.
  induction rs as [|r0 rs IH]; simpl; [lia|].
  rewrite andb_true_iff, negb_true_iff. intros [Hfresh Hrest].
  specialize (IH Hrest).
  destruct (DF.cell_eqb k (key_of r0)) eqn:Hk; [|exact IH].
  simpl. enough (filter (fun rrow => DF.cell_eqb k (key_of rrow)) rs = []) as ->;
    [simpl; lia|].
  apply filter_none. intros r1 Hr1.
  destruct (DF.cell_eqb k (key_of r1)) eqn:Hk1; [|reflexivity].
  assert (existsb (DF.cell_eqb (key_of r0)) (map key_of rs) = true) as Hdup.
  { apply existsb_exists. exists (key_of r1). split; [now apply in_map|].
    apply cell_eqb_trans with k; [now rewrite cell_eqb_sym | exact Hk1]. }
  congruence.
Qed.

Lemma unique_key_one_match (key : string) (l r : DF.DataFrame) (lrow : list DF.cell) :
  unique_key key r = true ->
  List.length (DF.matches key l r lrow) <= 1.
Proof.
  intros Hu. unfold DF.matches.
  apply (distinct_keys_one_match (DF.key_of key r)). exact Hu.
Qed.

Lemma join_row_In (key : string) (l r : DF.DataFrame) (lrow row : list DF.cell) :
  In row (DF.join_row key l r lrow) <->
  ((exists rrow,
       In rrow (DF.rows r) /\
       DF.cell_eqb (DF.key_of key l lrow) (DF.key_of key r rrow) = true /\
       row = lrow ++ DF.remove_nth (DF.index_of key (DF.columns r)) rrow)
   \/
   ((forall rrow, In rrow (DF.rows r) ->
                  DF.cell_eqb (DF.key_of key l lrow) (DF.key_of key r rrow) = false) /\
    row = lrow ++ repeat DF.NaN (List.length (DF.columns r) - 1))).
Proof.
  unfold DF.join_row.
  destruct (DF.matches key l r lrow) as [|m ms] eqn:Hm.
  - pose proof (proj2 (filter_none _ _) Hm) as Hnone.
    split.
    + intros [<-|[]]. right. split; [exact Hnone | reflexivity].
    + intros [(rrow & Hin & Heq & _) | [_ ->]]; [|now left].
      rewrite (Hnone rrow Hin) in Heq. discriminate.
  - rewrite <- Hm. rewrite in_map_iff. split.
    + intros (rrow & <- & Hin). left. exists rrow.
      apply filter_In in Hin as [Hin Heq]. auto.
    + intros [(rrow & Hin & Heq & ->) | [Hnone _]].
      * exists rrow. split; [reflexivity|]. apply filter_In. auto.
      * assert (In m (DF.matches key l r lrow)) as Hin by (rewrite Hm; now left).
        apply filter_In in Hin as [Hin Heq].
        rewrite (Hnone m Hin) in Heq. discriminate.
Qed.

Lemma merge_left_rows (key : string) (l r : DF.DataFrame) (row : list DF.cell) :
  In row (DF.rows (DF.merge_left key l r)) <-> left_outer_join_row key l r row.
Proof.
  unfold DF.merge_left, left_outer_join_row. cbn [DF.rows].
  rewrite in_flat_map. split; intros (lrow & Hin & Hrow); exists lrow;
    (split; [exact Hin | now apply join_row_In]).
Qed.

Lemma join_row_single (key : string) (l r : DF.DataFrame) (lrow : list DF.cell) :
  List.length (DF.matches key l r lrow) <= 1 ->
  exists fields, DF.join_row key l r lrow = [lrow ++ fields].
Proof.
  unfold DF.join_row. destruct (DF.matches key l r lrow) as [|m [|m' ms]]; simpl.
  - eauto.
  - eauto.
  - lia.
Qed.

Lemma firstn_prefix {A} (l x : list A) : firstn (List.length l) (l ++ x) = l.
Proof. induction l as [|a l IH]; simpl; [now destruct x | now rewrite IH]. Qed.

Lemma left_rows_kept {A} (n : nat) (f : list A -> list (list A)) (rs : list (list A)) :
  (forall r, In r rs -> List.length r = n /\ exists x, f r = [r ++ x]) ->
  map (firstn n) (flat_map f rs) = rs.
Proof.
  induction rs as [|r rs IH]; intros Hrs; [reflexivity|].
  destruct (Hrs r (or_introl eq_refl)) as [Hlen [x Hx]].
  simpl. rewrite Hx. simpl. f_equal.
  - rewrite <- Hlen. apply firstn_prefix.
  - apply IH. intros r' Hr'. apply Hrs. now right.
Qed.

Lemma process_and_merge_run `{Libs}
      (deals_df teams_df : DF.DataFrame) (w : World) :
  DF.has_column "SalesRep" deals_df = true ->
  DF.has_column "SalesRep" teams_df = true ->
  process_and_merge deals_df teams_df w
  = (if merge_accepts "SalesRep" deals_df teams_df
     then Ok (DF.merge_left "SalesRep" deals_df teams_df)
     else Raise ValueError, w).
Proof.
  intros Hd Ht. unfold process_and_merge, lift, merge. rewrite Hd, Ht.
  cbn [andb]. now destruct (merge_accepts "SalesRep" deals_df teams_df).
Qed.

(** C1, as amended.  When both tables have the SalesRep column, the merger
    (and the inline step of the original script) prints no warning and
    either raises ValueError, when pandas refuses the merge, or returns the
    left outer join of deals with teams on SalesRep.  pandas accepts the
    merge when both SalesRep columns hold text or both hold numbers and the
    labels of the tables are unique and shared on SalesRep only; it refuses
    a SalesRep column of text against one of numbers.  The rows of the join
    are exactly the deal rows extended by the fields of a team row with the
    same SalesRep, or by empty fields when there is none.  The join has one
    row per deal row and matching team row, so never fewer rows than the
    deals table; when no SalesRep occurs twice in the teams table it has
    exactly as many, and they are the deal rows in order. *)
Theorem process_and_merge_left_join `{Libs}
        (deals_df teams_df : DF.DataFrame) (w : World) :
  DF.has_column "SalesRep" deals_df = true ->
  DF.has_column "SalesRep" teams_df = true ->
  let merged := DF.merge_left "SalesRep" deals_df teams_df in
  let outcome :=
    (if merge_accepts "SalesRep" deals_df teams_df
     then Ok merged else Raise ValueError) in
  process_and_merge deals_df teams_df w = (outcome, w) /\
  main_merge deals_df teams_df w = (outcome, w) /\
  (same_kind_of_key "SalesRep" deals_df teams_df = true ->
   labels_apart "SalesRep" deals_df teams_df = true ->
   outcome = Ok merged) /\
  (text_against_numbers "SalesRep" deals_df teams_df = true ->
   outcome = Raise ValueError) /\
  (forall row, In row (DF.rows merged) <->
               left_outer_join_row "SalesRep" deals_df teams_df row) /\
  List.length (DF.rows merged)
  = list_sum (map (fun lrow =>
                     Nat.max 1 (List.length
                                  (DF.matches "SalesRep" deals_df teams_df lrow)))
                  (DF.rows deals_df)) /\
  List.length (DF.rows deals_df) <= List.length (DF.rows merged) /\
  (unique_key "SalesRep" teams_df = true ->
   List.length (DF.rows merged) = List.length (DF.rows deals_df) /\
   (DF.well_formed deals_df ->
    map (firstn (List.length (DF.columns deals_df))) (DF.rows merged)
    = DF.rows deals_df)).
Proof.
  intros Hd Ht merged outcome.
  split; [now apply process_and_merge_run|].
  split; [change (main_merge deals_df teams_df w)
            with (process_and_merge deals_df teams_df w);
          now apply process_and_merge_run|].
  split.
  { intros Hk Hl. unfold outcome.
    unfold labels_apart in Hl.
    apply andb_true_iff in Hl as [Hl Hdis].
    apply andb_true_iff in Hl as [Hul Hur].
    now rewrite (merge_accepts_same_kind "SalesRep" deals_df teams_df
                   Hd Ht Hul Hur Hdis Hk). }
  split.
  { intros Hk. unfold outcome.
    now rewrite (merge_rejects_text_number "SalesRep" deals_df teams_df Hd Ht Hk). }
  split; [intros row; apply merge_left_rows|].
  split; [apply merge_left_length|].
  split.
  - unfold merged. rewrite merge_left_length.
    apply list_sum_ge_length. intros; lia.
  - intros Hu. split.
    + unfold merged. rewrite merge_left_length.
      apply list_sum_ones. intros lrow _.
      pose proof (unique_key_one_match "SalesRep" deals_df teams_df lrow Hu). lia.
    + intros Hwf. unfold merged, DF.merge_left. cbn [DF.rows].
      apply left_rows_kept. intros lrow Hin. split.
      * unfold DF.well_formed in Hwf. rewrite Forall_forall in Hwf. now apply Hwf.
      * apply join_row_single. now apply unique_key_one_match.
Qed.

Lemma process_and_merge_left_join_witness :
  DF.has_column "SalesRep" sample_deals = true /\
  DF.has_column "SalesRep" sample_teams = true /\
  let merged := DF.merge_left "SalesRep" sample_deals sample_teams in
  process_and_merge sample_deals sample_teams empty_world = (Ok merged, empty_world) /\
  main_merge sample_deals sample_teams empty_world = (Ok merged, empty_world) /\
  (forall row, In row (DF.rows merged) <->
               left_outer_join_row "SalesRep" sample_deals sample_teams row) /\
  List.length (DF.rows sample_deals) <= List.length (DF.rows merged) /\
  List.length (DF.rows merged) = List.length (DF.rows sample_deals) /\
  map (firstn (List.length (DF.columns sample_deals))) (DF.rows merged)
  = DF.rows sample_deals.
Proof.
  split; [reflexivity|]. split; [reflexivity|].
  destruct (@process_and_merge_left_join SmallLibs sample_deals sample_teams
              empty_world eq_refl eq_refl)
    as (Hrun & Hinline & _ & _ & Hrows & _ & Hle & Hunique).
  destruct (Hunique eq_refl) as [Hsame Hkept].
  split; [exact Hrun|]. split; [exact Hinline|].
  split; [exact Hrows|]. split; [exact Hle|]. split; [exact Hsame|].
  apply Hkept. repeat constructor.
Defined.

(** The sample tables have text keys and share the SalesRep label only, so
    the merger returns their join. *)
Example merge_sample_accepted :
  same_kind_of_key "SalesRep" sample_deals sample_teams = true /\
  labels_apart "SalesRep" sample_deals sample_teams = true /\
  process_and_merge sample_deals sample_teams empty_world
  = (Ok (DF.merge_left "SalesRep" sample_deals sample_teams), empty_world).
Proof. repeat split. Qed.

(** Deals keyed by numbers against teams keyed by text: the merger raises,
    and so does the inline step of the original script. *)
Example merge_numbers_against_text :
  text_against_numbers "SalesRep" deals_by_number sample_teams = true /\
  process_and_merge deals_by_number sample_teams empty_world
  = (Raise ValueError, empty_world) /\
  main_merge deals_by_number sample_teams empty_world
  = (Raise ValueError, empty_world).
Proof. repeat split. Qed.

(** The sample tables share "ann" and "bob"; "cy" gets empty team fields
    and "dee" contributes no row. *)
Example merge_sample :
  DF.merge_left "SalesRep" sample_deals sample_teams
  = DF.mkDF ["SalesRep"; "Amount"; "Stage"; "Closed"; "Team"]
            [ [text "ann"; int 100; text "Won"; int 1; text "East"];
              [text "bob"; int 200; text "Open"; int 0; text "West"];
              [text "cy"; int 300; text "Won"; int 1; DF.NaN];
              [text "ann"; int 400; text "Won"; int 1; text "East"] ].
Proof. reflexivity. Qed.

(** C1, as stated, fails when a SalesRep has two team rows: each of its
    deals then appears twice. *)
Lemma merge_row_count_counterexample :
  DF.has_column "SalesRep" sample_deals = true /\
  DF.has_column "SalesRep" two_team_rep = true /\
  List.length (DF.rows sample_deals) = 4 /\
  (exists w', process_and_merge sample_deals two_team_rep empty_world
              = (Ok (DF.merge_left "SalesRep" sample_deals two_team_rep), w')) /\
  List.length (DF.rows (DF.merge_left "SalesRep" sample_deals two_team_rep)) = 6 /\
  ~ merge_preserves_row_count sample_deals two_team_rep empty_world.
Proof.
  repeat split; try reflexivity.
  - now exists empty_world.
  - intros (merged & w' & Hrun & Hlen).
    vm_compute in Hrun. inversion Hrun; subst. vm_compute in Hlen. discriminate.
Qed.

(** ** Counting the values of a column *)

Lemma cell_eqb_congr (a b x : DF.cell) :
  DF.cell_eqb a b = true -> DF.cell_eqb a x = DF.cell_eqb b x.
Proof.
  intros Hab. apply eq_true_iff_eq. split; intros Hx.
  - apply cell_eqb_trans with a; [now rewrite cell_eqb_sym | exact Hx].
  - now apply cell_eqb_trans with b.
Qed.

Lemma count_congr (a b : DF.cell) (col : list DF.cell) :
  DF.cell_eqb a b = true -> DF.count a col = DF.count b col.
Proof.
  intros Hab. unfold DF.count. f_equal. apply filter_ext.
  intros x. now apply cell_eqb_congr.
Qed.

Lemma count_zero_iff (v : DF.cell) (col : list DF.cell) :
  DF.count v col = 0 <-> existsb (DF.cell_eqb v) col = false.
Proof.
  unfold DF.count. induction col as [|c col IH]; simpl; [tauto|].
  destruct (DF.cell_eqb v c); simpl; [split; discriminate | exact IH].
Qed.

Lemma existsb_filter_other (x v : DF.cell) (l : list DF.cell) :
  DF.cell_eqb x v = false ->
  existsb (DF.cell_eqb x) (filter (fun w => negb (DF.cell_eqb v w)) l)
  = existsb (DF.cell_eqb x) l.
Proof.
  intros Hxv. induction l as [|w l IH]; simpl; [reflexivity|].
  destruct (DF.cell_eqb v w) eqn:Hvw; simpl.
  - rewrite IH.
    assert (DF.cell_eqb x w = false) as ->; [|reflexivity].
    rewrite <- Hxv. rewrite !(cell_eqb_sym x). symmetry. now apply cell_eqb_congr.
  - now rewrite IH.
Qed.

Lemma existsb_filter_same (v : DF.cell) (l : list DF.cell) :
  existsb (DF.cell_eqb v) (filter (fun w => negb (DF.cell_eqb v w)) l) = false.
Proof.
  induction l as [|w l IH]; simpl; [reflexivity|].
  destruct (DF.cell_eqb v w) eqn:Hvw; simpl; [exact IH | now rewrite Hvw].
Qed.

Lemma cell_eqb_isna (x v : DF.cell) :
  DF.cell_eqb x v = true -> DF.isna x = DF.isna v.
Proof. destruct x, v; simpl; congruence. Qed.

Lemma existsb_distinct (x : DF.cell) (col : list DF.cell) :
  existsb (DF.cell_eqb x) (DF.distinct col)
  = andb (negb (DF.isna x)) (existsb (DF.cell_eqb x) col).
Proof.
  induction col as [|v col IH]; simpl; [now rewrite andb_false_r|].
  destruct (DF.isna v) eqn:Hv.
  - rewrite IH. destruct v; try discriminate. destruct x; reflexivity.
  - simpl. destruct (DF.cell_eqb x v) eqn:Hxv; simpl.
    + rewrite (cell_eqb_isna _ _ Hxv), Hv. reflexivity.
    + now rewrite existsb_filter_other.
Qed.

Lemma distinct_keys_filter (p : DF.cell -> bool) (l : list DF.cell) :
  distinct_keys l = true -> distinct_keys (filter p l) = true.
Proof.
  induction l as [|a l IH]; simpl; [trivial|].
  rewrite andb_true_iff, negb_true_iff. intros [Ha Hl].
  destruct (p a); simpl; [|auto].
  rewrite IH by assumption. rewrite andb_true_r, negb_true_iff.
  destruct (existsb (DF.cell_eqb a) (filter p l)) eqn:He; [|reflexivity].
  apply existsb_exists in He as (x & Hx & Hax).
  apply filter_In in Hx as [Hx _].
  rewrite <- Ha. symmetry. apply existsb_exists. eauto.
Qed.

Lemma distinct_keys_distinct (col : list DF.cell) :
  distinct_keys (DF.distinct col) = true.
Proof.
  induction col as [|v col IH]; simpl; [reflexivity|].
  destruct (DF.isna v); [exact IH|].
  simpl. rewrite existsb_filter_same. simpl. now apply distinct_keys_filter.
Qed.

Lemma In_insert_desc (x e : DF.cell * nat) (l : list (DF.cell * nat)) :
  In x (DF.insert_desc e l) <-> x = e \/ In x l.
Proof.
  induction l as [|e' l IH]; simpl; [intuition congruence|].
  destruct (snd e' <=? snd e)%nat; simpl; [intuition congruence|].
  rewrite IH. intuition congruence.
Qed.






(** The counts come out in decreasing order. *)
Lemma insert_desc_sorted (e : DF.cell * nat) (l : list (DF.cell * nat)) :
  StronglySorted (fun a b => snd b <= snd a) l ->
  StronglySorted (fun a b => snd b <= snd a) (DF.insert_desc e l).
Proof.
  induction 1 as [|e' l Hl IH Hall]; simpl.
  - constructor; constructor.
  - destruct (snd e' <=? snd e)%nat eqn:Hle.
    + apply Nat.leb_le in Hle. constructor; [now constructor|].
      constructor; [lia|]. eapply Forall_impl; [|exact Hall]. simpl. intros; lia.
    + apply Nat.leb_gt in Hle. constructor; [exact IH|].
      apply Forall_forall. intros x Hx. apply In_insert_desc in Hx as [->|Hx]; [lia|].
      rewrite Forall_forall in Hall. now apply Hall.
Qed.

Lemma value_counts_sorted (col : list DF.cell) :
  StronglySorted (fun a b => snd b <= snd a) (DF.value_counts col).
Proof.
  unfold DF.value_counts, DF.sort_desc.
  induction (map (fun v => (v, DF.count v col)) (DF.distinct col)) as [|e l IH]; simpl.
  - constructor.
  - now apply insert_desc_sorted.
Qed.

(** ** Summary statistics *)

Lemma round_half_even_bounds (q : Q) :
  (- Z.pos (Qden q)
   <= 2 * (DF.round_half_even q * Z.pos (Qden q) - Qnum q)
   <= Z.pos (Qden q))%Z.
Proof.
  unfold DF.round_half_even. destruct q as [n d]. cbn [Qnum Qden].
  pose proof (Z.div_mod n (Z.pos d) ltac:(lia)) as Hdm.
  pose proof (Z.mod_pos_bound n (Z.pos d) ltac:(lia)) as Hb.
  remember (Z.pos d) as D eqn:HD.
  remember (n / D)%Z as f eqn:Hf. remember (n mod D)%Z as r eqn:Hr.
  clear HD Hf Hr. subst n.
  destruct (Z.compare_spec (2 * r) D) as [Hc|Hc|Hc].
  - destruct (Z.even f); lia.
  - lia.
  - lia.
Qed.

(** Rounding moves a number by at most one half. *)
Lemma round_half_even_close (q : Q) :
  (Qabs (inject_Z (DF.round_half_even q) - q) <= 1 # 2)%Q.
Proof.
  pose proof (round_half_even_bounds q) as Hb.
  apply Qabs_Qle_condition.
  generalize dependent (DF.round_half_even q). intros z Hb.
  destruct q as [n d]. cbn [Qnum Qden] in Hb.
  unfold Qle, Qminus, Qplus, Qopp, inject_Z. cbn [Qnum Qden].
  rewrite !Pos2Z.inj_mul. split; lia.
Qed.

Lemma numbers_numeric (col : list DF.cell) :
  numeric col = true -> DF.numbers col = Ok (number_values col).
Proof.
  induction col as [|c col IH]; simpl; [reflexivity|].
  rewrite andb_true_iff. intros [Hc Hcol].
  destruct c; try discriminate; rewrite (IH Hcol); reflexivity.
Qed.













(** A text cell makes the arithmetic raise. *)
Example summary_of_text_amount :
  generate_summary (one_column "Amount" [int 100; text "n/a"]) = Raise TypeError.
Proof. reflexivity. Qed.

(** ** The file tree *)

Lemma set_entry_same (c : string) (n : FS.node) (es : list (string * FS.node)) :
  FS.lookup_entry c es = Some n -> FS.set_entry c n es = es.
Proof.
  induction es as [|[c' n'] es IH]; simpl; [discriminate|].
  destruct (String.eqb c c') eqn:Hc.
  - now intros [= ->].
  - intros Hl. now rewrite IH.
Qed.

Lemma lookup_set_same (c : string) (n : FS.node) (es : list (string * FS.node)) :
  FS.lookup_entry c (FS.set_entry c n es) = Some n.
Proof.
  induction es as [|[c' n'] es IH]; simpl.
  - now rewrite String.eqb_refl.
  - destruct (String.eqb c c') eqn:Hc; simpl; now rewrite Hc.
Qed.

Lemma lookup_set_other (c c2 : string) (n : FS.node) (es : list (string * FS.node)) :
  String.eqb c2 c = false ->
  FS.lookup_entry c2 (FS.set_entry c n es) = FS.lookup_entry c2 es.
Proof.
  intros Hne. induction es as [|[c' n'] es IH]; simpl.
  - now rewrite Hne.
  - destruct (String.eqb c c') eqn:Hc; simpl.
    + apply String.eqb_eq in Hc. subst c'. now rewrite Hne.
    + now rewrite IH.
Qed.

(** Creating a directory that is there changes nothing. *)
Lemma mkdir_p_existing (p : FS.path) (t : FS.node) :
  FS.is_dir p t = true -> FS.mkdir_p p t = Ok t.
Proof.
  unfold FS.is_dir. revert t. induction p as [|c p IH]; intros t; simpl.
  - now destruct t.
  - destruct t as [|es]; [discriminate|].
    destruct (FS.lookup_entry c es) as [child|] eqn:Hc; [|discriminate].
    intros Hdir. rewrite (IH child Hdir). now rewrite set_entry_same.
Qed.

(** Whatever has a child is a directory. *)
Lemma parent_is_dir (p : FS.path) (c : string) (t : FS.node) :
  FS.exists_ (p ++ [c]) t = true -> FS.is_dir p t = true.
Proof.
  unfold FS.exists_, FS.is_dir. revert t. induction p as [|c0 p IH]; intros t; simpl.
  - now destruct t.
  - destruct t as [|es]; [discriminate|].
    destruct (FS.lookup_entry c0 es) as [child|]; [apply IH | discriminate].
Qed.

Lemma mkdir_p_is_dir (p : FS.path) (t t' : FS.node) :
  FS.mkdir_p p t = Ok t' -> FS.is_dir p t' = true.
Proof.
  unfold FS.is_dir. revert t t'. induction p as [|c p IH]; intros t t'; simpl.
  - destruct t; [discriminate|]. now intros [= <-].
  - destruct t as [|es]; [discriminate|].
    destruct (FS.lookup_entry c es) as [child|].
    + destruct (FS.mkdir_p p child) as [child'|] eqn:Hm; [|discriminate].
      intros [= <-]. rewrite lookup_set_same. now apply (IH child).
    + destruct (FS.mkdir_p p (FS.Dir [])) as [child'|] eqn:Hm; [|discriminate].
      intros [= <-]. rewrite lookup_set_same. now apply (IH (FS.Dir [])).
Qed.

(** Creating directories leaves every regular file as it is. *)
Lemma mkdir_p_keeps_files (p q : FS.path) (t t' : FS.node) (data : string) :
  FS.mkdir_p p t = Ok t' ->
  FS.lookup q t = Some (FS.File data) ->
  FS.lookup q t' = Some (FS.File data).
Proof.
  revert q t t'. induction p as [|c p IH]; intros q t t'; simpl.
  - destruct t; [discriminate|]. now intros [= <-].
  - destruct t as [|es]; [discriminate|].
    destruct q as [|c2 q]; [intros _; discriminate|].
    simpl. destruct (String.eqb c2 c) eqn:Hcc.
    + apply String.eqb_eq in Hcc. subst c2.
      destruct (FS.lookup_entry c es) as [child|]; [|intros _; discriminate].
      destruct (FS.mkdir_p p child) as [child'|] eqn:Hm; [|discriminate].
      intros [= <-] Hq. rewrite lookup_set_same. now apply (IH q child).
    + intros Hmk Hq.
      assert (exists child', t' = FS.Dir (FS.set_entry c child' es)) as [child' ->].
      { destruct (FS.lookup_entry c es) as [child|];
          [destruct (FS.mkdir_p p child) | destruct (FS.mkdir_p p (FS.Dir []))];
          inversion Hmk; eauto. }
      now rewrite lookup_set_other.
Qed.

(** Creating directories creates nothing off the path it was given. *)
Lemma mkdir_p_creates_on_path (p q : FS.path) (t t' : FS.node) :
  FS.mkdir_p p t = Ok t' ->
  FS.lookup q t = None ->
  ~ initial_segment q p ->
  FS.lookup q t' = None.
Proof.
  revert q t t'. induction p as [|c p IH]; intros q t t'; simpl.
  - destruct t; [discriminate|]. now intros [= <-].
  - destruct t as [|es]; [discriminate|].
    destruct q as [|c2 q]; [intros _; discriminate|].
    simpl. destruct (String.eqb c2 c) eqn:Hcc.
    + apply String.eqb_eq in Hcc. subst c2.
      intros Hmk Hq Hseg.
      assert (~ initial_segment q p) as Hseg'.
      { intros [r ->]. apply Hseg. now exists r. }
      destruct (FS.lookup_entry c es) as [child|].
      * destruct (FS.mkdir_p p child) as [child'|] eqn:Hm; [|discriminate].
        injection Hmk as <-. rewrite lookup_set_same. now apply (IH q child).
      * destruct (FS.mkdir_p p (FS.Dir [])) as [child'|] eqn:Hm; [|discriminate].
        injection Hmk as <-. rewrite lookup_set_same.
        apply (IH q (FS.Dir [])); trivial.
        destruct q as [|c3 q]; [|reflexivity].
        exfalso. apply Hseg'. now exists p.
    + intros Hmk Hq _.
      assert (exists child', t' = FS.Dir (FS.set_entry c child' es)) as [child' ->].
      { destruct (FS.lookup_entry c es) as [child|];
          [destruct (FS.mkdir_p p child) | destruct (FS.mkdir_p p (FS.Dir []))];
          inversion Hmk; eauto. }
      now rewrite lookup_set_other.
Qed.

(** Writing a file into an existing directory succeeds unless a directory
    has its name; the file then holds the text and the other files are as
    they were. *)
Lemma write_file_in_dir (p : FS.path) (c data : string) (t : FS.node) :
  FS.is_dir p t = true ->
  FS.is_dir (p ++ [c]) t = false ->
  exists t',
    FS.write_file (p ++ [c]) data t = Ok t' /\
    FS.lookup (p ++ [c]) t' = Some (FS.File data) /\
    forall q x, q <> p ++ [c] ->
                FS.lookup q t = Some (FS.File x) ->
                FS.lookup q t' = Some (FS.File x).
Proof.
  unfold FS.is_dir. revert t. induction p as [|c0 p IH]; intros t.
  - destruct t as [|es]; [discriminate|]. intros _. simpl.
    destruct (FS.lookup_entry c es) as [[old|sub]|] eqn:Hc; [| discriminate |];
      intros _; (eexists; split; [reflexivity|]; split;
                 [simpl; now rewrite lookup_set_same|]);
      intros [|c2 q] x Hq; try discriminate; simpl;
      (destruct (String.eqb c2 c) eqn:Hcc;
       [apply String.eqb_eq in Hcc; subst c2; rewrite Hc
       | now rewrite lookup_set_other]).
    + destruct q; [congruence | discriminate].
    + discriminate.
  - destruct t as [|es]; [discriminate|]. simpl.
    destruct (FS.lookup_entry c0 es) as [child|] eqn:Hc; [|discriminate].
    intros Hdir Hfree.
    destruct (IH child Hdir Hfree) as (child' & Hw & Hnew & Hframe).
    rewrite Hw. eexists. split; [reflexivity|]. split.
    + simpl. now rewrite lookup_set_same.
    + intros [|c2 q] x Hq; [discriminate|]. simpl.
      destruct (String.eqb c2 c0) eqn:Hcc.
      * apply String.eqb_eq in Hcc. subst c2. rewrite Hc, lookup_set_same.
        apply Hframe. congruence.
      * now rewrite lookup_set_other.
Qed.

(** ** The summary of a table without metrics *)

(** C10. A table with none of the Amount, Stage and Closed columns has the
    empty summary, and saving it still writes the report: once the reports
    directory is there (it exists or can be created) and no directory has
    the report's name, [save_summary_report] returns normally and
    [summary_report.txt] is an empty file. *)
Theorem empty_summary_report `{Libs}
        (df : DF.DataFrame) (reports_dir : FS.path) (w : World) (t : FS.node) :
  DF.has_column "Amount" df = false ->
  DF.has_column "Stage" df = false ->
  DF.has_column "Closed" df = false ->
  FS.mkdir_p reports_dir (fs w) = Ok t ->
  FS.is_dir (reports_dir ++ ["summary_report.txt"]) t = false ->
  generate_summary df = Ok [] /\
  exists w',
    save_summary_report [] reports_dir w = (Ok tt, w') /\
    FS.lookup (reports_dir ++ ["summary_report.txt"]) (fs w')
    = Some (FS.File EmptyString) /\
    stdout w'
    = stdout w ++ [("[INFO] Summary report saved to "
                    ++ FS.to_string (reports_dir ++ ["summary_report.txt"])%list)%string].
Proof.
  intros Ha Hs Hc Hmk Hfree. split.
  - unfold generate_summary. now rewrite Ha, Hs, Hc.
  - destruct (write_file_in_dir reports_dir "summary_report.txt" EmptyString t
                (mkdir_p_is_dir _ _ _ Hmk) Hfree) as (t' & Hw & Hnew & _).
    exists (printed ("[INFO] Summary report saved to "
                     ++ FS.to_string (reports_dir ++ ["summary_report.txt"])%list)%string
                    (mkWorld t' (stdout w) (np_random w))).
    split; [|split; [exact Hnew | reflexivity]].
    unfold save_summary_report, bind, mkdir, write_text, fs_update, print.
    rewrite Hmk. cbn [fs stdout np_random map String.concat]. rewrite Hw.
    reflexivity.
Qed.

Lemma empty_summary_report_witness :
  generate_summary contacts_only = Ok [] /\
  exists w',
    save_summary_report [] ["reports"] empty_world = (Ok tt, w') /\
    FS.lookup (["reports"] ++ ["summary_report.txt"]) (fs w')
    = Some (FS.File EmptyString) /\
    stdout w'
    = stdout empty_world
      ++ [("[INFO] Summary report saved to "
           ++ FS.to_string (["reports"] ++ ["summary_report.txt"])%list)%string].
Proof.
  apply (@empty_summary_report SmallLibs contacts_only ["reports"] empty_world
           (FS.Dir [("reports", FS.Dir [])])); reflexivity.
Defined.

(** ** Workbook acquisition *)

Lemma child_not_initial_segment (p : FS.path) (c : string) :
  ~ initial_segment (p ++ [c]) p.
Proof.
  intros [r Hr]. apply (f_equal (@List.length string)) in Hr.
  rewrite !length_app in Hr. simpl in Hr. lia.
Qed.

Lemma exists_false_lookup (p : FS.path) (t : FS.node) :
  FS.exists_ p t = false -> FS.lookup p t = None.
Proof. unfold FS.exists_. now destruct (FS.lookup p t). Qed.

(** C3, as amended.  Write dest for [<raw_dir>/CRM_Sales_Dashboard_25.xlsx].
    - If dest exists, nothing is copied and nothing changes at all: the
      call returns dest in the world it started from, whether or not the
      candidate source exists.
    - If dest is absent, the raw-data directory exists or can be created,
      and the candidate source neither exists nor is the raw-data directory
      or a directory above it, the call raises the not-found error (the
      raw-data directory stays created).
    - If dest is absent, the raw-data directory exists or can be created,
      and the candidate source is a regular file, the call returns dest,
      which now holds the contents of the source; the source is unchanged. *)
Theorem ensure_excel_available_cases `{Libs}
        (src_excel raw_dir : FS.path) (w : World) :
  let dest := raw_dir ++ [canonical_name] in
  (FS.exists_ dest (fs w) = true ->
   ensure_excel_available src_excel raw_dir canonical_name w = (Ok dest, w)) /\
  (forall t,
      FS.mkdir_p raw_dir (fs w) = Ok t ->
      FS.exists_ dest (fs w) = false ->
      FS.exists_ src_excel (fs w) = false ->
      ~ initial_segment src_excel raw_dir ->
      ensure_excel_available src_excel raw_dir canonical_name w
      = (Raise (FileNotFoundError
                  ("Could not find source Excel at " ++ FS.to_string src_excel)%string),
         mkWorld t (stdout w) (np_random w))) /\
  (forall t data,
      FS.mkdir_p raw_dir (fs w) = Ok t ->
      FS.exists_ dest (fs w) = false ->
      FS.lookup src_excel (fs w) = Some (FS.File data) ->
      exists w',
        ensure_excel_available src_excel raw_dir canonical_name w = (Ok dest, w') /\
        FS.lookup dest (fs w') = Some (FS.File data) /\
        FS.lookup src_excel (fs w') = Some (FS.File data) /\
        stdout w' = stdout w ++ [("[INFO] Copied Excel to " ++ FS.to_string dest)%string]).
Proof.
  intros dest. destruct w as [t0 out r]. cbn [fs stdout np_random].
  unfold ensure_excel_available, bind, mkdir, fs_update, path_exists.
  cbn [fs stdout np_random]. fold dest.
  split; [|split].
  - intros Hdest.
    rewrite (mkdir_p_existing _ _ (parent_is_dir _ _ _ Hdest)).
    cbn [fs]. now rewrite Hdest.
  - intros t Hmk Hdest Hsrc Hseg. rewrite Hmk. cbn [fs].
    apply exists_false_lookup in Hdest, Hsrc.
    pose proof (mkdir_p_creates_on_path _ _ _ _ Hmk Hdest
                  (child_not_initial_segment _ _)) as Hdest'.
    pose proof (mkdir_p_creates_on_path _ _ _ _ Hmk Hsrc Hseg) as Hsrc'.
    unfold FS.exists_. rewrite Hdest'. cbn [negb fs]. rewrite Hsrc'. reflexivity.
  - intros t data Hmk Hdest Hsrc. rewrite Hmk. cbn [fs].
    apply exists_false_lookup in Hdest.
    pose proof (mkdir_p_creates_on_path _ _ _ _ Hmk Hdest
                  (child_not_initial_segment _ _)) as Hdest'.
    pose proof (mkdir_p_keeps_files _ _ _ _ _ Hmk Hsrc) as Hsrc'.
    assert (FS.is_dir dest t = false) as Hnodir
        by (unfold FS.is_dir; now rewrite Hdest').
    destruct (write_file_in_dir raw_dir canonical_name data t
                (mkdir_p_is_dir _ _ _ Hmk) Hnodir)
      as (t' & Hw & Hnew & Hframe).
    exists (printed ("[INFO] Copied Excel to " ++ FS.to_string dest)%string
                    (mkWorld t' out r)).
    split; [|split; [exact Hnew|split; [|reflexivity]]].
    + unfold FS.exists_. rewrite Hdest'. cbn [negb fs]. rewrite Hsrc'.
      unfold shutil_copy, write_text, fs_update, print. cbn [fs stdout np_random].
      rewrite Hsrc', Hnodir. unfold dest. rewrite Hw. reflexivity.
    + cbn [printed fs]. apply Hframe; [|exact Hsrc']. intros ->.
      unfold dest in Hdest'. congruence.
Qed.

Lemma ensure_excel_available_cases_witness :
  ensure_excel_available ["downloads"; "crm.xlsx"] ["data"; "raw"] canonical_name
                         (world_of tree_with_workbook)
  = (Ok ["data"; "raw"; canonical_name], world_of tree_with_workbook) /\
  ensure_excel_available ["missing.xlsx"] ["data"; "raw"] canonical_name empty_world
  = (Raise (FileNotFoundError "Could not find source Excel at missing.xlsx"),
     world_of (FS.Dir [("data", FS.Dir [("raw", FS.Dir [])])])) /\
  exists w',
    ensure_excel_available ["downloads"; "crm.xlsx"] ["data"; "raw"] canonical_name
                           (world_of tree_with_download)
    = (Ok ["data"; "raw"; canonical_name], w') /\
    FS.lookup ["data"; "raw"; canonical_name] (fs w') = Some (FS.File "fresh") /\
    FS.lookup ["downloads"; "crm.xlsx"] (fs w') = Some (FS.File "fresh") /\
    stdout w'
    = ["[INFO] Copied Excel to data/raw/CRM_Sales_Dashboard_25.xlsx"].
Proof.
  split; [|split].
  - apply (proj1 (@ensure_excel_available_cases SmallLibs
                    ["downloads"; "crm.xlsx"] ["data"; "raw"]
                    (world_of tree_with_workbook))).
    reflexivity.
  - apply (proj1 (proj2 (@ensure_excel_available_cases SmallLibs
                           ["missing.xlsx"] ["data"; "raw"] empty_world))
             (FS.Dir [("data", FS.Dir [("raw", FS.Dir [])])]));
      try reflexivity.
    intros [r Hr]. discriminate Hr.
  - apply (proj2 (proj2 (@ensure_excel_available_cases SmallLibs
                           ["downloads"; "crm.xlsx"] ["data"; "raw"]
                           (world_of tree_with_download)))
             (FS.Dir [ ("downloads", FS.Dir [ ("crm.xlsx", FS.File "fresh") ]);
                       ("data", FS.Dir [("raw", FS.Dir [])]) ])
             "fresh");
      reflexivity.
Defined.

(** C3, as stated, fails when the candidate source exists as a directory:
    the destination is absent, the source exists, and the copy raises. *)
Lemma copy_directory_source_counterexample :
  let w := world_of (FS.Dir [("inbox", FS.Dir [])]) in
  FS.exists_ (["data"; "raw"] ++ [canonical_name]) (fs w) = false /\
  FS.exists_ ["inbox"] (fs w) = true /\
  fst (ensure_excel_available ["inbox"] ["data"; "raw"] canonical_name w)
  = Raise IsADirectoryError /\
  FS.exists_ (["data"; "raw"] ++ [canonical_name])
             (fs (snd (ensure_excel_available ["inbox"] ["data"; "raw"]
                                              canonical_name w)))
  = false /\
  ~ copies_existing_source ["inbox"] ["data"; "raw"] w.
Proof.
  repeat split.
  intros Hclaim. destruct (Hclaim eq_refl eq_refl) as (w' & Hrun & _).
  vm_compute in Hrun. discriminate Hrun.
Qed.

(** The existing workbook is kept even when the candidate is missing. *)
Example existing_workbook_missing_candidate :
  ensure_excel_available ["nowhere.xlsx"] ["data"; "raw"] canonical_name
                         (world_of tree_with_workbook)
  = (Ok ["data"; "raw"; canonical_name], world_of tree_with_workbook).
Proof. reflexivity. Qed.

(** A regular file where the raw-data directory should be stops the call
    before it looks for the source. *)
Example raw_dir_is_a_file :
  fst (ensure_excel_available ["nowhere.xlsx"] ["data"; "raw"] canonical_name
                              (world_of (FS.Dir [("data", FS.File "notes")])))
  = Raise NotADirectoryError.
Proof. reflexivity. Qed.

(** ** The classifier's split *)

(** A fifth of the rows, rounded up. *)
Lemma n_test_fifth (n : nat) : n_test (1 # 5) n = ((n + 4) / 5)%nat.
Proof.
  unfold n_test, Qceiling, Qfloor, Qopp, Qmult, inject_Z. cbn [Qnum Qden].
  change (Z.pos (5 * 1)) with 5%Z.
  apply Nat2Z.inj. rewrite Nat2Z.inj_div, Nat2Z.inj_add.
  rewrite Z2Nat.id.
  - change (Z.of_nat 4) with 4%Z. change (Z.of_nat 5) with 5%Z.
    generalize (Z.of_nat n). intros z.
    pose proof (Z.div_mod (- (1 * z)) 5 ltac:(lia)).
    pose proof (Z.mod_pos_bound (- (1 * z)) 5 ltac:(lia)).
    pose proof (Z.div_mod (z + 4) 5 ltac:(lia)).
    pose proof (Z.mod_pos_bound (z + 4) 5 ltac:(lia)).
    lia.
  - pose proof (Z.div_mod (- (1 * Z.of_nat n)) 5 ltac:(lia)).
    pose proof (Z.mod_pos_bound (- (1 * Z.of_nat n)) 5 ltac:(lia)).
    lia.
Qed.

Lemma n_test_le (n : nat) : n_test (1 # 5) n <= n.
Proof.
  rewrite n_test_fifth. destruct n as [|n]; [reflexivity|].
  apply Nat.Div0.div_le_upper_bound. lia.
Qed.

Lemma take_rows_length {A} (d : A) (idx : list nat) (l : list A) :
  List.length (take_rows d idx l) = List.length idx.
Proof. unfold take_rows. apply length_map. Qed.

(** What has been written can be read back. *)
Lemma write_file_lookup (p : FS.path) (data : string) (t t' : FS.node) :
  FS.write_file p data t = Ok t' -> FS.lookup p t' = Some (FS.File data).
Proof.
  revert t t'. induction p as [|c p IH]; intros t t'; simpl.
  - destruct t; [|discriminate]. now intros [= <-].
  - destruct t as [|es]; [discriminate|].
    destruct (FS.lookup_entry c es) as [child|].
    + destruct (FS.write_file p data child) as [child'|] eqn:Hw; [|discriminate].
      intros [= <-]. simpl. rewrite lookup_set_same. now apply (IH child).
    + destruct p; [|discriminate]. intros [= <-]. simpl.
      now rewrite lookup_set_same.
Qed.

Lemma seeded_permutation_fixed `{Libs} (seed : Z) (n : nat) (w : World) :
  seeded_permutation (Some seed) n w
  = (Ok (fst (permutation (RandomState_of_seed seed) n)), w).
Proof. reflexivity. Qed.

Lemma train_test_split_seeded `{Libs} (X : list DF.cell) (y : list Z) (w : World) :
  let n := List.length X in
  let nt := n_test (1 # 5) n in
  let perm := fst (permutation (RandomState_of_seed 42) n) in
  train_test_split X y (1 # 5) (Some 42%Z) w
  = (if (n - nt =? 0)%nat then Raise ValueError
     else Ok (take_rows DF.NaN (firstn (n - nt) (skipn nt perm)) X,
              take_rows DF.NaN (firstn nt perm) X,
              take_rows 0%Z (firstn (n - nt) (skipn nt perm)) y,
              take_rows 0%Z (firstn nt perm) y),
     w).
Proof.
  intros n nt perm. unfold train_test_split. fold n. fold nt.
  destruct (n - nt =? 0)%nat; reflexivity.
Qed.

Lemma model_report_pure `{Libs} (df : DF.DataFrame) :
  exists r, forall w, model_report df w = (r, w).
Proof.
  unfold model_report, bind, lift.
  destruct (astype_int (DF.column "Closed" df)) as [y|e];
    [|exists (Raise e); reflexivity].
  cbn [ret]. setoid_rewrite train_test_split_seeded.
  destruct (_ =? 0)%nat; [exists (Raise ValueError); reflexivity|].
  destruct (LogisticRegression_fit _ _) as [model|e] eqn:Hfit.
  - eexists. intros w. reflexivity.
  - exists (Raise e). intros w. reflexivity.
Qed.

Lemma write_model_report_tree `{Libs} (report : string) (reports_dir : FS.path)
      (w1 w2 : World) :
  fs w1 = fs w2 ->
  fst (write_model_report report reports_dir w1)
  = fst (write_model_report report reports_dir w2) /\
  fs (snd (write_model_report report reports_dir w1))
  = fs (snd (write_model_report report reports_dir w2)).
Proof.
  destruct w1 as [t1 o1 r1], w2 as [t2 o2 r2]. cbn [fs]. intros <-.
  unfold write_model_report, bind, mkdir, write_text, fs_update, print.
  cbn [fs stdout np_random].
  destruct (FS.mkdir_p reports_dir t1) as [t|e]; [|now split].
  cbn [fs stdout np_random].
  destruct (FS.write_file _ report t) as [t'|e]; now split.
Qed.

Lemma seeded_rows_lengths `{Libs} (n : nat) :
  List.length (seeded_test_rows n) = ((n + 4) / 5)%nat /\
  List.length (seeded_train_rows n) = (n - (n + 4) / 5)%nat /\
  (seeded_test_rows n ++ seeded_train_rows n)%list
  = fst (permutation (RandomState_of_seed 42) n).
Proof.
  unfold seeded_test_rows, seeded_train_rows.
  pose proof (permutation_length (RandomState_of_seed 42) n) as Hlen.
  pose proof (n_test_le n) as Hle. rewrite n_test_fifth in Hle.
  set (perm := fst (permutation (RandomState_of_seed 42) n)) in *.
  set (k := ((n + 4) / 5)%nat) in *.
  split; [rewrite length_firstn; lia|].
  split; [rewrite length_firstn, length_skipn; lia|].
  rewrite (firstn_all2 (n := n - k)) by (rewrite length_skipn; lia).
  apply firstn_skipn.
Qed.

Lemma model_report_seeded `{Libs} (df : DF.DataFrame) (w : World) :
  model_report df w = (report_of_table df, w).
Proof.
  unfold model_report, report_of_table, report_of_seeded_split, bind, lift.
  destruct (astype_int (DF.column "Closed" df)) as [y|e]; [|reflexivity].
  cbn [ret]. rewrite train_test_split_seeded.
  unfold seeded_test_rows, seeded_train_rows. rewrite n_test_fifth.
  destruct (_ =? 0)%nat; [reflexivity|].
  destruct (LogisticRegression_fit _ _) as [model|e]; reflexivity.
Qed.

Lemma train_model_seeded `{Libs} (df : DF.DataFrame) (reports_dir : FS.path)
      (w : World) :
  DF.has_column "Closed" df = true ->
  DF.has_column "Amount" df = true ->
  train_model df reports_dir w
  = match report_of_table df with
    | Ok report => write_model_report report reports_dir w
    | Raise e => (Raise e, w)
    end.
Proof.
  intros Hc Ha. unfold train_model. rewrite Hc, Ha. cbn [negb orb].
  unfold bind at 1. rewrite model_report_seeded.
  destruct (report_of_table df); reflexivity.
Qed.

(** C8. On a table with both the Closed and the Amount column the
    classifier is reproducible.  [train_model] splits the rows by the
    permutation of the generator seeded with 42, which does not touch
    NumPy's global generator: the first fifth of it (rounded up) numbers the
    test rows and the rest the training rows, and the text it reports is the
    report of the classifier fitted on those training rows and judged on
    those test rows.  The text is therefore a function of the table alone;
    two runs on the same table from the same file tree end alike, and a run
    that succeeds leaves that text in [model_report.txt]. *)
Theorem train_model_deterministic `{Libs}
        (df : DF.DataFrame) (reports_dir : FS.path) :
  DF.has_column "Closed" df = true ->
  DF.has_column "Amount" df = true ->
  (forall w, model_report df w = (report_of_table df, w)) /\
  (forall w, train_model df reports_dir w
             = match report_of_table df with
               | Ok report => write_model_report report reports_dir w
               | Raise e => (Raise e, w)
               end) /\
  (forall n,
      List.length (seeded_test_rows n) = ((n + 4) / 5)%nat /\
      List.length (seeded_train_rows n) = (n - (n + 4) / 5)%nat /\
      (seeded_test_rows n ++ seeded_train_rows n)%list
      = fst (permutation (RandomState_of_seed 42) n)) /\
  (forall w1 w2,
      fs w1 = fs w2 ->
      fst (train_model df reports_dir w1) = fst (train_model df reports_dir w2) /\
      fs (snd (train_model df reports_dir w1))
      = fs (snd (train_model df reports_dir w2))) /\
  (forall w w',
      train_model df reports_dir w = (Ok tt, w') ->
      exists report,
        report_of_table df = Ok report /\
        np_random w' = np_random w /\
        FS.lookup (reports_dir ++ ["model_report.txt"]) (fs w')
        = Some (FS.File report)).
Proof.
  intros Hc Ha.
  split; [intros w; apply model_report_seeded|].
  split; [intros w; now apply train_model_seeded|].
  split; [apply seeded_rows_lengths|].
  split.
  - intros w1 w2 Hfs. rewrite !train_model_seeded by assumption.
    destruct (report_of_table df) as [report|e].
    + now apply write_model_report_tree.
    + now split.
  - intros w w'. rewrite train_model_seeded by assumption.
    destruct (report_of_table df) as [report|e]; [|discriminate].
    intros Hrun. exists report. split; [reflexivity|].
    revert Hrun. unfold write_model_report, bind, mkdir, write_text, fs_update, print.
    destruct (FS.mkdir_p reports_dir (fs w)) as [t|e]; [|discriminate].
    cbn [fs stdout np_random].
    destruct (FS.write_file _ report t) as [t'|e] eqn:Hw; [|discriminate].
    cbn [fs stdout np_random]. intros [= <-]. cbn [fs np_random].
    split; [reflexivity|]. now apply write_file_lookup with t.
Qed.

Lemma train_model_deterministic_witness :
  DF.has_column "Closed" sample_deals = true /\
  DF.has_column "Amount" sample_deals = true /\
  (forall w, model_report sample_deals w = (Ok "+", w)) /\
  (forall w, train_model sample_deals ["reports"] w
             = write_model_report "+" ["reports"] w).
Proof.
  split; [reflexivity|]. split; [reflexivity|].
  destruct (@train_model_deterministic SmallLibs sample_deals ["reports"]
              eq_refl eq_refl) as (Hreport & Hrun & _).
  split; [exact Hreport | exact Hrun].
Defined.

(** With the rotation of the small instance the four sample deals are split
    into the third row for the test and the other three for the training. *)
Example seeded_split_of_four :
  @seeded_test_rows SmallLibs 4 = [2]%nat /\
  @seeded_train_rows SmallLibs 4 = [3; 0; 1]%nat.
Proof. split; reflexivity. Qed.

(** A run on the sample deals: one of the four rows is held out, and the
    report lands in the reports directory. *)
Example train_model_sample_run :
  let w' := snd (train_model sample_deals ["reports"] empty_world) in
  fst (train_model sample_deals ["reports"] empty_world) = Ok tt /\
  FS.lookup ["reports"; "model_report.txt"] (fs w') = Some (FS.File "+") /\
  np_random w' = np_random empty_world.
Proof. vm_compute. repeat split. Qed.

(** Without a seed the split follows the global generator: two states of
    it give two splits, and the state advances. *)
Example unseeded_split_depends_on_generator :
  let X := [int 10; int 20; int 30; int 40; int 50] in
  let y := [0; 1; 0; 1; 0]%Z in
  fst (train_test_split X y (1 # 5) None (mkWorld (FS.Dir []) [] 0%nat))
  <> fst (train_test_split X y (1 # 5) None (mkWorld (FS.Dir []) [] 1%nat)) /\
  np_random (snd (train_test_split X y (1 # 5) None (mkWorld (FS.Dir []) [] 0%nat)))
  = 1%nat.
Proof. split; [vm_compute; discriminate | reflexivity]. Qed.

(** A missing closed flag cannot be cast to an integer: the run raises
    before anything is written. *)
Example train_model_missing_flag :
  train_model (DF.mkDF ["Amount"; "Closed"] [ [int 10; DF.NaN]; [int 20; int 1] ])
              ["reports"] empty_world
  = (Raise ValueError, empty_world).
Proof. reflexivity. Qed.

(* ================================================================== *)
(** * Further properties of the scripts *)

(** ** Running in the monad *)

Lemma bind_ok `{Libs} {A B} (c : M A) (k : A -> M B) (w w' : World) (a : A) :
  c w = (Ok a, w') -> bind c k w = k a w'.
Proof. intros Hc. unfold bind. now rewrite Hc. Qed.

Lemma bind_raise `{Libs} {A B} (c : M A) (k : A -> M B) (w w' : World) (e : exn) :
  c w = (Raise e, w') -> bind c k w = (Raise e, w').
Proof. intros Hc. unfold bind. now rewrite Hc. Qed.

Lemma world_eta `{Libs} (w : World) :
  mkWorld (fs w) (stdout w) (np_random w) = w.
Proof. now destruct w. Qed.

(** ** More on the file tree *)

(** Writing one file leaves every other regular file as it is. *)
Lemma write_file_keeps_others (p q : FS.path) (data x : string) (t t' : FS.node) :
  FS.write_file p data t = Ok t' ->
  q <> p ->
  FS.lookup q t = Some (FS.File x) ->
  FS.lookup q t' = Some (FS.File x).
Proof.
  revert q t t'. induction p as [|c p IH]; intros q t t'; simpl.
  - destruct t; [|discriminate]. intros _ Hq.
    destruct q; [congruence | discriminate].
  - destruct t as [|es]; [discriminate|].
    destruct q as [|c2 q]; [intros _ _; discriminate|].
    simpl. intros Hw Hq.
    destruct (String.eqb c2 c) eqn:Hcc.
    + apply String.eqb_eq in Hcc. subst c2.
      destruct (FS.lookup_entry c es) as [child|]; [|discriminate].
      destruct (FS.write_file p data child) as [child'|] eqn:Hwc; [|discriminate].
      injection Hw as <-. rewrite lookup_set_same.
      apply (IH q child); [exact Hwc | congruence].
    + assert (exists n, t' = FS.Dir (FS.set_entry c n es)) as [n ->].
      { destruct (FS.lookup_entry c es) as [child|].
        - destruct (FS.write_file p data child); inversion Hw; eauto.
        - destruct p; inversion Hw; eauto. }
      now rewrite lookup_set_other.
Qed.

(** Creating directories keeps the directories there are. *)
Lemma mkdir_p_keeps_dirs (p q : FS.path) (t t' : FS.node) :
  FS.mkdir_p p t = Ok t' ->
  FS.is_dir q t = true ->
  FS.is_dir q t' = true.
Proof.
  unfold FS.is_dir. revert q t t'. induction p as [|c p IH]; intros q t t'; simpl.
  - destruct t; [discriminate|]. now intros [= <-].
  - destruct t as [|es]; [discriminate|]. intros Hmk.
    assert (exists n, t' = FS.Dir (FS.set_entry c n es) /\
                      forall child, FS.lookup_entry c es = Some child ->
                                    FS.mkdir_p p child = Ok n) as (n & -> & Hn).
    { destruct (FS.lookup_entry c es) as [child|].
      - destruct (FS.mkdir_p p child) eqn:Hm; inversion Hmk.
        eexists. split; [reflexivity|]. now intros ? [= <-].
      - destruct (FS.mkdir_p p (FS.Dir [])); inversion Hmk.
        eexists. split; [reflexivity|]. discriminate. }
    destruct q as [|c2 q]; [reflexivity|]. simpl.
    destruct (String.eqb c2 c) eqn:Hcc.
    + apply String.eqb_eq in Hcc. subst c2. rewrite lookup_set_same.
      destruct (FS.lookup_entry c es) as [child|]; [|discriminate].
      apply (IH q child). now apply Hn.
    + now rewrite lookup_set_other.
Qed.

(** ** Workbook acquisition, continued *)

(** The runs of [ensure_excel_available], case by case. *)
Lemma ensure_excel_available_run `{Libs}
      (src_excel raw_dir : FS.path) (name : string) (w : World) :
  ensure_excel_available src_excel raw_dir name w
  = match FS.mkdir_p raw_dir (fs w) with
    | Raise e => (Raise e, w)
    | Ok t =>
        let w1 := mkWorld t (stdout w) (np_random w) in
        let dest := raw_dir ++ [name] in
        if FS.exists_ dest t then (Ok dest, w1)
        else
          match FS.lookup src_excel t with
          | Some (FS.File data) =>
              match FS.write_file dest data t with
              | Ok t' =>
                  (Ok dest,
                   printed ("[INFO] Copied Excel to " ++ FS.to_string dest)%string
                           (mkWorld t' (stdout w) (np_random w)))
              | Raise e => (Raise e, w1)
              end
          | Some (FS.Dir _) => (Raise IsADirectoryError, w1)
          | None =>
              (Raise (FileNotFoundError
                        ("Could not find source Excel at "
                         ++ FS.to_string src_excel)%string), w1)
          end
    end.
Proof.
  unfold ensure_excel_available, bind, mkdir, fs_update, path_exists.
  destruct (FS.mkdir_p raw_dir (fs w)) as [t|e]; [|reflexivity].
  cbn [fs stdout np_random].
  destruct (FS.exists_ (raw_dir ++ [name]) t) eqn:Hdest; [reflexivity|].
  cbn [negb fs stdout np_random].
  assert (FS.is_dir (raw_dir ++ [name]) t = false) as Hnodir.
  { unfold FS.exists_ in Hdest. unfold FS.is_dir.
    now destruct (FS.lookup (raw_dir ++ [name]) t). }
  unfold shutil_copy, FS.exists_. cbn [fs stdout np_random].
  destruct (FS.lookup src_excel t) as [[data|sub]|] eqn:Hsrc;
    cbn [fs stdout np_random]; rewrite ?Hsrc; try reflexivity.
  rewrite Hnodir. unfold write_text, fs_update, print. cbn [fs stdout np_random].
  destruct (FS.write_file (raw_dir ++ [name]) data t); reflexivity.
Qed.

(** X1. Acquisition is idempotent: once a call has returned, its result is
    [<raw_dir>/<name>], that path exists, and a second call, with any
    candidate source, returns the same path and changes nothing. *)
Theorem ensure_excel_available_idempotent `{Libs}
        (src_excel src_excel' raw_dir : FS.path) (name : string)
        (w w' : World) (dest : FS.path) :
  ensure_excel_available src_excel raw_dir name w = (Ok dest, w') ->
  dest = raw_dir ++ [name] /\
  FS.exists_ dest (fs w') = true /\
  ensure_excel_available src_excel' raw_dir name w' = (Ok dest, w').
Proof.
  rewrite ensure_excel_available_run.
  destruct (FS.mkdir_p raw_dir (fs w)) as [t|e]; [|discriminate].
  cbv zeta. intros Hrun.
  assert (dest = raw_dir ++ [name] /\ FS.exists_ dest (fs w') = true) as [-> Hex].
  { destruct (FS.exists_ (raw_dir ++ [name]) t) eqn:Hdest.
    - injection Hrun as <- <-. now split.
    - destruct (FS.lookup src_excel t) as [[data|sub]|]; try discriminate.
      destruct (FS.write_file (raw_dir ++ [name]) data t) as [t'|e] eqn:Hw;
        [|discriminate].
      injection Hrun as <- <-. split; [reflexivity|].
      cbn [printed fs]. unfold FS.exists_.
      now rewrite (write_file_lookup _ _ _ _ Hw). }
  repeat split; trivial.
  rewrite ensure_excel_available_run.
  rewrite (mkdir_p_existing _ _ (parent_is_dir _ _ _ Hex)).
  cbv zeta. rewrite Hex. now rewrite world_eta.
Qed.

Lemma ensure_excel_available_idempotent_witness :
  let w' := printed "[INFO] Copied Excel to data/raw/CRM_Sales_Dashboard_25.xlsx"
              (world_of
                 (FS.Dir [ ("downloads", FS.Dir [ ("crm.xlsx", FS.File "fresh") ]);
                           ("data", FS.Dir [ ("raw",
                              FS.Dir [ (canonical_name, FS.File "fresh") ]) ]) ])) in
  ["data"; "raw"; canonical_name] = ["data"; "raw"] ++ [canonical_name] /\
  FS.exists_ ["data"; "raw"; canonical_name] (fs w') = true /\
  ensure_excel_available ["elsewhere.xlsx"] ["data"; "raw"] canonical_name w'
  = (Ok ["data"; "raw"; canonical_name], w').
Proof.
  apply (@ensure_excel_available_idempotent SmallLibs
           ["downloads"; "crm.xlsx"] ["elsewhere.xlsx"] ["data"; "raw"]
           canonical_name (world_of tree_with_download)).
  reflexivity.
Defined.

(** X2. Acquisition never alters or removes a regular file that is already
    there, whatever the outcome of the call. *)
Theorem ensure_excel_available_keeps_files `{Libs}
        (src_excel raw_dir : FS.path) (name : string) (w : World)
        (q : FS.path) (x : string) :
  FS.lookup q (fs w) = Some (FS.File x) ->
  FS.lookup q (fs (snd (ensure_excel_available src_excel raw_dir name w)))
  = Some (FS.File x).
Proof.
  intros Hq. rewrite ensure_excel_available_run.
  destruct (FS.mkdir_p raw_dir (fs w)) as [t|e] eqn:Hmk; [|exact Hq].
  pose proof (mkdir_p_keeps_files _ _ _ _ _ Hmk Hq) as Hq'.
  cbv zeta.
  destruct (FS.exists_ (raw_dir ++ [name]) t) eqn:Hdest; [exact Hq'|].
  destruct (FS.lookup src_excel t) as [[data|sub]|]; try exact Hq'.
  destruct (FS.write_file (raw_dir ++ [name]) data t) as [t'|e] eqn:Hw;
    [|exact Hq'].
  cbn [snd printed fs].
  apply (write_file_keeps_others _ _ _ _ _ _ Hw); [|exact Hq'].
  intros ->. unfold FS.exists_ in Hdest. now rewrite Hq' in Hdest.
Qed.

Lemma ensure_excel_available_keeps_files_witness :
  FS.lookup ["downloads"; "crm.xlsx"]
            (fs (snd (ensure_excel_available ["downloads"; "crm.xlsx"]
                        ["data"; "raw"] canonical_name
                        (world_of tree_with_download))))
  = Some (FS.File "fresh").
Proof.
  apply (@ensure_excel_available_keeps_files SmallLibs).
  reflexivity.
Defined.

(** ** The sheet resolver, continued *)

Lemma find_sheet_head (keywords rest : list string) (s : string) :
  mentions keywords s -> find_sheet (s :: rest) keywords = Some s.
Proof.
  intros Hm. apply any_keyword_iff in Hm. unfold find_sheet. simpl.
  now rewrite Hm.
Qed.

Lemma mentions_truthy (keywords : list string) (s : string) :
  any_keyword keywords EmptyString = false ->
  mentions keywords s -> PyStr.truthy s = true.
Proof.
  intros Hempty Hm. apply any_keyword_iff in Hm.
  destruct s; [simpl in Hm; congruence | reflexivity].
Qed.

Lemma detect_sheet_names_run `{Libs} (names : list string) (d t : string) (w : World) :
  or_fallback (find_sheet names deals_keywords) (first_sheet names) = Ok d ->
  or_fallback (find_sheet names teams_keywords) (last_sheet names) = Ok t ->
  detect_sheet_names names w = (Ok (d, t), detection_log names d t w).
Proof.
  intros Hd Ht. unfold detect_sheet_names, bind, print. rewrite Hd, Ht.
  reflexivity.
Qed.

(** X3. In a workbook with one sheet that sheet is chosen for both roles,
    whatever its name. *)
Theorem detect_sheet_names_single_sheet `{Libs} (s : string) (w : World) :
  detect_sheet_names [s] w = (Ok (s, s), detection_log [s] s s w).
Proof.
  apply detect_sheet_names_run.
  - destruct (or_fallback_resolved deals_keywords [s] s eq_refl) as (d & Hd & _ & Hin).
    destruct (Hin (or_introl eq_refl)) as [<-|[]]. exact Hd.
  - destruct (or_fallback_resolved teams_keywords [s] s eq_refl) as (t & Ht & _ & Hin).
    destruct (Hin (or_introl eq_refl)) as [<-|[]]. exact Ht.
Qed.

(** X4. The two searches are independent: a first sheet whose name mentions
    a deals keyword and a teams keyword is chosen for both roles, whatever
    sheets follow it. *)
Theorem detect_sheet_names_ambiguous_first `{Libs}
        (s : string) (rest : list string) (w : World) :
  mentions deals_keywords s ->
  mentions teams_keywords s ->
  detect_sheet_names (s :: rest) w
  = (Ok (s, s), detection_log (s :: rest) s s w).
Proof.
  intros Hd Ht. apply detect_sheet_names_run; unfold or_fallback.
  - rewrite (find_sheet_head _ _ _ Hd). cbn [PyStr.truthy_opt PyStr.or_else].
    now rewrite (mentions_truthy deals_keywords s eq_refl Hd).
  - rewrite (find_sheet_head _ _ _ Ht). cbn [PyStr.truthy_opt PyStr.or_else].
    now rewrite (mentions_truthy teams_keywords s eq_refl Ht).
Qed.

Lemma detect_sheet_names_ambiguous_first_witness :
  detect_sheet_names ["Team Pipeline"; "Deals"; "Sales"] empty_world
  = (Ok ("Team Pipeline", "Team Pipeline"),
     detection_log ["Team Pipeline"; "Deals"; "Sales"]
                   "Team Pipeline" "Team Pipeline" empty_world).
Proof.
  apply (@detect_sheet_names_ambiguous_first SmallLibs).
  - exists "pipeline". split; [simpl; tauto|]. now exists "team ", EmptyString.
  - exists "team". split; [simpl; tauto|]. now exists EmptyString, " pipeline".
Defined.

(** X5. Detection fails exactly on a workbook without sheets: it then
    raises the index error after its first line of output, and so does the
    sheet selection of [main] unless both names are supplied; on any other
    workbook it returns. *)
Theorem detect_sheet_names_empty_workbook `{Libs}
        (names : list string) (w : World) :
  isOk (fst (detect_sheet_names names w))
  = match names with [] => false | _ => true end /\
  detect_sheet_names [] w
  = (Raise IndexError,
     printed ("[INFO] Available sheets: " ++ repr_of_names [])%string w) /\
  (forall d t,
      orb (negb (PyStr.truthy_opt d)) (negb (PyStr.truthy_opt t)) = true ->
      main_select_sheets d t [] w
      = (Raise IndexError,
         printed ("[INFO] Available sheets: " ++ repr_of_names [])%string w)).
Proof.
  split; [|split].
  - destruct names as [|n0 rest]; [reflexivity|].
    destruct (or_fallback_resolved deals_keywords (n0 :: rest) n0 eq_refl)
      as (d & Hd & _).
    destruct (or_fallback_resolved teams_keywords (n0 :: rest) (last rest n0) eq_refl)
      as (t & Ht & _).
    now rewrite (detect_sheet_names_run (n0 :: rest) d t w Hd Ht).
  - reflexivity.
  - intros d t Hmiss. unfold main_select_sheets. rewrite Hmiss. reflexivity.
Qed.

Lemma detect_sheet_names_empty_workbook_witness :
  main_select_sheets (Some "Deals") None [] empty_world
  = (Raise IndexError,
     printed ("[INFO] Available sheets: " ++ repr_of_names [])%string empty_world).
Proof.
  apply (proj2 (proj2 (@detect_sheet_names_empty_workbook SmallLibs [] empty_world))).
  reflexivity.
Defined.

(** ** The left join, continued *)

Lemma index_of_lt (c : string) (cs : list string) :
  existsb (String.eqb c) cs = true -> DF.index_of c cs < List.length cs.
Proof.
  induction cs as [|c' cs IH]; simpl; [discriminate|].
  destruct (String.eqb c c'); simpl; [intros _; lia|]. intros Hin. specialize (IH Hin). lia.
Qed.

Lemma remove_nth_length {A} (i : nat) (l : list A) :
  i < List.length l -> List.length (DF.remove_nth i l) = List.length l - 1.
Proof.
  revert i. induction l as [|a l IH]; intros i; simpl; [lia|].
  destruct i as [|i]; simpl; [lia|]. intros Hi.
  rewrite IH by lia. lia.
Qed.

Lemma map_flat_map_comm {A B C} (f : B -> C) (g : A -> list B) (l : list A) :
  map f (flat_map g l) = flat_map (fun x => map f (g x)) l.
Proof.
  induction l as [|a l IH]; simpl; [reflexivity|]. now rewrite map_app, IH.
Qed.

Lemma map_constant {A B} (b : B) (l : list A) :
  map (fun _ => b) l = repeat b (List.length l).
Proof. induction l as [|a l IH]; simpl; [reflexivity | now rewrite IH]. Qed.

Lemma join_row_left_part (key : string) (l r : DF.DataFrame) (lrow : list DF.cell) :
  map (firstn (List.length lrow)) (DF.join_row key l r lrow)
  = repeat lrow (Nat.max 1 (List.length (DF.matches key l r lrow))).
Proof.
  unfold DF.join_row. destruct (DF.matches key l r lrow) as [|m ms].
  - simpl. now rewrite firstn_prefix.
  - rewrite map_map.
    rewrite (map_ext _ (fun _ => lrow)) by (intros; apply firstn_prefix).
    now rewrite map_constant.
Qed.

Lemma flat_map_ext_in {A B} (f g : A -> list B) (l : list A) :
  (forall x, In x l -> f x = g x) -> flat_map f l = flat_map g l.
Proof.
  induction l as [|a l IH]; intros Hfg; simpl; [reflexivity|].
  rewrite (Hfg a (or_introl eq_refl)), IH; [reflexivity|].
  intros; apply Hfg; now right.
Qed.

(** X6. The merger keeps tables rectangular: from two tables with one cell
    per column in every row, whose merge pandas accepts when both have the
    SalesRep column, it returns such a table, with the deals columns and the
    teams columns less the shared SalesRep when it joins, and with the deals
    columns when it does not. *)
Theorem process_and_merge_well_formed `{Libs}
        (deals_df teams_df : DF.DataFrame) (w : World) :
  DF.well_formed deals_df ->
  DF.well_formed teams_df ->
  (DF.has_column "SalesRep" deals_df = true ->
   DF.has_column "SalesRep" teams_df = true ->
   merge_accepts "SalesRep" deals_df teams_df = true) ->
  exists merged w',
    process_and_merge deals_df teams_df w = (Ok merged, w') /\
    DF.well_formed merged /\
    List.length (DF.columns merged)
    = (if andb (DF.has_column "SalesRep" deals_df)
               (DF.has_column "SalesRep" teams_df)
       then List.length (DF.columns deals_df)
            + (List.length (DF.columns teams_df) - 1)
       else List.length (DF.columns deals_df)).
Proof.
  intros Hl Hr Hacc.
  destruct (DF.has_column "SalesRep" deals_df) eqn:Hd;
    [destruct (DF.has_column "SalesRep" teams_df) eqn:Ht|]; cbn [andb].
  - exists (DF.merge_left "SalesRep" deals_df teams_df), w.
    split; [rewrite (process_and_merge_run _ _ w Hd Ht);
            now rewrite (Hacc eq_refl eq_refl)|].
    pose proof (index_of_lt _ _ Ht) as Hidx.
    assert (List.length (DF.columns (DF.merge_left "SalesRep" deals_df teams_df))
            = List.length (DF.columns deals_df)
              + (List.length (DF.columns teams_df) - 1)) as Hcols.
    { unfold DF.merge_left, DF.merged_columns. cbn [DF.columns].
      rewrite length_app, !length_map. now rewrite remove_nth_length. }
    split; [|exact Hcols].
    unfold DF.well_formed. rewrite Hcols.
    unfold DF.well_formed in Hl, Hr. rewrite Forall_forall in Hl, Hr.
    apply Forall_forall. intros row Hrow.
    apply merge_left_rows in Hrow as (lrow & Hin & [(rrow & Hrin & _ & ->)|[_ ->]]);
      rewrite length_app, (Hl lrow Hin).
    + rewrite remove_nth_length; rewrite (Hr rrow Hrin); [reflexivity | exact Hidx].
    + now rewrite repeat_length.
  - unfold process_and_merge. rewrite Hd, Ht. cbn [andb].
    eexists. eexists. split; [reflexivity|]. now split.
  - unfold process_and_merge. rewrite Hd. cbn [andb].
    eexists. eexists. split; [reflexivity|]. now split.
Qed.

Lemma process_and_merge_well_formed_witness :
  exists merged w',
    process_and_merge sample_deals two_team_rep empty_world = (Ok merged, w') /\
    DF.well_formed merged /\
    List.length (DF.columns merged) = 5.
Proof.
  apply (@process_and_merge_well_formed SmallLibs sample_deals two_team_rep empty_world);
    repeat constructor.
Defined.

(** X7. The join keeps the deals in place: when both tables have the
    SalesRep column and pandas accepts the merge, the merged rows read on
    the deals columns are the deal rows in their order, each one repeated
    once per team row with its SalesRep and kept once when there is none. *)
Theorem process_and_merge_keeps_deal_rows `{Libs}
        (deals_df teams_df : DF.DataFrame) (w : World) :
  DF.has_column "SalesRep" deals_df = true ->
  DF.has_column "SalesRep" teams_df = true ->
  merge_accepts "SalesRep" deals_df teams_df = true ->
  DF.well_formed deals_df ->
  exists merged,
    process_and_merge deals_df teams_df w = (Ok merged, w) /\
    map (firstn (List.length (DF.columns deals_df))) (DF.rows merged)
    = flat_map (fun lrow =>
                  repeat lrow
                         (Nat.max 1 (List.length
                                       (DF.matches "SalesRep" deals_df teams_df lrow))))
               (DF.rows deals_df).
Proof.
  intros Hd Ht Hacc Hwf. exists (DF.merge_left "SalesRep" deals_df teams_df).
  split; [rewrite (process_and_merge_run _ _ w Hd Ht); now rewrite Hacc|].
  unfold DF.merge_left. cbn [DF.rows]. rewrite map_flat_map_comm.
  apply flat_map_ext_in. intros lrow Hin.
  unfold DF.well_formed in Hwf. rewrite Forall_forall in Hwf.
  rewrite <- (Hwf lrow Hin). apply join_row_left_part.
Qed.

Lemma process_and_merge_keeps_deal_rows_witness :
  exists merged,
    process_and_merge sample_deals two_team_rep empty_world = (Ok merged, empty_world) /\
    map (firstn 4) (DF.rows merged)
    = [ [text "ann"; int 100; text "Won"; int 1];
        [text "ann"; int 100; text "Won"; int 1];
        [text "bob"; int 200; text "Open"; int 0];
        [text "cy"; int 300; text "Won"; int 1];
        [text "ann"; int 400; text "Won"; int 1];
        [text "ann"; int 400; text "Won"; int 1] ].
Proof.
  apply (@process_and_merge_keeps_deal_rows SmallLibs sample_deals two_team_rep
           empty_world); try reflexivity.
  repeat constructor.
Defined.

(** ** Summary statistics, continued *)

(** X8. The summary lists its metrics in a fixed order: total revenue and
    average deal size, then the stage counts, then the win rate, each one
    present exactly when its column is. *)
Theorem generate_summary_key_order (df : DF.DataFrame) (s : summary) :
  generate_summary df = Ok s ->
  map fst s
  = (if DF.has_column "Amount" df
     then ["Total Revenue"; "Average Deal Size"] else [])
    ++ (if DF.has_column "Stage" df then ["Deals by Stage"] else [])
    ++ (if DF.has_column "Closed" df then ["Win Rate (%)"] else []).
Proof.
  unfold generate_summary.
  destruct (DF.has_column "Amount" df);
    [destruct (DF.numbers (DF.column "Amount" df)); [|discriminate]|];
    destruct (DF.has_column "Stage" df);
    (destruct (DF.has_column "Closed" df);
     [destruct (DF.numbers (DF.column "Closed" df)); [|discriminate]|]);
    intros [= <-]; reflexivity.
Qed.

Lemma generate_summary_key_order_witness :
  exists s,
    generate_summary sample_deals = Ok s /\
    map fst s
    = ["Total Revenue"; "Average Deal Size"; "Deals by Stage"; "Win Rate (%)"].
Proof.
  eexists. split; [reflexivity|].
  apply (generate_summary_key_order sample_deals). reflexivity.
Defined.

(** X9. A table with the columns but without rows has a summary all the
    same: the total is 0, the average and the win rate are missing, and no
    stage is counted. *)
Theorem generate_summary_no_rows (df : DF.DataFrame) :
  DF.rows df = [] ->
  exists s,
    generate_summary df = Ok s /\
    Dict.get "Total Revenue" s
    = (if DF.has_column "Amount" df then Some (Scalar (DF.Num (0 # 1))) else None) /\
    Dict.get "Average Deal Size" s
    = (if DF.has_column "Amount" df then Some (Scalar DF.NaN) else None) /\
    Dict.get "Deals by Stage" s
    = (if DF.has_column "Stage" df then Some (Counts []) else None) /\
    Dict.get "Win Rate (%)" s
    = (if DF.has_column "Closed" df then Some (Scalar DF.NaN) else None).
Proof.
  intros Hrows. unfold generate_summary, DF.column. rewrite Hrows. cbn [map DF.numbers].
  destruct (DF.has_column "Amount" df), (DF.has_column "Stage" df),
    (DF.has_column "Closed" df); eexists; (split; [reflexivity|]); repeat split.
Qed.

Lemma generate_summary_no_rows_witness :
  exists s,
    generate_summary (DF.mkDF ["Amount"; "Stage"; "Closed"] []) = Ok s /\
    Dict.get "Total Revenue" s = Some (Scalar (DF.Num (0 # 1))) /\
    Dict.get "Average Deal Size" s = Some (Scalar DF.NaN) /\
    Dict.get "Deals by Stage" s = Some (Counts []) /\
    Dict.get "Win Rate (%)" s = Some (Scalar DF.NaN).
Proof.
  apply (generate_summary_no_rows (DF.mkDF ["Amount"; "Stage"; "Closed"] [])).
  reflexivity.
Defined.

Lemma Qsum_unit_bounds (qs : list Q) :
  (forall q, In q qs -> 0 <= q <= 1)%Q ->
  (0 <= DF.Qsum qs <= inject_Z (Z.of_nat (List.length qs)))%Q.
Proof.
  induction qs as [|q qs IH]; intros Hqs.
  - simpl. split; apply Qle_refl.
  - specialize (IH (fun x Hx => Hqs x (or_intror Hx))).
    pose proof (Hqs q (or_introl eq_refl)) as Hq.
    cbn [DF.Qsum fold_right List.length]. fold (DF.Qsum qs).
    rewrite Nat2Z.inj_succ. unfold Z.succ. rewrite inject_Z_plus.
    change (inject_Z 1) with 1%Q. lra.
Qed.

Lemma round_half_even_range (y : Q) (lo hi : Z) :
  (inject_Z lo <= y <= inject_Z hi)%Q ->
  (lo <= DF.round_half_even y <= hi)%Z.
Proof.
  intros [Hlo Hhi].
  pose proof (round_half_even_close y) as Hclose.
  apply Qabs_Qle_condition in Hclose.
  generalize dependent (DF.round_half_even y). intros z Hz.
  assert (inject_Z lo - (1 # 2) <= inject_Z z)%Q as H1 by lra.
  assert (inject_Z z <= inject_Z hi + (1 # 2))%Q as H2 by lra.
  unfold Qle, Qminus, Qplus, Qopp, inject_Z in H1, H2. simpl in H1, H2. lia.
Qed.

Lemma numbers_of_flags (col : list DF.cell) :
  (forall c, In c col -> exists q, c = DF.Num q /\ (0 <= q <= 1)%Q) ->
  exists qs, DF.numbers col = Ok qs /\
             List.length qs = List.length col /\
             (forall q, In q qs -> (0 <= q <= 1)%Q).
Proof.
  induction col as [|c col IH]; intros Hcol.
  - exists []. split; [reflexivity|]. split; [reflexivity|]. intros q [].
  - destruct (Hcol c (or_introl eq_refl)) as (q & -> & Hq).
    destruct (IH (fun x Hx => Hcol x (or_intror Hx))) as (qs & Hn & Hlen & Hqs).
    exists (q :: qs). simpl. rewrite Hn, Hlen.
    split; [reflexivity|]. split; [reflexivity|].
    intros x [<-|Hx]; auto.
Qed.

(** A win rate computed from flags between 0 and 1 lies between 0 and 100. *)
Lemma win_rate_range (qs : list Q) :
  qs <> [] ->
  (forall q, In q qs -> (0 <= q <= 1)%Q) ->
  exists q, DF.round2 (DF.times100 (DF.series_mean qs)) = DF.Num q /\
            (0 <= q <= 100 # 1)%Q.
Proof.
  intros Hne Hqs. destruct qs as [|q0 qs]; [congruence|].
  pose proof (Qsum_unit_bounds (q0 :: qs) Hqs) as [Hs0 Hs1].
  unfold DF.series_mean, DF.times100, DF.round2.
  set (n := inject_Z (Z.of_nat (List.length (q0 :: qs)))) in *.
  assert (0 < n)%Q as Hn.
  { unfold n. change 0%Q with (inject_Z 0). rewrite <- Zlt_Qlt. simpl. lia. }
  set (m := (DF.Qsum (q0 :: qs) / n)%Q).
  assert (0 <= m <= 1)%Q as Hm.
  { unfold m. split.
    - apply Qle_shift_div_l; [exact Hn | lra].
    - apply Qle_shift_div_r; [exact Hn | lra]. }
  set (y := (Qred (Qred m * (100 # 1)) * (100 # 1))%Q).
  assert (y == m * (100 # 1) * (100 # 1))%Q as Ey
      by (unfold y; now rewrite !Qred_correct).
  assert (0 <= DF.round_half_even y <= 10000)%Z as Hz.
  { apply round_half_even_range. change (inject_Z 0) with 0%Q.
    change (inject_Z 10000) with (10000 # 1)%Q. lra. }
  eexists. split; [reflexivity|].
  rewrite Qred_correct. unfold Qdiv. change (/ (100 # 1))%Q with (1 # 100)%Q.
  destruct Hz as [Hz0 Hz1]. rewrite Zle_Qle in Hz0, Hz1.
  change (inject_Z 0) with 0%Q in Hz0. change (inject_Z 10000) with (10000 # 1)%Q in Hz1.
  lra.
Qed.

(** X10. When every cell of the Closed column is a number between 0 and 1
    (a 0/1 flag in particular) and the table has a row, the summary holds a
    win rate, and it lies between 0 and 100. *)
Theorem win_rate_is_a_percentage (df : DF.DataFrame) :
  DF.rows df <> [] ->
  DF.has_column "Closed" df = true ->
  (DF.has_column "Amount" df = true -> numeric (DF.column "Amount" df) = true) ->
  (forall c, In c (DF.column "Closed" df) ->
             exists q, c = DF.Num q /\ (0 <= q <= 1)%Q) ->
  exists s q,
    generate_summary df = Ok s /\
    Dict.get "Win Rate (%)" s = Some (Scalar (DF.Num q)) /\
    (0 <= q <= 100 # 1)%Q.
Proof.
  intros Hrows Hc Hnum Hflags.
  destruct (numbers_of_flags _ Hflags) as (qs & Hqs & Hlen & Hbounds).
  assert (qs <> []) as Hne.
  { intros ->. unfold DF.column in Hlen. rewrite length_map in Hlen.
    destruct (DF.rows df); [congruence | discriminate]. }
  destruct (win_rate_range qs Hne Hbounds) as (q & Hq & Hrange).
  unfold generate_summary. rewrite Hc, Hqs, Hq.
  destruct (DF.has_column "Amount" df) eqn:Ha;
    [rewrite (numbers_numeric _ (Hnum eq_refl))|];
    destruct (DF.has_column "Stage" df);
    eexists; exists q; (split; [reflexivity|]); split; trivial.
Qed.

Lemma win_rate_is_a_percentage_witness :
  exists s q,
    generate_summary sample_deals = Ok s /\
    Dict.get "Win Rate (%)" s = Some (Scalar (DF.Num q)) /\
    (0 <= q <= 100 # 1)%Q.
Proof.
  apply (win_rate_is_a_percentage sample_deals).
  - discriminate.
  - reflexivity.
  - reflexivity.
  - intros c Hc. simpl in Hc.
    destruct Hc as [<-|[<-|[<-|[<-|[]]]]]; eexists; (split; [reflexivity|]);
      split; discriminate.
Defined.

(** ** Counting the values of a column, continued *)

Lemma cell_eqb_refl (v : DF.cell) : DF.cell_eqb v v = true.
Proof.
  destruct v as [|q|s]; simpl; trivial.
  - apply Qeq_bool_iff. reflexivity.
  - apply String.eqb_refl.
Qed.

Lemma distinct_not_na (col : list DF.cell) (u : DF.cell) :
  In u (DF.distinct col) -> DF.isna u = false.
Proof.
  induction col as [|v col IH]; simpl; [tauto|].
  destruct (DF.isna v) eqn:Hv; [exact IH|].
  intros [<-|Hu]; [exact Hv|]. apply filter_In in Hu as [Hu _]. auto.
Qed.

Lemma existsb_congr (a b : DF.cell) (l : list DF.cell) :
  DF.cell_eqb a b = true ->
  existsb (DF.cell_eqb a) l = existsb (DF.cell_eqb b) l.
Proof.
  intros Hab. induction l as [|x l IH]; simpl; [reflexivity|].
  now rewrite IH, (cell_eqb_congr a b x Hab).
Qed.

Lemma list_sum_partition {A} (f : A -> nat) (p : A -> bool) (l : list A) :
  list_sum (map f l)
  = list_sum (map f (filter p l))
    + list_sum (map f (filter (fun x => negb (p x)) l)).
Proof.
  induction l as [|a l IH]; simpl; [reflexivity|].
  destruct (p a); simpl; lia.
Qed.

Lemma list_sum_same_key (f : DF.cell -> nat) (v : DF.cell) (l : list DF.cell) :
  distinct_keys l = true ->
  (forall u, DF.cell_eqb v u = true -> f u = f v) ->
  list_sum (map f (filter (DF.cell_eqb v) l))
  = if existsb (DF.cell_eqb v) l then f v else 0.
Proof.
  intros Hd Hf. induction l as [|a l IH]; simpl; [reflexivity|].
  simpl in Hd. apply andb_true_iff in Hd as [Ha Hl]. apply negb_true_iff in Ha.
  specialize (IH Hl).
  destruct (DF.cell_eqb v a) eqn:Hva; simpl; [|exact IH].
  rewrite IH, (existsb_congr v a l Hva), Ha, (Hf a Hva). lia.
Qed.

Lemma count_cons (u v : DF.cell) (col : list DF.cell) :
  DF.count u (v :: col)
  = (if DF.cell_eqb u v then 1 else 0) + DF.count u col.
Proof. unfold DF.count. simpl. now destruct (DF.cell_eqb u v). Qed.

(** The counts of the distinct values add up to the number of cells that
    are not missing. *)
Lemma distinct_counts_total (col : list DF.cell) :
  list_sum (map (fun u => DF.count u col) (DF.distinct col))
  = List.length (filter (fun c => negb (DF.isna c)) col).
Proof.
  induction col as [|v col IH]; [reflexivity|].
  cbn [DF.distinct filter]. destruct (DF.isna v) eqn:Hv; cbn [negb].
  - rewrite <- IH. f_equal. apply map_ext_in. intros u Hu.
    rewrite count_cons.
    assert (DF.cell_eqb u v = false) as ->; [|reflexivity].
    apply distinct_not_na in Hu. destruct u, v; simpl in *; congruence.
  - cbn [map list_sum List.length]. rewrite count_cons, cell_eqb_refl.
    rewrite <- IH.
    rewrite (list_sum_partition (fun u => DF.count u col) (DF.cell_eqb v)
                                (DF.distinct col)).
    rewrite (list_sum_same_key (fun u => DF.count u col) v (DF.distinct col)
               (distinct_keys_distinct col)
               (fun u Hu => eq_sym (count_congr v u col Hu))).
    rewrite existsb_distinct, Hv. cbn [negb andb].
    assert ((if existsb (DF.cell_eqb v) col then DF.count v col else 0)
            = DF.count v col) as ->.
    { destruct (existsb (DF.cell_eqb v) col) eqn:He; [reflexivity|].
      symmetry. now apply count_zero_iff. }
    assert (map (fun u => DF.count u (v :: col))
                (filter (fun w => negb (DF.cell_eqb v w)) (DF.distinct col))
            = map (fun u => DF.count u col)
                  (filter (fun w => negb (DF.cell_eqb v w)) (DF.distinct col))) as ->.
    { apply map_ext_in. intros u Hu. apply filter_In in Hu as [_ Hu].
      apply negb_true_iff in Hu. rewrite count_cons, cell_eqb_sym, Hu. reflexivity. }
    unfold list_sum. cbn [fold_right]. lia.
Qed.

Lemma insert_desc_total (e : DF.cell * nat) (l : list (DF.cell * nat)) :
  list_sum (map snd (DF.insert_desc e l)) = snd e + list_sum (map snd l).
Proof.
  induction l as [|e' l IH]; simpl; [reflexivity|].
  destruct (snd e' <=? snd e)%nat; simpl; [reflexivity|]. rewrite IH. lia.
Qed.

Lemma value_counts_total (col : list DF.cell) :
  list_sum (map snd (DF.value_counts col))
  = List.length (filter (fun c => negb (DF.isna c)) col).
Proof.
  rewrite <- distinct_counts_total. unfold DF.value_counts, DF.sort_desc.
  induction (DF.distinct col) as [|u ds IH]; simpl; [reflexivity|].
  now rewrite insert_desc_total, IH.
Qed.

(** X11. The stage counts of the summary account for every row that has a
    stage: they add up to the number of cells of the Stage column that are
    not missing, and they come in non-increasing order. *)
Theorem stage_counts_add_up (df : DF.DataFrame) (s : summary) :
  generate_summary df = Ok s ->
  DF.has_column "Stage" df = true ->
  exists m,
    Dict.get "Deals by Stage" s = Some (Counts m) /\
    list_sum (map snd m)
    = List.length (filter (fun c => negb (DF.isna c)) (DF.column "Stage" df)) /\
    StronglySorted (fun a b => snd b <= snd a) m.
Proof.
  intros Hs Hstage. exists (DF.value_counts (DF.column "Stage" df)).
  split; [|split; [apply value_counts_total | apply value_counts_sorted]].
  revert Hs. unfold generate_summary. rewrite Hstage.
  destruct (DF.has_column "Amount" df);
    [destruct (DF.numbers (DF.column "Amount" df)); [|discriminate]|];
    (destruct (DF.has_column "Closed" df);
     [destruct (DF.numbers (DF.column "Closed" df)); [|discriminate]|]);
    intros [= <-]; reflexivity.
Qed.

Lemma stage_counts_add_up_witness :
  exists m,
    Dict.get "Deals by Stage"
             [("Total Revenue", Scalar (DF.Num (1000 # 1)));
              ("Average Deal Size", Scalar (DF.Num (250 # 1)));
              ("Deals by Stage", Counts [(text "Won", 3); (text "Open", 1)]);
              ("Win Rate (%)", Scalar (DF.Num (75 # 1)))]
    = Some (Counts m) /\
    list_sum (map snd m) = 4 /\
    StronglySorted (fun a b => snd b <= snd a) m.
Proof.
  apply (stage_counts_add_up sample_deals); reflexivity.
Defined.

(** ** What the steps leave alone *)

Section Frame.
Context `{Libs}.
Variable targets : list FS.path.

Lemma keeps_ret {A} (a : A) : keeps_files_except targets (ret a).
Proof. now intros w q x _ Hq. Qed.

Lemma keeps_raise {A} (e : exn) : keeps_files_except targets (@raise _ A e).
Proof. now intros w q x _ Hq. Qed.

Lemma keeps_lift {A} (r : result A) : keeps_files_except targets (lift r).
Proof. destruct r; [apply keeps_ret | apply keeps_raise]. Qed.

Lemma keeps_print (line : string) : keeps_files_except targets (print line).
Proof. now intros w q x _ Hq. Qed.

Lemma keeps_bind {A B} (c : M A) (k : A -> M B) :
  keeps_files_except targets c ->
  (forall a, keeps_files_except targets (k a)) ->
  keeps_files_except targets (bind c k).
Proof.
  intros Hc Hk w q x Hq Hfile. specialize (Hc w q x Hq Hfile).
  unfold bind. destruct (c w) as [[a|e] w']; [|exact Hc].
  now apply Hk.
Qed.

Lemma keeps_mkdir (p : FS.path) : keeps_files_except targets (mkdir p).
Proof.
  intros w q x _ Hfile. unfold mkdir, fs_update.
  destruct (FS.mkdir_p p (fs w)) as [t|e] eqn:Hmk; [|exact Hfile].
  exact (mkdir_p_keeps_files _ _ _ _ _ Hmk Hfile).
Qed.

Lemma keeps_write_text (p : FS.path) (data : string) :
  In p targets -> keeps_files_except targets (write_text p data).
Proof.
  intros Hp w q x Hq Hfile. unfold write_text, fs_update.
  destruct (FS.write_file p data (fs w)) as [t|e] eqn:Hw; [|exact Hfile].
  apply (write_file_keeps_others _ _ _ _ _ _ Hw); [|exact Hfile].
  intros ->. contradiction.
Qed.

Lemma keeps_ensure_excel_available (src_excel raw_dir : FS.path) (name : string) :
  keeps_files_except targets (ensure_excel_available src_excel raw_dir name).
Proof.
  intros w q x _ Hq. rewrite ensure_excel_available_run.
  destruct (FS.mkdir_p raw_dir (fs w)) as [t|e] eqn:Hmk; [|exact Hq].
  pose proof (mkdir_p_keeps_files _ _ _ _ _ Hmk Hq) as Hq'.
  cbv zeta.
  destruct (FS.exists_ (raw_dir ++ [name]) t) eqn:Hdest; [exact Hq'|].
  destruct (FS.lookup src_excel t) as [[data|sub]|]; try exact Hq'.
  destruct (FS.write_file (raw_dir ++ [name]) data t) as [t'|e] eqn:Hw;
    [|exact Hq'].
  cbn [snd printed fs].
  apply (write_file_keeps_others _ _ _ _ _ _ Hw); [|exact Hq'].
  intros ->. unfold FS.exists_ in Hdest. now rewrite Hq' in Hdest.
Qed.

Lemma keeps_detect_sheet_names (names : list string) :
  keeps_files_except targets (detect_sheet_names names).
Proof.
  unfold detect_sheet_names.
  repeat (apply keeps_bind; [|intros]);
    first [apply keeps_print | apply keeps_lift | apply keeps_ret].
Qed.

Lemma keeps_main_select_sheets (d t : option string) (names : list string) :
  keeps_files_except targets (main_select_sheets d t names).
Proof.
  unfold main_select_sheets. destruct (orb _ _); [|apply keeps_ret].
  apply keeps_bind; [apply keeps_detect_sheet_names|].
  intros [a b]. apply keeps_ret.
Qed.

Lemma keeps_process_and_merge (deals_df teams_df : DF.DataFrame) :
  keeps_files_except targets (process_and_merge deals_df teams_df) /\
  keeps_files_except targets (main_merge deals_df teams_df).
Proof.
  unfold process_and_merge, main_merge.
  destruct (andb _ _); split; try apply keeps_lift;
    (apply keeps_bind; [apply keeps_print | intros; apply keeps_ret]).
Qed.

Lemma keeps_save_summary_report (s : summary) (reports_dir : FS.path) :
  In (reports_dir ++ ["summary_report.txt"]) targets ->
  keeps_files_except targets (save_summary_report s reports_dir).
Proof.
  intros Hin. unfold save_summary_report.
  apply keeps_bind; [apply keeps_mkdir | intros _].
  apply keeps_bind; [now apply keeps_write_text | intros _].
  apply keeps_print.
Qed.

Lemma keeps_model_report (df : DF.DataFrame) :
  keeps_files_except targets (model_report df).
Proof.
  intros w q x _ Hq. destruct (model_report_pure df) as [r Hr].
  now rewrite Hr.
Qed.

Lemma keeps_train_model (df : DF.DataFrame) (reports_dir : FS.path) :
  In (reports_dir ++ ["model_report.txt"]) targets ->
  keeps_files_except targets (train_model df reports_dir).
Proof.
  intros Hin. unfold train_model. destruct (orb _ _); [apply keeps_print|].
  apply keeps_bind; [apply keeps_model_report | intros report].
  apply keeps_bind; [apply keeps_mkdir | intros _].
  apply keeps_bind; [now apply keeps_write_text | intros _].
  apply keeps_print.
Qed.

End Frame.

Section ScriptFrame.
Context `{Libs} `{Runtime}.
Variable targets : list FS.path.

Lemma keeps_savefig (png : result string) (p : FS.path) :
  In p targets -> keeps_files_except targets (savefig png p).
Proof.
  intros Hp. unfold savefig.
  apply keeps_bind; [apply keeps_lift | intros bytes].
  now apply keeps_write_text.
Qed.

Lemma keeps_generate_charts (df : DF.DataFrame) (reports_dir : FS.path) :
  In (reports_dir ++ ["revenue_by_stage.png"]) targets ->
  In (reports_dir ++ ["top_sales_reps.png"]) targets ->
  keeps_files_except targets (generate_charts df reports_dir).
Proof.
  intros H1 H2. unfold generate_charts.
  apply keeps_bind; [apply keeps_mkdir | intros _].
  apply keeps_bind;
    [destruct (andb _ _); [now apply keeps_savefig | apply keeps_ret] | intros _].
  apply keeps_bind;
    [destruct (andb _ _); [now apply keeps_savefig | apply keeps_ret] | intros _].
  apply keeps_print.
Qed.

Lemma keeps_open_workbook (p : FS.path) :
  keeps_files_except targets (open_workbook p).
Proof.
  intros w q x _ Hq. unfold open_workbook.
  destruct (FS.lookup p (fs w)) as [[data|sub]|]; trivial.
  now destruct (ExcelFile data).
Qed.

Lemma keeps_read_sheet (xls : Workbook) (name : option string) :
  keeps_files_except targets (read_sheet xls name).
Proof. destruct name; [apply keeps_lift | apply keeps_raise]. Qed.

Lemma keeps_load_tables (args : Args) (raw_dir : FS.path) :
  keeps_files_except targets (load_tables args raw_dir).
Proof.
  unfold load_tables.
  apply keeps_bind; [apply keeps_ensure_excel_available | intros excel_path].
  apply keeps_bind; [apply keeps_open_workbook | intros xls].
  apply keeps_bind; [apply keeps_main_select_sheets | intros sheets].
  apply keeps_bind; [apply keeps_read_sheet | intros deals_df].
  apply keeps_bind; [apply keeps_read_sheet | intros teams_df].
  apply keeps_bind; [apply keeps_print | intros _].
  apply keeps_bind; [apply keeps_print | intros _].
  apply keeps_ret.
Qed.

Lemma keeps_save_csv (merged : DF.DataFrame) (processed_dir : FS.path) :
  In (processed_dir ++ [csv_name]) targets ->
  keeps_files_except targets (save_csv merged processed_dir).
Proof.
  intros Hin. unfold save_csv.
  apply keeps_bind; [now apply keeps_write_text | intros _].
  apply keeps_print.
Qed.

End ScriptFrame.

(** X12. The reporting steps write their own files only: whatever the
    outcome, [save_summary_report] keeps every regular file but
    [summary_report.txt], [generate_charts] every one but the two images and
    [train_model] every one but [model_report.txt]. *)
Theorem reporters_keep_other_files `{Libs} `{Runtime}
        (s : summary) (df : DF.DataFrame) (reports_dir : FS.path) :
  keeps_files_except [reports_dir ++ ["summary_report.txt"]]
                     (save_summary_report s reports_dir) /\
  keeps_files_except [reports_dir ++ ["revenue_by_stage.png"];
                      reports_dir ++ ["top_sales_reps.png"]]
                     (generate_charts df reports_dir) /\
  keeps_files_except [reports_dir ++ ["model_report.txt"]]
                     (train_model df reports_dir).
Proof.
  split; [|split].
  - apply keeps_save_summary_report. now left.
  - apply keeps_generate_charts; simpl; tauto.
  - apply keeps_train_model. now left.
Qed.

(** X13. A run of either script alters no file it found: the original
    script keeps every regular file but the processed CSV, the updated one
    every regular file but the processed CSV and the four reports; the
    source workbook in particular stays as it was, whatever the outcome. *)
Theorem main_keeps_other_files `{Libs} `{Runtime} (args : Args) (env : Env) :
  keeps_files_except (outputs (project_root None env)) (main args env) /\
  keeps_files_except [project_root None env ++ ["data"; "processed"] ++ [csv_name]]
                     (main_original args env).
Proof.
  set (root := project_root None env).
  assert (forall a b : list string, (root ++ a) ++ b = root ++ a ++ b) as Happ
      by (intros; now rewrite app_assoc).
  split.
  - unfold main. fold root.
    apply keeps_bind; [apply keeps_mkdir | intros _].
    apply keeps_bind; [apply keeps_mkdir | intros _].
    apply keeps_bind; [apply keeps_load_tables | intros tables].
    apply keeps_bind; [apply keeps_process_and_merge | intros merged].
    apply keeps_bind;
      [apply keeps_save_csv; rewrite Happ; unfold outputs; simpl; tauto | intros _].
    apply keeps_bind; [apply keeps_lift | intros s].
    apply keeps_bind;
      [apply keeps_save_summary_report; rewrite Happ; unfold outputs; simpl; tauto
      | intros _].
    apply keeps_bind;
      [apply keeps_generate_charts; rewrite Happ; unfold outputs; simpl; tauto
      | intros _].
    apply keeps_train_model; rewrite Happ; unfold outputs; simpl; tauto.
  - unfold main_original. fold root.
    apply keeps_bind; [apply keeps_mkdir | intros _].
    apply keeps_bind; [apply keeps_load_tables | intros tables].
    apply keeps_bind; [apply keeps_process_and_merge | intros merged].
    apply keeps_save_csv. rewrite Happ. now left.
Qed.

(** ** The summary report, continued *)

(** A regular file can always be written again. *)
Lemma write_file_over_file (p : FS.path) (data x : string) (t : FS.node) :
  FS.lookup p t = Some (FS.File x) ->
  exists t', FS.write_file p data t = Ok t'.
Proof.
  revert t. induction p as [|c p IH]; intros t; simpl.
  - intros [= ->]. eauto.
  - destruct t as [|es]; [discriminate|].
    destruct (FS.lookup_entry c es) as [child|]; [|discriminate].
    intros Hp. destruct (IH child Hp) as [child' ->]. eauto.
Qed.

Lemma save_summary_report_run `{Libs} (s : summary) (reports_dir : FS.path)
      (w : World) :
  save_summary_report s reports_dir w
  = match FS.mkdir_p reports_dir (fs w) with
    | Raise e => (Raise e, w)
    | Ok t =>
        match FS.write_file (reports_dir ++ ["summary_report.txt"])
                            (String.concat EmptyString (map summary_line s)) t with
        | Raise e => (Raise e, mkWorld t (stdout w) (np_random w))
        | Ok t' =>
            (Ok tt,
             printed ("[INFO] Summary report saved to "
                      ++ FS.to_string (reports_dir ++ ["summary_report.txt"])%list)%string
                     (mkWorld t' (stdout w) (np_random w)))
        end
    end.
Proof.
  unfold save_summary_report, bind, mkdir, write_text, fs_update, print.
  destruct (FS.mkdir_p reports_dir (fs w)) as [t|e]; [|reflexivity].
  cbn [fs stdout np_random].
  destruct (FS.write_file _ _ t) as [t'|e]; reflexivity.
Qed.

(** X14. After [save_summary_report] has returned, [summary_report.txt]
    holds one line per entry of the summary, in the order of the summary;
    saving another summary afterwards succeeds as well and replaces the
    contents, nothing of the first report being left. *)
Theorem save_summary_report_overwrites `{Libs}
        (s1 s2 : summary) (reports_dir : FS.path) (w w1 : World) :
  save_summary_report s1 reports_dir w = (Ok tt, w1) ->
  FS.lookup (reports_dir ++ ["summary_report.txt"]) (fs w1)
  = Some (FS.File (String.concat EmptyString (map summary_line s1))) /\
  exists w2,
    save_summary_report s2 reports_dir w1 = (Ok tt, w2) /\
    FS.lookup (reports_dir ++ ["summary_report.txt"]) (fs w2)
    = Some (FS.File (String.concat EmptyString (map summary_line s2))).
Proof.
  rewrite save_summary_report_run.
  destruct (FS.mkdir_p reports_dir (fs w)) as [t|e]; [|discriminate].
  destruct (FS.write_file _ _ t) as [t1|e] eqn:Hw1; [|discriminate].
  intros [= <-]. cbn [printed fs].
  pose proof (write_file_lookup _ _ _ _ Hw1) as Hfile.
  split; [exact Hfile|].
  rewrite save_summary_report_run. cbn [printed fs stdout np_random].
  assert (FS.is_dir reports_dir t1 = true) as Hdir.
  { apply (parent_is_dir _ "summary_report.txt"). unfold FS.exists_.
    now rewrite Hfile. }
  rewrite (mkdir_p_existing _ _ Hdir).
  destruct (write_file_over_file _ (String.concat EmptyString (map summary_line s2))
                                 _ _ Hfile) as [t2 Hw2].
  rewrite Hw2. eexists. split; [reflexivity|].
  cbn [printed fs]. exact (write_file_lookup _ _ _ _ Hw2).
Qed.

Lemma save_summary_report_overwrites_witness :
  let s1 := [("Win Rate (%)", Scalar (DF.Num (75 # 1)))] in
  let w1 := snd (save_summary_report s1 ["reports"] empty_world) in
  FS.lookup (["reports"] ++ ["summary_report.txt"]) (fs w1)
  = Some (FS.File (String.concat EmptyString (map summary_line s1))) /\
  exists w2,
    save_summary_report [] ["reports"] w1 = (Ok tt, w2) /\
    FS.lookup (["reports"] ++ ["summary_report.txt"]) (fs w2)
    = Some (FS.File (String.concat EmptyString (map summary_line []))).
Proof.
  apply (@save_summary_report_overwrites SmallLibs
           [("Win Rate (%)", Scalar (DF.Num (75 # 1)))] [] ["reports"] empty_world).
  reflexivity.
Defined.

(** ** The charts *)

(** Writing a file creates nothing but that file. *)
Lemma write_file_creates_only (p q : FS.path) (data : string) (t t' : FS.node) :
  FS.write_file p data t = Ok t' ->
  q <> p ->
  FS.lookup q t = None ->
  FS.lookup q t' = None.
Proof.
  revert q t t'. induction p as [|c p IH]; intros q t t'; simpl.
  - destruct t; [|discriminate]. intros [= <-] Hq _.
    destruct q; [congruence | reflexivity].
  - destruct t as [|es]; [discriminate|].
    destruct q as [|c2 q]; [intros _ _; discriminate|].
    simpl. intros Hw Hq.
    destruct (String.eqb c2 c) eqn:Hcc.
    + apply String.eqb_eq in Hcc. subst c2.
      destruct (FS.lookup_entry c es) as [child|].
      * destruct (FS.write_file p data child) as [child'|] eqn:Hwc; [|discriminate].
        injection Hw as <-. rewrite lookup_set_same.
        apply (IH q child); [exact Hwc | congruence].
      * destruct p; [|discriminate]. injection Hw as <-. intros _.
        rewrite lookup_set_same. destruct q; [congruence | reflexivity].
    + assert (exists n, t' = FS.Dir (FS.set_entry c n es)) as [n ->].
      { destruct (FS.lookup_entry c es) as [child|].
        - destruct (FS.write_file p data child); inversion Hw; eauto.
        - destruct p; inversion Hw; eauto. }
      now rewrite lookup_set_other.
Qed.

Lemma sibling_neq (dir : FS.path) (a b : string) :
  a <> b -> dir ++ [a] <> dir ++ [b].
Proof. intros Hab Heq. apply app_inv_head in Heq. congruence. Qed.

Lemma savefig_new `{Libs} `{Runtime} (png : string) (dir : FS.path) (c : string)
      (w : World) :
  FS.is_dir dir (fs w) = true ->
  FS.exists_ (dir ++ [c]) (fs w) = false ->
  exists t',
    savefig (Ok png) (dir ++ [c]) w = (Ok tt, mkWorld t' (stdout w) (np_random w)) /\
    FS.write_file (dir ++ [c]) png (fs w) = Ok t' /\
    FS.lookup (dir ++ [c]) t' = Some (FS.File png).
Proof.
  intros Hdir Hnew.
  assert (FS.is_dir (dir ++ [c]) (fs w) = false) as Hnodir.
  { unfold FS.is_dir. now rewrite (exists_false_lookup _ _ Hnew). }
  destruct (write_file_in_dir dir c png (fs w) Hdir Hnodir) as (t' & Hw & Hfile & _).
  exists t'. split; [|now split].
  unfold savefig, bind, lift, ret, write_text, fs_update. now rewrite Hw.
Qed.

(** X15. The charts are gated by the columns.  In a reports directory that
    holds neither image yet, and with both renderings available,
    [generate_charts] returns normally; afterwards [revenue_by_stage.png]
    exists exactly when the table has the Amount and Stage columns and
    [top_sales_reps.png] exactly when it has SalesRep and Amount, each
    holding its rendering. *)
Theorem generate_charts_gated `{Libs} `{Runtime}
        (df : DF.DataFrame) (reports_dir : FS.path) (w : World)
        (png1 png2 : string) :
  FS.is_dir reports_dir (fs w) = true ->
  FS.exists_ (reports_dir ++ ["revenue_by_stage.png"]) (fs w) = false ->
  FS.exists_ (reports_dir ++ ["top_sales_reps.png"]) (fs w) = false ->
  revenue_by_stage_png df = Ok png1 ->
  top_sales_reps_png df = Ok png2 ->
  exists w',
    generate_charts df reports_dir w = (Ok tt, w') /\
    FS.lookup (reports_dir ++ ["revenue_by_stage.png"]) (fs w')
    = (if andb (DF.has_column "Amount" df) (DF.has_column "Stage" df)
       then Some (FS.File png1) else None) /\
    FS.lookup (reports_dir ++ ["top_sales_reps.png"]) (fs w')
    = (if andb (DF.has_column "SalesRep" df) (DF.has_column "Amount" df)
       then Some (FS.File png2) else None).
Proof.
  intros Hdir Hnew1 Hnew2 Hpng1 Hpng2.
  assert (reports_dir ++ ["top_sales_reps.png"]
          <> reports_dir ++ ["revenue_by_stage.png"]) as Hne
      by (apply sibling_neq; discriminate).
  unfold generate_charts. rewrite Hpng1, Hpng2.
  rewrite (bind_ok _ _ w w tt)
    by (unfold mkdir, fs_update; rewrite (mkdir_p_existing _ _ Hdir);
        now rewrite world_eta).
  destruct (andb (DF.has_column "Amount" df) (DF.has_column "Stage" df)).
  - destruct (savefig_new png1 reports_dir "revenue_by_stage.png" w Hdir Hnew1)
      as (t1 & Hrun1 & Hw1 & Hfile1).
    rewrite (bind_ok _ _ _ _ _ Hrun1).
    set (w1 := mkWorld t1 (stdout w) (np_random w)).
    assert (FS.is_dir reports_dir (fs w1) = true) as Hdir1.
    { apply (parent_is_dir _ "revenue_by_stage.png"). unfold FS.exists_.
      cbn [w1 fs]. now rewrite Hfile1. }
    assert (FS.exists_ (reports_dir ++ ["top_sales_reps.png"]) (fs w1) = false)
      as Hnew2'.
    { unfold FS.exists_. cbn [w1 fs].
      now rewrite (write_file_creates_only _ _ _ _ _ Hw1 Hne
                     (exists_false_lookup _ _ Hnew2)). }
    destruct (andb (DF.has_column "SalesRep" df) (DF.has_column "Amount" df)).
    + destruct (savefig_new png2 reports_dir "top_sales_reps.png" w1 Hdir1 Hnew2')
        as (t2 & Hrun2 & Hw2 & Hfile2).
      rewrite (bind_ok _ _ _ _ _ Hrun2).
      eexists. split; [reflexivity|]. cbn [printed fs]. split; [|exact Hfile2].
      apply (write_file_keeps_others _ _ _ _ _ _ Hw2); [|exact Hfile1].
      intros Heq. now apply Hne.
    + eexists. split; [reflexivity|]. cbn [printed fs w1]. split; [exact Hfile1|].
      exact (write_file_creates_only _ _ _ _ _ Hw1 Hne (exists_false_lookup _ _ Hnew2)).
  - rewrite (bind_ok _ _ w w tt) by reflexivity.
    destruct (andb (DF.has_column "SalesRep" df) (DF.has_column "Amount" df)).
    + destruct (savefig_new png2 reports_dir "top_sales_reps.png" w Hdir Hnew2)
        as (t2 & Hrun2 & Hw2 & Hfile2).
      rewrite (bind_ok _ _ _ _ _ Hrun2).
      eexists. split; [reflexivity|]. cbn [printed fs]. split; [|exact Hfile2].
      apply (write_file_creates_only _ _ _ _ _ Hw2); [|now apply exists_false_lookup].
      intros Heq. now apply Hne.
    + rewrite (bind_ok _ _ w w tt) by reflexivity.
      eexists. split; [reflexivity|]. cbn [printed fs].
      split; now apply exists_false_lookup.
Qed.

Lemma generate_charts_gated_witness :
  exists w',
    generate_charts contacts_only ["reports"] (world_of (FS.Dir [("reports", FS.Dir [])]))
    = (Ok tt, w') /\
    FS.lookup (["reports"] ++ ["revenue_by_stage.png"]) (fs w') = None /\
    FS.lookup (["reports"] ++ ["top_sales_reps.png"]) (fs w') = None.
Proof.
  apply (@generate_charts_gated SmallLibs SmallRuntime contacts_only ["reports"]
           (world_of (FS.Dir [("reports", FS.Dir [])])) "stage chart" "rep chart");
    reflexivity.
Defined.

Example generate_charts_sample :
  let w' := snd (generate_charts sample_deals ["reports"] empty_world) in
  FS.lookup ["reports"; "revenue_by_stage.png"] (fs w') = Some (FS.File "stage chart") /\
  FS.lookup ["reports"; "top_sales_reps.png"] (fs w') = Some (FS.File "rep chart").
Proof. split; reflexivity. Qed.

(** ** The scripts as a whole *)

(** Below a regular file no directory can be made. *)
Lemma mkdir_p_under_file (f rest : FS.path) (c data : string) (t : FS.node) :
  FS.lookup f t = Some (FS.File data) ->
  FS.mkdir_p (f ++ c :: rest) t = Raise NotADirectoryError.
Proof.
  revert t. induction f as [|c0 f IH]; intros t; simpl.
  - now intros [= ->].
  - destruct t as [|es]; [discriminate|].
    destruct (FS.lookup_entry c0 es) as [child|]; [|discriminate].
    intros Hf. now rewrite (IH child Hf).
Qed.

(** X16. Run from a script file, both scripts stop at once: [project_root]
    takes the resolved path of the file itself for the root (unless the file
    is called "scripts"), the first directory to create lies below that
    regular file, and the run ends with the not-a-directory error, exit code
    1 and one line on standard error, having written and printed nothing. *)
Theorem main_fails_from_script_file `{Libs} `{Runtime}
        (args : Args) (env : Env) (w : World) (f : FS.path) (data : string) :
  script_file env = Some f ->
  FS.name f <> "scripts" ->
  FS.lookup f (fs w) = Some (FS.File data) ->
  project_root None env = f /\
  main args env w = (Raise NotADirectoryError, w) /\
  main_original args env w = (Raise NotADirectoryError, w) /\
  run_script (main args env) w
  = mkOutcome 1%Z [("[ERROR] " ++ str_of_exn NotADirectoryError)%string] w /\
  run_script (main_original args env) w
  = mkOutcome 1%Z [("[ERROR] " ++ str_of_exn NotADirectoryError)%string] w.
Proof.
  intros Hfile Hname Hf.
  assert (project_root None env = f) as Hroot.
  { unfold project_root. rewrite Hfile.
    apply String.eqb_neq in Hname. now rewrite Hname. }
  assert (mkdir (f ++ ["data"; "processed"]) w = (Raise NotADirectoryError, w)) as Hmk.
  { unfold mkdir, fs_update. now rewrite (mkdir_p_under_file f _ _ _ _ Hf). }
  assert (main args env w = (Raise NotADirectoryError, w)) as Hmain
      by (unfold main; rewrite Hroot; now apply bind_raise).
  assert (main_original args env w = (Raise NotADirectoryError, w)) as Horig
      by (unfold main_original; rewrite Hroot; now apply bind_raise).
  repeat split; trivial; unfold run_script; [now rewrite Hmain | now rewrite Horig].
Qed.

Lemma main_fails_from_script_file_witness :
  let args := mkArgs (Some "proj/crm.xlsx") None None in
  let env := mkEnv (Some ["proj"; "pipeline.py"]) ["proj"] in
  let w := world_of tree_with_script in
  project_root None env = ["proj"; "pipeline.py"] /\
  main args env w = (Raise NotADirectoryError, w) /\
  main_original args env w = (Raise NotADirectoryError, w) /\
  run_script (main args env) w
  = mkOutcome 1%Z [("[ERROR] " ++ str_of_exn NotADirectoryError)%string] w /\
  run_script (main_original args env) w
  = mkOutcome 1%Z [("[ERROR] " ++ str_of_exn NotADirectoryError)%string] w.
Proof.
  apply (@main_fails_from_script_file SmallLibs SmallRuntime
           (mkArgs (Some "proj/crm.xlsx") None None)
           (mkEnv (Some ["proj"; "pipeline.py"]) ["proj"])
           (world_of tree_with_script) ["proj"; "pipeline.py"] "import argparse").
  - reflexivity.
  - discriminate.
  - reflexivity.
Defined.

Lemma longer_not_initial_segment (q p : FS.path) :
  List.length p < List.length q -> ~ initial_segment q p.
Proof.
  intros Hlen [r Hr]. apply (f_equal (@List.length string)) in Hr.
  rewrite length_app in Hr. lia.
Qed.

Lemma source_excel_default `{Runtime} (args : Args) (raw_dir : FS.path) :
  PyStr.truthy_opt (excel args) = false ->
  source_excel args raw_dir = raw_dir ++ [canonical_name].
Proof.
  unfold source_excel, PyStr.truthy_opt. destruct (excel args) as [s|]; [|reflexivity].
  now intros ->.
Qed.

(** X17. Without a usable [--excel] argument and without a workbook in the
    raw-data directory the updated script fails with the not-found error and
    exit code 1, naming the canonical path; the three directories it made on
    the way are left in place. *)
Theorem main_without_workbook `{Libs} `{Runtime}
        (args : Args) (env : Env) (w : World) (t1 t2 t3 : FS.node) :
  let root := project_root None env in
  let raw_dir := root ++ ["data"; "raw"] in
  let processed_dir := root ++ ["data"; "processed"] in
  let reports_dir := root ++ ["reports"] in
  PyStr.truthy_opt (excel args) = false ->
  FS.mkdir_p processed_dir (fs w) = Ok t1 ->
  FS.mkdir_p reports_dir t1 = Ok t2 ->
  FS.mkdir_p raw_dir t2 = Ok t3 ->
  FS.exists_ (raw_dir ++ [canonical_name]) (fs w) = false ->
  main args env w
  = (Raise (FileNotFoundError
              ("Could not find source Excel at "
               ++ FS.to_string (raw_dir ++ [canonical_name])%list)%string),
     mkWorld t3 (stdout w) (np_random w)) /\
  exit_code (run_script (main args env) w) = 1%Z /\
  FS.is_dir processed_dir t3 = true /\
  FS.is_dir reports_dir t3 = true /\
  FS.is_dir raw_dir t3 = true.
Proof.
  intros root raw_dir processed_dir reports_dir Hexcel Hmk1 Hmk2 Hmk3 Hdest.
  apply exists_false_lookup in Hdest.
  assert (FS.lookup (raw_dir ++ [canonical_name]) t1 = None) as Hdest1.
  { apply (mkdir_p_creates_on_path _ _ _ _ Hmk1 Hdest).
    apply longer_not_initial_segment. unfold raw_dir, processed_dir.
    rewrite !length_app. simpl. lia. }
  assert (FS.lookup (raw_dir ++ [canonical_name]) t2 = None) as Hdest2.
  { apply (mkdir_p_creates_on_path _ _ _ _ Hmk2 Hdest1).
    apply longer_not_initial_segment. unfold raw_dir, reports_dir.
    rewrite !length_app. simpl. lia. }
  assert (FS.lookup (raw_dir ++ [canonical_name]) t3 = None) as Hdest3.
  { apply (mkdir_p_creates_on_path _ _ _ _ Hmk3 Hdest2).
    apply child_not_initial_segment. }
  set (w1 := mkWorld t1 (stdout w) (np_random w)).
  set (w2 := mkWorld t2 (stdout w) (np_random w)).
  set (w3 := mkWorld t3 (stdout w) (np_random w)).
  set (failure := FileNotFoundError
                    ("Could not find source Excel at "
                     ++ FS.to_string (raw_dir ++ [canonical_name])%list)%string).
  assert (mkdir processed_dir w = (Ok tt, w1)) as Hstep1
      by (unfold mkdir, fs_update; now rewrite Hmk1).
  assert (mkdir reports_dir w1 = (Ok tt, w2)) as Hstep2
      by (unfold mkdir, fs_update; cbn [w1 fs]; now rewrite Hmk2).
  assert (load_tables args raw_dir w2 = (Raise failure, w3)) as Hload.
  { unfold load_tables. apply bind_raise.
    rewrite (source_excel_default args raw_dir Hexcel).
    rewrite ensure_excel_available_run. cbn [w2 fs stdout np_random].
    rewrite Hmk3. cbv zeta. unfold FS.exists_. now rewrite Hdest3. }
  assert (main args env w = (Raise failure, w3)) as Hmain.
  { unfold main. fold root. fold raw_dir. fold processed_dir. fold reports_dir.
    rewrite (bind_ok _ _ _ _ _ Hstep1), (bind_ok _ _ _ _ _ Hstep2).
    now apply bind_raise. }
  split; [exact Hmain|].
  split; [unfold run_script; now rewrite Hmain|].
  split; [|split].
  - apply (mkdir_p_keeps_dirs _ _ _ _ Hmk3), (mkdir_p_keeps_dirs _ _ _ _ Hmk2).
    exact (mkdir_p_is_dir _ _ _ Hmk1).
  - apply (mkdir_p_keeps_dirs _ _ _ _ Hmk3). exact (mkdir_p_is_dir _ _ _ Hmk2).
  - exact (mkdir_p_is_dir _ _ _ Hmk3).
Qed.

Lemma main_without_workbook_witness :
  let args := mkArgs None None None in
  let env := mkEnv None ["proj"] in
  let w := world_of tree_with_crm in
  let t3 := FS.Dir [ ("proj",
              FS.Dir [ ("crm.xlsx", FS.File "crm");
                       ("data", FS.Dir [ ("processed", FS.Dir []);
                                         ("raw", FS.Dir []) ]);
                       ("reports", FS.Dir []) ]) ] in
  main args env w
  = (Raise (FileNotFoundError
              "Could not find source Excel at proj/data/raw/CRM_Sales_Dashboard_25.xlsx"),
     world_of t3) /\
  exit_code (run_script (main args env) w) = 1%Z /\
  FS.is_dir ["proj"; "data"; "processed"] t3 = true /\
  FS.is_dir ["proj"; "reports"] t3 = true /\
  FS.is_dir ["proj"; "data"; "raw"] t3 = true.
Proof.
  apply (@main_without_workbook SmallLibs SmallRuntime
           (mkArgs None None None) (mkEnv None ["proj"]) (world_of tree_with_crm)
           (FS.Dir [ ("proj",
              FS.Dir [ ("crm.xlsx", FS.File "crm");
                       ("data", FS.Dir [ ("processed", FS.Dir []) ]) ]) ])
           (FS.Dir [ ("proj",
              FS.Dir [ ("crm.xlsx", FS.File "crm");
                       ("data", FS.Dir [ ("processed", FS.Dir []) ]);
                       ("reports", FS.Dir []) ]) ]));
    reflexivity.
Defined.

(** *** Steps that only print *)

Section ConsoleOnly.
Context `{Libs}.

Lemma console_ret {A} (a : A) : console_only (ret a).
Proof. exists (Ok a). now intros w. Qed.

Lemma console_raise {A} (e : exn) : console_only (@raise _ A e).
Proof. exists (Raise e). now intros w. Qed.

Lemma console_lift {A} (r : result A) : console_only (lift r).
Proof. destruct r; [apply console_ret | apply console_raise]. Qed.

Lemma console_print (line : string) : console_only (print line).
Proof. exists (Ok tt). now intros w. Qed.

Lemma console_bind {A B} (c : M A) (k : A -> M B) :
  console_only c -> (forall a, console_only (k a)) -> console_only (bind c k).
Proof.
  intros [r Hc] Hk. destruct r as [a|e].
  - destruct (Hk a) as [rb Hkb]. exists rb. intros w.
    destruct (Hc w) as [Hr Hfs]. unfold bind.
    destruct (c w) as [ra w1]. simpl in Hr, Hfs. subst ra.
    destruct (Hkb w1) as [Hrb Hfsb]. split; [exact Hrb | congruence].
  - exists (Raise e). intros w. destruct (Hc w) as [Hr Hfs]. unfold bind.
    destruct (c w) as [ra w1]. simpl in Hr, Hfs. subst ra. now split.
Qed.

Lemma console_detect_sheet_names (names : list string) :
  console_only (detect_sheet_names names).
Proof.
  unfold detect_sheet_names.
  repeat (apply console_bind; [|intros]);
    first [apply console_print | apply console_lift | apply console_ret].
Qed.

Lemma console_main_select_sheets (d t : option string) (names : list string) :
  console_only (main_select_sheets d t names).
Proof.
  unfold main_select_sheets. destruct (orb _ _); [|apply console_ret].
  apply console_bind; [apply console_detect_sheet_names|].
  intros [a b]. apply console_ret.
Qed.

Lemma console_process_and_merge (deals_df teams_df : DF.DataFrame) :
  console_only (process_and_merge deals_df teams_df).
Proof.
  unfold process_and_merge. destruct (andb _ _); [apply console_lift|].
  apply console_bind; [apply console_print | intros; apply console_ret].
Qed.

(** A step that returns hands its result and its world to the rest. *)
Lemma bind_inv_ok {A B} (c : M A) (k : A -> M B) (w w' : World) (b : B) :
  bind c k w = (Ok b, w') ->
  exists a w1, c w = (Ok a, w1) /\ k a w1 = (Ok b, w').
Proof.
  unfold bind. destruct (c w) as [[a|e] w1]; [|discriminate].
  intros Hk. now exists a, w1.
Qed.

(** The sheets [main] loads are always named. *)
Lemma main_select_sheets_some (d t : option string) (names : list string)
      (w w' : World) (sheets : option string * option string) :
  main_select_sheets d t names w = (Ok sheets, w') ->
  exists ds ts, sheets = (Some ds, Some ts).
Proof.
  unfold main_select_sheets.
  destruct (PyStr.truthy_opt d) eqn:Hd, (PyStr.truthy_opt t) eqn:Ht; cbn [negb orb].
  - destruct d as [ds|]; [|discriminate]. destruct t as [ts|]; [|discriminate].
    intros [= <- _]. eauto.
  - intros Hb. apply bind_inv_ok in Hb as ([a b] & w1 & _ & [= <- _]). eauto.
  - intros Hb. apply bind_inv_ok in Hb as ([a b] & w1 & _ & [= <- _]). eauto.
  - intros Hb. apply bind_inv_ok in Hb as ([a b] & w1 & _ & [= <- _]). eauto.
Qed.

End ConsoleOnly.

Lemma lift_inv_ok `{Libs} {A} (r : result A) (w w' : World) (a : A) :
  lift r w = (Ok a, w') -> r = Ok a /\ w' = w.
Proof. destruct r; simpl; unfold ret, raise; intros [= <- <-] || discriminate; now split. Qed.

Lemma print_inv `{Libs} (line : string) (w w' : World) (u : unit) :
  print line w = (Ok u, w') -> fs w' = fs w.
Proof. unfold print. now intros [= _ <-]. Qed.

Lemma ensure_excel_available_ok `{Libs}
      (src_excel raw_dir : FS.path) (name : string) (w w' : World) (p : FS.path) :
  ensure_excel_available src_excel raw_dir name w = (Ok p, w') ->
  p = raw_dir ++ [name].
Proof.
  rewrite ensure_excel_available_run.
  destruct (FS.mkdir_p raw_dir (fs w)) as [t|e]; [|discriminate]. cbv zeta.
  destruct (FS.exists_ (raw_dir ++ [name]) t); [now intros [= <- _]|].
  destruct (FS.lookup src_excel t) as [[data|sub]|]; try discriminate.
  destruct (FS.write_file (raw_dir ++ [name]) data t); [|discriminate].
  now intros [= <- _].
Qed.

Section Loading.
Context `{Libs} `{Runtime}.

Lemma open_workbook_inv (p : FS.path) (w w' : World) (xls : Workbook) :
  open_workbook p w = (Ok xls, w') ->
  w' = w /\ exists data, FS.lookup p (fs w) = Some (FS.File data) /\
                         ExcelFile data = Ok xls.
Proof.
  unfold open_workbook. destruct (FS.lookup p (fs w)) as [[data|sub]|]; try discriminate.
  intros Hl. apply lift_inv_ok in Hl as [Hx ->]. split; [reflexivity|]. eauto.
Qed.

Lemma read_sheet_inv (xls : Workbook) (name : option string) (w w' : World)
      (df : DF.DataFrame) :
  read_sheet xls name w = (Ok df, w') ->
  w' = w /\ exists s, name = Some s /\ read_excel xls s = Ok df.
Proof.
  destruct name as [s|]; simpl; [|discriminate].
  intros Hl. apply lift_inv_ok in Hl as [Hx ->]. split; [reflexivity|]. eauto.
Qed.

(** What a successful load has done: the workbook is the regular file in
    the raw-data directory, the two tables are the sheets the selection
    names, and no file has been altered. *)
Lemma load_tables_ok (args : Args) (raw_dir : FS.path) (w w' : World)
      (tables : DF.DataFrame * DF.DataFrame) :
  load_tables args raw_dir w = (Ok tables, w') ->
  exists data xls d t,
    FS.lookup (raw_dir ++ [canonical_name]) (fs w') = Some (FS.File data) /\
    ExcelFile data = Ok xls /\
    (forall w0, fst (main_select_sheets (deals_sheet args) (teams_sheet args)
                                        (sheet_names xls) w0)
                = Ok (Some d, Some t)) /\
    read_excel xls d = Ok (fst tables) /\
    read_excel xls t = Ok (snd tables).
Proof.
  unfold load_tables. intros Hrun.
  apply bind_inv_ok in Hrun as (p & wa & Hens & Hrun).
  apply ensure_excel_available_ok in Hens as ->.
  apply bind_inv_ok in Hrun as (xls & wb & Hopen & Hrun).
  apply open_workbook_inv in Hopen as (-> & data & Hfile & Hxls).
  apply bind_inv_ok in Hrun as (sheets & wc & Hsel & Hrun).
  destruct (main_select_sheets_some _ _ _ _ _ _ Hsel) as (d & t & ->).
  destruct (console_main_select_sheets (deals_sheet args) (teams_sheet args)
                                       (sheet_names xls)) as [r Hr].
  assert (r = Ok (Some d, Some t) /\ fs wc = fs wa) as [-> Hfs].
  { destruct (Hr wa) as [Hfst Hsnd]. rewrite Hsel in Hfst, Hsnd. now split. }
  apply bind_inv_ok in Hrun as (deals_df & wd & Hd & Hrun).
  apply read_sheet_inv in Hd as (-> & s1 & [= <-] & Hdeals).
  apply bind_inv_ok in Hrun as (teams_df & we & Ht & Hrun).
  apply read_sheet_inv in Ht as (-> & s2 & [= <-] & Hteams).
  apply bind_inv_ok in Hrun as (u1 & wf & Hp1 & Hrun).
  apply bind_inv_ok in Hrun as (u2 & wg & Hp2 & Hrun).
  apply print_inv in Hp1, Hp2. injection Hrun as <- <-.
  exists data, xls, d, t. cbn [fst snd].
  split; [congruence|]. split; [exact Hxls|]. split; [|now split].
  intros w0. now destruct (Hr w0).
Qed.

End Loading.

(** Two paths below the same root that part ways differ. *)
Ltac paths_differ :=
  let Heq := fresh "Heq" in
  intros Heq; repeat rewrite <- app_assoc in Heq;
  apply app_inv_head in Heq; discriminate Heq.

Ltac not_a_target :=
  let Hin := fresh "Hin" in
  cbn [In]; intros Hin;
  repeat (destruct Hin as [Hin|Hin]; [revert Hin; paths_differ|]);
  exact Hin.

Section WholeRun.
Context `{Libs} `{Runtime}.

Lemma process_and_merge_inv (deals_df teams_df merged : DF.DataFrame) (w w' : World) :
  process_and_merge deals_df teams_df w = (Ok merged, w') ->
  fs w' = fs w /\
  merged = (if andb (DF.has_column "SalesRep" deals_df)
                    (DF.has_column "SalesRep" teams_df)
            then DF.merge_left "SalesRep" deals_df teams_df
            else deals_df).
Proof.
  unfold process_and_merge. destruct (andb _ _).
  - unfold lift, merge. destruct (merge_accepts _ _ _); [|discriminate].
    now intros [= <- <-].
  - unfold bind, print, ret. now intros [= <- <-].
Qed.

Lemma save_csv_inv (merged : DF.DataFrame) (processed_dir : FS.path) (w w' : World) :
  save_csv merged processed_dir w = (Ok tt, w') ->
  FS.lookup (processed_dir ++ [csv_name]) (fs w') = Some (FS.File (to_csv merged)).
Proof.
  unfold save_csv, bind, write_text, fs_update, print.
  destruct (FS.write_file _ _ (fs w)) as [t|e] eqn:Hw; [|discriminate].
  intros [= <-]. cbn [fs]. exact (write_file_lookup _ _ _ _ Hw).
Qed.

Lemma save_summary_report_inv (s : summary) (reports_dir : FS.path) (w w' : World) :
  save_summary_report s reports_dir w = (Ok tt, w') ->
  FS.lookup (reports_dir ++ ["summary_report.txt"]) (fs w')
  = Some (FS.File (String.concat EmptyString (map summary_line s))).
Proof.
  rewrite save_summary_report_run.
  destruct (FS.mkdir_p reports_dir (fs w)) as [t|e]; [|discriminate].
  destruct (FS.write_file _ _ t) as [t1|e] eqn:Hw1; [|discriminate].
  intros [= <-]. cbn [printed fs]. exact (write_file_lookup _ _ _ _ Hw1).
Qed.

Lemma kept {A} (targets : list FS.path) (c : M A) (w w' : World) (r : result A)
      (q : FS.path) (x : string) :
  keeps_files_except targets c ->
  c w = (r, w') ->
  ~ In q targets ->
  FS.lookup q (fs w) = Some (FS.File x) ->
  FS.lookup q (fs w') = Some (FS.File x).
Proof.
  intros Hk Hrun Hq Hfile. specialize (Hk w q x Hq Hfile). now rewrite Hrun in Hk.
Qed.

End WholeRun.

(** X18. What a run of the updated script that returns has produced.  The
    raw-data directory holds the workbook; the two tables are the sheets of
    that workbook named by the sheet selection; the processed CSV is the
    CSV text of their merge (the left join on SalesRep, or the deals table
    alone when a key column is missing); and [summary_report.txt] holds the
    lines of the summary of the merged table. *)
Theorem main_returns `{Libs} `{Runtime}
        (args : Args) (env : Env) (w w' : World) :
  main args env w = (Ok tt, w') ->
  let root := project_root None env in
  exists data xls d t deals_df teams_df s,
    FS.lookup ((root ++ ["data"; "raw"]) ++ [canonical_name]) (fs w')
    = Some (FS.File data) /\
    ExcelFile data = Ok xls /\
    (forall w0, fst (main_select_sheets (deals_sheet args) (teams_sheet args)
                                        (sheet_names xls) w0)
                = Ok (Some d, Some t)) /\
    read_excel xls d = Ok deals_df /\
    read_excel xls t = Ok teams_df /\
    let merged := if andb (DF.has_column "SalesRep" deals_df)
                          (DF.has_column "SalesRep" teams_df)
                  then DF.merge_left "SalesRep" deals_df teams_df
                  else deals_df in
    FS.lookup ((root ++ ["data"; "processed"]) ++ [csv_name]) (fs w')
    = Some (FS.File (to_csv merged)) /\
    generate_summary merged = Ok s /\
    FS.lookup ((root ++ ["reports"]) ++ ["summary_report.txt"]) (fs w')
    = Some (FS.File (String.concat EmptyString (map summary_line s))).
Proof.
  intros Hrun root. unfold main in Hrun. fold root in Hrun.
  apply bind_inv_ok in Hrun as (u1 & w1 & _ & Hrun).
  apply bind_inv_ok in Hrun as (u2 & w2 & _ & Hrun).
  apply bind_inv_ok in Hrun as ([deals_df teams_df] & w3 & Hload & Hrun).
  apply load_tables_ok in Hload as (data & xls & d & t & Hraw & Hxls & Hsel & Hd & Ht).
  cbn [fst snd] in *.
  apply bind_inv_ok in Hrun as (merged & w4 & Hmerge & Hrun).
  apply process_and_merge_inv in Hmerge as [Hfs4 ->].
  set (merged := if andb (DF.has_column "SalesRep" deals_df)
                         (DF.has_column "SalesRep" teams_df)
                 then DF.merge_left "SalesRep" deals_df teams_df
                 else deals_df) in *.
  rewrite <- Hfs4 in Hraw.
  apply bind_inv_ok in Hrun as ([] & w5 & Hcsv & Hrun).
  pose proof (keeps_save_csv [(root ++ ["data"; "processed"]) ++ [csv_name]]
                             merged _ (or_introl eq_refl)) as Hk5.
  pose proof (fun Hq => kept _ _ _ _ _ _ _ Hk5 Hcsv Hq Hraw) as Hraw5;
    specialize (Hraw5 ltac:(not_a_target)).
  apply save_csv_inv in Hcsv.
  apply bind_inv_ok in Hrun as (s & w5' & Hsum & Hrun).
  apply lift_inv_ok in Hsum as [Hsum ->].
  apply bind_inv_ok in Hrun as ([] & w6 & Hsave & Hrun).
  pose proof (keeps_save_summary_report
                [(root ++ ["reports"]) ++ ["summary_report.txt"]] s _
                (or_introl eq_refl)) as Hk6.
  pose proof (fun Hq => kept _ _ _ _ _ _ _ Hk6 Hsave Hq Hraw5) as Hraw6;
    specialize (Hraw6 ltac:(not_a_target)).
  pose proof (fun Hq => kept _ _ _ _ _ _ _ Hk6 Hsave Hq Hcsv) as Hcsv6;
    specialize (Hcsv6 ltac:(not_a_target)).
  apply save_summary_report_inv in Hsave.
  apply bind_inv_ok in Hrun as ([] & w7 & Hcharts & Hrun).
  pose proof (keeps_generate_charts
                [(root ++ ["reports"]) ++ ["revenue_by_stage.png"];
                 (root ++ ["reports"]) ++ ["top_sales_reps.png"]] merged
                (root ++ ["reports"]) (or_introl eq_refl)
                (or_intror (or_introl eq_refl))) as Hk7.
  pose proof (fun Hq => kept _ _ _ _ _ _ _ Hk7 Hcharts Hq Hraw6) as Hraw7;
    specialize (Hraw7 ltac:(not_a_target)).
  pose proof (fun Hq => kept _ _ _ _ _ _ _ Hk7 Hcharts Hq Hcsv6) as Hcsv7;
    specialize (Hcsv7 ltac:(not_a_target)).
  pose proof (fun Hq => kept _ _ _ _ _ _ _ Hk7 Hcharts Hq Hsave) as Hsum7;
    specialize (Hsum7 ltac:(not_a_target)).
  pose proof (keeps_train_model
                [(root ++ ["reports"]) ++ ["model_report.txt"]] merged
                (root ++ ["reports"]) (or_introl eq_refl)) as Hk8.
  pose proof (fun Hq => kept _ _ _ _ _ _ _ Hk8 Hrun Hq Hraw7) as Hraw8;
    specialize (Hraw8 ltac:(not_a_target)).
  pose proof (fun Hq => kept _ _ _ _ _ _ _ Hk8 Hrun Hq Hcsv7) as Hcsv8;
    specialize (Hcsv8 ltac:(not_a_target)).
  pose proof (fun Hq => kept _ _ _ _ _ _ _ Hk8 Hrun Hq Hsum7) as Hsum8;
    specialize (Hsum8 ltac:(not_a_target)).
  exists data, xls, d, t, deals_df, teams_df, s.
  repeat (split; [assumption|]). assumption.
Qed.

Lemma main_returns_witness :
  let args := mkArgs (Some "proj/crm.xlsx") None None in
  let env := mkEnv None ["proj"] in
  let w' := snd (main args env (world_of tree_with_crm)) in
  exists data xls d t deals_df teams_df s,
    FS.lookup ((["proj"] ++ ["data"; "raw"]) ++ [canonical_name]) (fs w')
    = Some (FS.File data) /\
    ExcelFile data = Ok xls /\
    (forall w0, fst (main_select_sheets None None (sheet_names xls) w0)
                = Ok (Some d, Some t)) /\
    read_excel xls d = Ok deals_df /\
    read_excel xls t = Ok teams_df /\
    let merged := if andb (DF.has_column "SalesRep" deals_df)
                          (DF.has_column "SalesRep" teams_df)
                  then DF.merge_left "SalesRep" deals_df teams_df
                  else deals_df in
    FS.lookup ((["proj"] ++ ["data"; "processed"]) ++ [csv_name]) (fs w')
    = Some (FS.File (to_csv merged)) /\
    generate_summary merged = Ok s /\
    FS.lookup ((["proj"] ++ ["reports"]) ++ ["summary_report.txt"]) (fs w')
    = Some (FS.File (String.concat EmptyString (map summary_line s))).
Proof.
  apply (@main_returns SmallLibs SmallRuntime
           (mkArgs (Some "proj/crm.xlsx") None None) (mkEnv None ["proj"])
           (world_of tree_with_crm)).
  vm_compute. reflexivity.
Defined.

(** X19. A run of the original script that returns has written the same
    CSV as the updated script describes: the CSV text of the merge of the
    two selected sheets of the workbook in the raw-data directory. *)
Theorem main_original_returns `{Libs} `{Runtime}
        (args : Args) (env : Env) (w w' : World) :
  main_original args env w = (Ok tt, w') ->
  let root := project_root None env in
  exists data xls d t deals_df teams_df,
    FS.lookup ((root ++ ["data"; "raw"]) ++ [canonical_name]) (fs w')
    = Some (FS.File data) /\
    ExcelFile data = Ok xls /\
    (forall w0, fst (main_select_sheets (deals_sheet args) (teams_sheet args)
                                        (sheet_names xls) w0)
                = Ok (Some d, Some t)) /\
    read_excel xls d = Ok deals_df /\
    read_excel xls t = Ok teams_df /\
    FS.lookup ((root ++ ["data"; "processed"]) ++ [csv_name]) (fs w')
    = Some (FS.File
              (to_csv (if andb (DF.has_column "SalesRep" deals_df)
                               (DF.has_column "SalesRep" teams_df)
                       then DF.merge_left "SalesRep" deals_df teams_df
                       else deals_df))).
Proof.
  intros Hrun root. unfold main_original in Hrun. fold root in Hrun.
  apply bind_inv_ok in Hrun as (u1 & w1 & _ & Hrun).
  apply bind_inv_ok in Hrun as ([deals_df teams_df] & w3 & Hload & Hrun).
  apply load_tables_ok in Hload as (data & xls & d & t & Hraw & Hxls & Hsel & Hd & Ht).
  cbn [fst snd] in *.
  apply bind_inv_ok in Hrun as (merged & w4 & Hmerge & Hrun).
  change (main_merge deals_df teams_df) with (process_and_merge deals_df teams_df)
    in Hmerge.
  apply process_and_merge_inv in Hmerge as [Hfs4 ->].
  rewrite <- Hfs4 in Hraw.
  match type of Hrun with
  | save_csv ?m ?p _ = _ =>
      pose proof (keeps_save_csv [p ++ [csv_name]] m p (or_introl eq_refl)) as Hk5
  end.
  pose proof (fun Hq => kept _ _ _ _ _ _ _ Hk5 Hrun Hq Hraw) as Hraw5;
    specialize (Hraw5 ltac:(not_a_target)).
  apply save_csv_inv in Hrun.
  exists data, xls, d, t, deals_df, teams_df.
  repeat (split; [assumption|]). assumption.
Qed.

Lemma main_original_returns_witness :
  let args := mkArgs (Some "proj/crm.xlsx") (Some "Pipeline") None in
  let env := mkEnv None ["proj"] in
  let w' := snd (main_original args env (world_of tree_with_crm)) in
  exists data xls d t deals_df teams_df,
    FS.lookup ((["proj"] ++ ["data"; "raw"]) ++ [canonical_name]) (fs w')
    = Some (FS.File data) /\
    ExcelFile data = Ok xls /\
    (forall w0, fst (main_select_sheets (Some "Pipeline") None (sheet_names xls) w0)
                = Ok (Some d, Some t)) /\
    read_excel xls d = Ok deals_df /\
    read_excel xls t = Ok teams_df /\
    FS.lookup ((["proj"] ++ ["data"; "processed"]) ++ [csv_name]) (fs w')
    = Some (FS.File
              (to_csv (if andb (DF.has_column "SalesRep" deals_df)
                               (DF.has_column "SalesRep" teams_df)
                       then DF.merge_left "SalesRep" deals_df teams_df
                       else deals_df))).
Proof.
  apply (@main_original_returns SmallLibs SmallRuntime
           (mkArgs (Some "proj/crm.xlsx") (Some "Pipeline") None)
           (mkEnv None ["proj"]) (world_of tree_with_crm)).
  vm_compute. reflexivity.
Defined.

Lemma mkdir_existing `{Libs} (p : FS.path) (w : World) :
  FS.is_dir p (fs w) = true -> mkdir p w = (Ok tt, w).
Proof.
  intros Hdir. unfold mkdir, fs_update. rewrite (mkdir_p_existing _ _ Hdir).
  now rewrite world_eta.
Qed.

(** X20. Supplied sheet names are not checked against the workbook.  In a
    project whose directories and raw workbook are in place, with both
    names supplied, a name the reader rejects ends the run with the
    reader's error and exit code 1 before anything is printed or written;
    this holds for the deals sheet, and for the teams sheet once the deals
    sheet has been read. *)
Theorem main_unknown_sheet `{Libs} `{Runtime}
        (source : option string) (d t : string) (env : Env) (w : World)
        (data : string) (xls : Workbook) (e : exn) :
  let root := project_root None env in
  let args := mkArgs source (Some d) (Some t) in
  FS.is_dir (root ++ ["data"; "processed"]) (fs w) = true ->
  FS.is_dir (root ++ ["reports"]) (fs w) = true ->
  FS.lookup ((root ++ ["data"; "raw"]) ++ [canonical_name]) (fs w)
  = Some (FS.File data) ->
  ExcelFile data = Ok xls ->
  d <> EmptyString ->
  t <> EmptyString ->
  (read_excel xls d = Raise e \/
   (exists deals_df, read_excel xls d = Ok deals_df) /\ read_excel xls t = Raise e) ->
  main args env w = (Raise e, w) /\
  main_original args env w = (Raise e, w) /\
  run_script (main args env) w
  = mkOutcome 1%Z [("[ERROR] " ++ str_of_exn e)%string] w.
Proof.
  intros root args Hproc Hrep Hraw Hxls Hd Ht Hread.
  assert (PyStr.truthy d = true) as Td by (destruct d; [congruence|reflexivity]).
  assert (PyStr.truthy t = true) as Tt by (destruct t; [congruence|reflexivity]).
  assert (FS.exists_ ((root ++ ["data"; "raw"]) ++ [canonical_name]) (fs w) = true)
    as Hex by (unfold FS.exists_; now rewrite Hraw).
  assert (load_tables args (root ++ ["data"; "raw"]) w = (Raise e, w)) as Hload.
  { unfold load_tables.
    rewrite (bind_ok _ _ w w ((root ++ ["data"; "raw"]) ++ [canonical_name])).
    2:{ rewrite ensure_excel_available_run.
        rewrite (mkdir_p_existing _ _ (parent_is_dir _ _ _ Hex)). cbv zeta.
        rewrite Hex. now rewrite world_eta. }
    rewrite (bind_ok _ _ w w xls)
      by (unfold open_workbook; rewrite Hraw, Hxls; reflexivity).
    rewrite (bind_ok _ _ w w (Some d, Some t))
      by (unfold main_select_sheets, args; cbn [deals_sheet teams_sheet
            PyStr.truthy_opt]; rewrite Td, Tt; reflexivity).
    cbn [fst snd read_sheet].
    destruct Hread as [Hdeals | [[deals_df Hdeals] Hteams]].
    - apply bind_raise. now rewrite Hdeals.
    - rewrite (bind_ok _ _ w w deals_df) by now rewrite Hdeals.
      apply bind_raise. now rewrite Hteams. }
  assert (main args env w = (Raise e, w)) as Hmain.
  { unfold main. fold root.
    rewrite (bind_ok _ _ w w tt) by now apply mkdir_existing.
    rewrite (bind_ok _ _ w w tt) by now apply mkdir_existing.
    now apply bind_raise. }
  split; [exact Hmain|]. split.
  - unfold main_original. fold root.
    rewrite (bind_ok _ _ w w tt) by now apply mkdir_existing.
    now apply bind_raise.
  - unfold run_script. now rewrite Hmain.
Qed.

Lemma main_unknown_sheet_witness :
  let args := mkArgs None (Some "Deals 2024") (Some "Sales Team") in
  let env := mkEnv None ["proj"] in
  let w := world_of tree_after_run in
  main args env w = (Raise ValueError, w) /\
  main_original args env w = (Raise ValueError, w) /\
  run_script (main args env) w
  = mkOutcome 1%Z [("[ERROR] " ++ str_of_exn ValueError)%string] w.
Proof.
  apply (@main_unknown_sheet SmallLibs SmallRuntime None "Deals 2024" "Sales Team"
           (mkEnv None ["proj"]) (world_of tree_after_run) "crm" crm_workbook
           ValueError);
    try reflexivity; try discriminate.
  left. reflexivity.
Defined.
